(** * Rituals scene: timed portal, countdown, fall zones and tree camera

    A shallow embedding of the scene logic of [src/index.ts] (timed launch of
    the RockScape portal, countdown text, kersplat fall scanner) and of
    [src/cameraSystem.ts] (the cinematic camera phases), with the properties
    the scene description states about them.

    Conventions of the embedding
    - [Date.now()] and the launch timestamps are integers of milliseconds: [Z].
    - The frame delta [dt] (seconds), accumulated timers and world coordinates
      are JavaScript numbers; they are modelled as exact rationals [Q].
    - Module-level [let] variables become record fields; a system callback
      becomes a function from the frame's inputs and the state to the state.
    - Calls into the host (addTrigger, movePlayerTo, MainCamera) are recorded
      in the state: a counter or the last value written. *)

From Stdlib Require Import ZArith QArith Qabs Qminmax Bool List String Ascii Lia Lqa.
From Stdlib Require Import DecimalString.
Import ListNotations.

Local Open Scope Z_scope.

(** ** Numbers and strings as JavaScript prints them *)

Module JS.

(** [Math.floor(a / b)] for integers [a] and a positive integer [b]. *)
Definition floor_div (a b : Z) : Z := Z.div a b.

(** [a % b]: the remainder takes the sign of the dividend. *)
Definition rem (a b : Z) : Z := Z.rem a b.

(** [`${n}`] for an integer [n]: decimal digits, a leading [-] if negative. *)
Definition toString (n : Z) : string := NilZero.string_of_int (Z.to_int n).

(** The character written ['\n'] in the source. *)
Definition newline : string := String (ascii_of_nat 10) EmptyString.

(** [a < b] on numbers modelled in [Q]. *)
Definition Qlt_bool (a b : Q) : bool := negb (Qle_bool b a).

End JS.

(** ** Launch configuration (the constants at the top of index.ts) *)

Record Config : Type := mkConfig {
  ROCKSCAPE_PORTAL_SHUTDOWN : bool;
  ENABLE_TIMED_LAUNCH : bool;
  LAUNCH_START_TIME : Z;
  LAUNCH_END_TIME : Z
}.

(** The values the repository ships:
    [new Date('2025-11-01T01:00:00Z').getTime()] is 1761958800000. *)
Definition source_config : Config :=
  {| ROCKSCAPE_PORTAL_SHUTDOWN := false;
     ENABLE_TIMED_LAUNCH := true;
     LAUNCH_START_TIME := 1761958800000;
     LAUNCH_END_TIME := 0 |}.

(** ** Countdown formatter and window evaluator

    [milliseconds] is an integer: the callers pass the difference of a
    launch timestamp and [Date.now()]. *)

(** [const prefix = isBeforeStart ? 'PORTAL OPENS IN:\n' : 'PORTAL CLOSES IN:\n'] *)
Definition prefix (isBeforeStart : bool) : string :=
  ((if isBeforeStart then "PORTAL OPENS IN:" else "PORTAL CLOSES IN:")
     ++ JS.newline)%string.

Definition formatTimeRemaining (milliseconds : Z) (isBeforeStart : bool) : string :=
  if milliseconds <=? 0 then
    (if isBeforeStart then "PORTAL OPENING SOON..." else "PORTAL CLOSED")%string
  else
    let totalSeconds := JS.floor_div milliseconds 1000 in
    let days := JS.floor_div totalSeconds 86400 in
    let hours := JS.floor_div (JS.rem totalSeconds 86400) 3600 in
    let minutes := JS.floor_div (JS.rem totalSeconds 3600) 60 in
    let seconds := JS.rem totalSeconds 60 in
    let prefix := prefix isBeforeStart in
    if 0 <? days then
      (prefix ++ JS.toString days ++ "d " ++ JS.toString hours ++ "h "
              ++ JS.toString minutes ++ "m")%string
    else if 0 <? hours then
      (prefix ++ JS.toString hours ++ "h " ++ JS.toString minutes ++ "m")%string
    else if 0 <? minutes then
      (prefix ++ JS.toString minutes ++ "m " ++ JS.toString seconds ++ "s")%string
    else
      (prefix ++ JS.toString seconds ++ "s")%string.

(** [shouldPortalBeActive()], with its one read of [Date.now()] as argument. *)
Definition shouldPortalBeActive (cfg : Config) (now : Z) : bool :=
  if ROCKSCAPE_PORTAL_SHUTDOWN cfg then false
  else if negb (ENABLE_TIMED_LAUNCH cfg) then true
  else if LAUNCH_END_TIME cfg =? 0 then LAUNCH_START_TIME cfg <=? now
  else (LAUNCH_START_TIME cfg <=? now) && (now <? LAUNCH_END_TIME cfg).

(** ** Host runtime: vectors, one-shot timers *)

Record Vector3 : Type := mkVector3 { vx : Q; vy : Q; vz : Q }.

Module Vec.
Definition create (x y z : Q) : Vector3 := mkVector3 x y z.
Definition Zero : Vector3 := mkVector3 0 0 0.

(** [Vector3.lerp(a, b, t)]: componentwise [a + (b - a) * t]. *)
Definition lerp (a b : Vector3) (t : Q) : Vector3 :=
  mkVector3 (vx a + (vx b - vx a) * t)
            (vy a + (vy b - vy a) * t)
            (vz a + (vz b - vz a) * t).
End Vec.

(** [utils.timers.setTimeout(callback, ms)] of the host utilities library, by
    its contract: the callback runs once, in the first frame whose clock has
    reached the time of the call plus [ms]. The clock is the accumulated
    [1000 * dt] of the frames. Callbacks are named by a constructor of the
    type [C]; the scene gives them their meaning. *)
Module Timers.
Section WithCallbacks.
Context {C : Type}.

Record Timer : Type := mkTimer { due : Q; callback : C }.

Definition setTimeout (clock : Q) (cb : C) (ms : Q) (timers : list Timer)
  : list Timer :=
  timers ++ [mkTimer (clock + ms) cb].

Definition expired (clock : Q) (t : Timer) : bool := Qle_bool (due t) clock.

(** The callbacks to run in this frame, oldest first, and the timers that
    stay pending. *)
Definition poll (clock : Q) (timers : list Timer) : list C * list Timer :=
  (map callback (filter (expired clock) timers),
   filter (fun t => negb (expired clock t)) timers).
End WithCallbacks.
Arguments Timer : clear implicits.
End Timers.

(** ** Zone membership: the per-axis test written inline in index.ts

    [Math.abs(playerPos.x - zonePos.x) <= sizeX / 2 && ...y... && ...z...] *)
Module Zone.
Definition within (dist size : Q) : bool := Qle_bool dist (size / 2).

Definition withinBox (zonePos : Vector3) (sizeX sizeY sizeZ : Q)
           (playerPos : Vector3) : bool :=
  let distX := Qabs (vx playerPos - vx zonePos) in
  let distY := Qabs (vy playerPos - vy zonePos) in
  let distZ := Qabs (vz playerPos - vz zonePos) in
  within distX sizeX && within distY sizeY && within distZ sizeZ.
End Zone.

(** ** The timed portal (index.ts, "State tracking for timed launch") *)

Module Portal.

Inductive Callback : Type :=
  | ResetInstantTeleportCheck.   (* () => { instantTeleportCheckActive = false } *)

Record State : Type := mkState {
    (* module-level variables *)
    isPortalActive : bool;
    countdownText : string;
    timeSinceLastCheck : Q;
    triggerAdded : bool;
    instantTeleportCheckActive : bool;
    (* host components written by the scene *)
    portalScapeTopRotated_scale : Vector3;
    triggerZone_scale : Vector3;
    countdownTimer_scale : option Vector3;
    countdownTimer_text : option string;
    (* calls into the host *)
    triggerZone_addTrigger_calls : nat; (* enter-callbacks registered on it *)
    movePlayerTo_calls : nat;           (* teleports to (169, 3.4, 9.8) *)
    systemInstalled : bool;             (* engine.addSystem of the countdown *)
    clock : Q;
    timers : list (Timers.Timer Callback)
  }.

Definition set_isPortalActive (v : bool) (s : State) : State :=
    mkState v (countdownText s) (timeSinceLastCheck s) (triggerAdded s)
      (instantTeleportCheckActive s) (portalScapeTopRotated_scale s)
      (triggerZone_scale s) (countdownTimer_scale s) (countdownTimer_text s)
      (triggerZone_addTrigger_calls s) (movePlayerTo_calls s) (systemInstalled s)
      (clock s) (timers s).

Definition set_countdownText (v : string) (s : State) : State :=
    mkState (isPortalActive s) v (timeSinceLastCheck s) (triggerAdded s)
      (instantTeleportCheckActive s) (portalScapeTopRotated_scale s)
      (triggerZone_scale s) (countdownTimer_scale s) (countdownTimer_text s)
      (triggerZone_addTrigger_calls s) (movePlayerTo_calls s) (systemInstalled s)
      (clock s) (timers s).

Definition set_timeSinceLastCheck (v : Q) (s : State) : State :=
    mkState (isPortalActive s) (countdownText s) v (triggerAdded s)
      (instantTeleportCheckActive s) (portalScapeTopRotated_scale s)
      (triggerZone_scale s) (countdownTimer_scale s) (countdownTimer_text s)
      (triggerZone_addTrigger_calls s) (movePlayerTo_calls s) (systemInstalled s)
      (clock s) (timers s).

Definition set_triggerAdded (v : bool) (s : State) : State :=
    mkState (isPortalActive s) (countdownText s) (timeSinceLastCheck s) v
      (instantTeleportCheckActive s) (portalScapeTopRotated_scale s)
      (triggerZone_scale s) (countdownTimer_scale s) (countdownTimer_text s)
      (triggerZone_addTrigger_calls s) (movePlayerTo_calls s) (systemInstalled s)
      (clock s) (timers s).

Definition set_instantTeleportCheckActive (v : bool) (s : State) : State :=
    mkState (isPortalActive s) (countdownText s) (timeSinceLastCheck s)
      (triggerAdded s) v (portalScapeTopRotated_scale s)
      (triggerZone_scale s) (countdownTimer_scale s) (countdownTimer_text s)
      (triggerZone_addTrigger_calls s) (movePlayerTo_calls s) (systemInstalled s)
      (clock s) (timers s).

Definition set_portalScapeTopRotated_scale (v : Vector3) (s : State) : State :=
    mkState (isPortalActive s) (countdownText s) (timeSinceLastCheck s)
      (triggerAdded s) (instantTeleportCheckActive s) v
      (triggerZone_scale s) (countdownTimer_scale s) (countdownTimer_text s)
      (triggerZone_addTrigger_calls s) (movePlayerTo_calls s) (systemInstalled s)
      (clock s) (timers s).

Definition set_triggerZone_scale (v : Vector3) (s : State) : State :=
    mkState (isPortalActive s) (countdownText s) (timeSinceLastCheck s)
      (triggerAdded s) (instantTeleportCheckActive s)
      (portalScapeTopRotated_scale s) v (countdownTimer_scale s)
      (countdownTimer_text s) (triggerZone_addTrigger_calls s)
      (movePlayerTo_calls s) (systemInstalled s) (clock s) (timers s).

Definition set_countdownTimer_scale (v : option Vector3) (s : State) : State :=
    mkState (isPortalActive s) (countdownText s) (timeSinceLastCheck s)
      (triggerAdded s) (instantTeleportCheckActive s)
      (portalScapeTopRotated_scale s) (triggerZone_scale s) v
      (countdownTimer_text s) (triggerZone_addTrigger_calls s)
      (movePlayerTo_calls s) (systemInstalled s) (clock s) (timers s).

Definition set_countdownTimer_text (v : option string) (s : State) : State :=
    mkState (isPortalActive s) (countdownText s) (timeSinceLastCheck s)
      (triggerAdded s) (instantTeleportCheckActive s)
      (portalScapeTopRotated_scale s) (triggerZone_scale s)
      (countdownTimer_scale s) v (triggerZone_addTrigger_calls s)
      (movePlayerTo_calls s) (systemInstalled s) (clock s) (timers s).

(** [utils.triggers.addTrigger(triggerZone, ..., onEnter)]: one more
    enter-callback on the teleport trigger zone. *)
Definition addTrigger_triggerZone (s : State) : State :=
    mkState (isPortalActive s) (countdownText s) (timeSinceLastCheck s)
      (triggerAdded s) (instantTeleportCheckActive s)
      (portalScapeTopRotated_scale s) (triggerZone_scale s)
      (countdownTimer_scale s) (countdownTimer_text s)
      (S (triggerZone_addTrigger_calls s)) (movePlayerTo_calls s)
      (systemInstalled s) (clock s) (timers s).

Definition movePlayerTo (s : State) : State :=
    mkState (isPortalActive s) (countdownText s) (timeSinceLastCheck s)
      (triggerAdded s) (instantTeleportCheckActive s)
      (portalScapeTopRotated_scale s) (triggerZone_scale s)
      (countdownTimer_scale s) (countdownTimer_text s)
      (triggerZone_addTrigger_calls s) (S (movePlayerTo_calls s))
      (systemInstalled s) (clock s) (timers s).

Definition set_systemInstalled (v : bool) (s : State) : State :=
    mkState (isPortalActive s) (countdownText s) (timeSinceLastCheck s)
      (triggerAdded s) (instantTeleportCheckActive s)
      (portalScapeTopRotated_scale s) (triggerZone_scale s)
      (countdownTimer_scale s) (countdownTimer_text s)
      (triggerZone_addTrigger_calls s) (movePlayerTo_calls s) v
      (clock s) (timers s).

Definition set_clock (v : Q) (s : State) : State :=
    mkState (isPortalActive s) (countdownText s) (timeSinceLastCheck s)
      (triggerAdded s) (instantTeleportCheckActive s)
      (portalScapeTopRotated_scale s) (triggerZone_scale s)
      (countdownTimer_scale s) (countdownTimer_text s)
      (triggerZone_addTrigger_calls s) (movePlayerTo_calls s) (systemInstalled s)
      v (timers s).

Definition set_timers (v : list (Timers.Timer Callback)) (s : State) : State :=
    mkState (isPortalActive s) (countdownText s) (timeSinceLastCheck s)
      (triggerAdded s) (instantTeleportCheckActive s)
      (portalScapeTopRotated_scale s) (triggerZone_scale s)
      (countdownTimer_scale s) (countdownTimer_text s)
      (triggerZone_addTrigger_calls s) (movePlayerTo_calls s) (systemInstalled s)
      (clock s) v.

Definition setTimeout (cb : Callback) (ms : Q) (s : State) : State :=
    set_timers (Timers.setTimeout (clock s) cb ms (timers s)) s.

(** State updates unfold under [simpl]. *)
Arguments set_isPortalActive /.
Arguments set_countdownText /.
Arguments set_timeSinceLastCheck /.
Arguments set_triggerAdded /.
Arguments set_instantTeleportCheckActive /.
Arguments set_portalScapeTopRotated_scale /.
Arguments set_triggerZone_scale /.
Arguments set_countdownTimer_scale /.
Arguments set_countdownTimer_text /.
Arguments set_systemInstalled /.
Arguments set_clock /.
Arguments set_timers /.
Arguments addTrigger_triggerZone /.
Arguments movePlayerTo /.
Arguments setTimeout cb ms s /.

(** What one frame reads from its environment: the frame delta, the two
    reads of [Date.now()] (in the system, then in [shouldPortalBeActive])
    and the player's position. *)
Record Frame : Type := mkFrame {
  dt : Q;
  now : Z;
  now_eval : Z;
  playerPos : Vector3
}.

Section WithConfig.
Variable cfg : Config.

Definition isBeforeStart (now : Z) : bool := now <? LAUNCH_START_TIME cfg.

Definition isActive (now : Z) : bool :=
  (LAUNCH_START_TIME cfg <=? now)
  && ((LAUNCH_END_TIME cfg =? 0) || (now <? LAUNCH_END_TIME cfg)).

(** [newCountdownText] and [timeUntilEvent] of the countdown system. *)
Definition countdown (now : Z) : string * Z :=
  if isBeforeStart now then
    let timeUntilEvent := LAUNCH_START_TIME cfg - now in
    (formatTimeRemaining timeUntilEvent true, timeUntilEvent)
  else if isActive now && (LAUNCH_END_TIME cfg =? 0) then
    ("PORTAL ACTIVE"%string, 0)
  else if isActive now then
    let timeUntilEvent := LAUNCH_END_TIME cfg - now in
    (formatTimeRemaining timeUntilEvent false, timeUntilEvent)
  else
    ("PORTAL CLOSED"%string, 0).

Definition timeUntilEvent (now : Z) : Z := snd (countdown now).

(** The text computed once in [main] (its default branches carry no
    [timeUntilEvent]). *)
Definition initialCountdown (now : Z) : string := fst (countdown now).

(** [checkInterval], in seconds. *)
Definition checkInterval (needsImmediateCheck : bool) (timeUntilEvent : Z) : Z :=
  if needsImmediateCheck then 0
  else if timeUntilEvent <=? 0 then 1
  else if timeUntilEvent <=? 5000 then 0
  else if timeUntilEvent <=? 600000 then 1
  else if timeUntilEvent <=? 3600000 then 10
  else 60.

(** The interval the system chooses in a frame, from what it reads. *)
Definition frameCheckInterval (f : Frame) (s : State) : Z :=
  let shouldBeActive := shouldPortalBeActive cfg (now_eval f) in
  let needsImmediateCheck := shouldBeActive && negb (isPortalActive s) in
  checkInterval needsImmediateCheck (timeUntilEvent (now f)).

(** "Continuous position check when portal should open but hasn't yet" *)
Definition instantTeleportCheck (f : Frame) (s : State) : State :=
  let zonePos := Vec.create (1688 # 10) 22 (-32) in
  let zoneSize := 8%Q in
  if Zone.withinBox zonePos zoneSize zoneSize zoneSize (playerPos f) then
    let s := set_instantTeleportCheckActive true s in
    let s := movePlayerTo s in
    setTimeout ResetInstantTeleportCheck 2000 s
  else s.

(** "Check if portal should activate/deactivate" *)
Definition updatePortal (shouldBeActive : bool) (s : State) : State :=
  if shouldBeActive && negb (isPortalActive s) then
    let s := set_isPortalActive true s in
    let s := set_portalScapeTopRotated_scale (Vec.create 1 1 1) s in
    let s := set_triggerZone_scale (Vec.create 2 2 2) s in
    if negb (triggerAdded s) then
      let s := addTrigger_triggerZone s in
      set_triggerAdded true s
    else s
  else if negb shouldBeActive && isPortalActive s then
    let s := set_isPortalActive false s in
    let s := set_portalScapeTopRotated_scale Vec.Zero s in
    let s := set_triggerZone_scale Vec.Zero s in
    set_countdownTimer_scale (Some Vec.Zero) s
  else s.

(** The system added by [engine.addSystem((dt) => ...)] at the end of
    [main]. *)
Definition countdownSystem (f : Frame) (s : State) : State :=
  let s := set_timeSinceLastCheck (timeSinceLastCheck s + dt f) s in
  let '(newCountdownText, timeUntilEvent) := countdown (now f) in
  let shouldBeActive := shouldPortalBeActive cfg (now_eval f) in
  let needsImmediateCheck := shouldBeActive && negb (isPortalActive s) in
  let checkInterval := checkInterval needsImmediateCheck timeUntilEvent in
  if negb needsImmediateCheck
     && JS.Qlt_bool (timeSinceLastCheck s) (inject_Z checkInterval)
  then s
  else
    let s := set_timeSinceLastCheck 0 s in
    let s :=
      if negb (String.eqb newCountdownText (countdownText s)) then
        let s := set_countdownText newCountdownText s in
        set_countdownTimer_text (Some (countdownText s)) s
      else s in
    let s :=
      if needsImmediateCheck && negb (instantTeleportCheckActive s)
      then instantTeleportCheck f s
      else s in
    updatePortal shouldBeActive s.

(** The module-level initial values. *)
Definition initial : State :=
  {| isPortalActive := false;
     countdownText := EmptyString;
     timeSinceLastCheck := 0;
     triggerAdded := false;
     instantTeleportCheckActive := false;
     portalScapeTopRotated_scale := Vec.Zero;
     triggerZone_scale := Vec.Zero;
     countdownTimer_scale := None;
     countdownTimer_text := None;
     triggerZone_addTrigger_calls := 0;
     movePlayerTo_calls := 0;
     systemInstalled := false;
     clock := 0;
     timers := [] |}.

(** The part of [main] that builds the portal: [now0] is the read of
    [Date.now()] inside [shouldPortalBeActive()], [now1] the read that
    computes the initial countdown. *)
Definition main (now0 now1 : Z) : State :=
  let s := initial in
  let s := set_isPortalActive (shouldPortalBeActive cfg now0) s in
  let s := set_portalScapeTopRotated_scale
             (if isPortalActive s then Vec.create 1 1 1 else Vec.Zero) s in
  let s := set_triggerZone_scale
             (if isPortalActive s then Vec.create 2 2 2 else Vec.Zero) s in
  let s := if isPortalActive s then addTrigger_triggerZone s else s in
  if ENABLE_TIMED_LAUNCH cfg && negb (ROCKSCAPE_PORTAL_SHUTDOWN cfg) then
    let s := set_countdownText (initialCountdown now1) s in
    let s := set_countdownTimer_scale (Some (Vec.create 1 1 1)) s in
    let s := set_countdownTimer_text (Some (initialCountdown now1)) s in
    set_systemInstalled true s
  else s.

Definition runCallback (cb : Callback) (s : State) : State :=
  match cb with
  | ResetInstantTeleportCheck => set_instantTeleportCheckActive false s
  end.

(** The state the countdown system sees in a frame: clock advanced, due
    timers run. *)
Definition beforeSystem (f : Frame) (s : State) : State :=
  let s := set_clock (clock s + 1000 * dt f) s in
  let '(cbs, pending) := Timers.poll (clock s) (timers s) in
  let s := set_timers pending s in
  fold_left (fun s cb => runCallback cb s) cbs s.

(** One frame of the engine: the clock advances, due timers run, then
    the countdown system if [main] installed it. *)
Definition frame (f : Frame) (s : State) : State :=
  let s := beforeSystem f s in
  if systemInstalled s then countdownSystem f s else s.

Definition run (frames : list Frame) (s : State) : State :=
  fold_left (fun s f => frame f s) frames s.

(** Enter-callback of the 8x8x8 waiting zone. *)
Definition instantTeleportZone_onEnter (s : State) : State :=
  if instantTeleportCheckActive s then movePlayerTo s else s.

(** *** Views of the state used to state its properties *)

(** The part of the state the activation logic reads and writes. *)
Definition core (s : State) : bool * bool * nat * bool :=
  (isPortalActive s, triggerAdded s, triggerZone_addTrigger_calls s,
   systemInstalled s).

(** [updatePortal] on the core. *)
Definition updateCore (shouldBeActive : bool) (c : bool * bool * nat * bool)
  : bool * bool * nat * bool :=
  let '(active, added, callbacks, installed) := c in
  if shouldBeActive && negb active then
    (true, true, if added then callbacks else S callbacks, installed)
  else if negb shouldBeActive && active then
    (false, added, callbacks, installed)
  else c.

(** The frame is skipped when no immediate check is needed and the time
    since the last check is under the interval. *)
Definition skipped (f : Frame) (s : State) : bool :=
  negb (shouldPortalBeActive cfg (now_eval f) && negb (isPortalActive s))
  && JS.Qlt_bool (timeSinceLastCheck s + dt f)
       (inject_Z (frameCheckInterval f s)).

(** Whether some frame of the run saw the evaluator say active. *)
Definition everActive (frames : list Frame) : bool :=
  existsb (fun f => shouldPortalBeActive cfg (now_eval f)) frames.

End WithConfig.

End Portal.

(** ** Kersplat fall zones (index.ts, "continuous kersplat position check") *)

Module Kersplat.

Inductive Callback : Type :=
| StartLandingCamera      (* () => { landingCamera.startCinematic() } *)
| ResetKersplatCooldown.  (* () => { kersplatCooldown = false } *)

(** Who asked for a respawn: the continuous scanner or the enter-callback of
    one of the two trigger volumes. *)
Inductive Source : Type := BySystem | ByTrigger.

Record State : Type := mkState {
  kersplatCooldown : bool;
  kersplatSound_position : Vector3;
  kersplatSound_playing : bool;
  showKersplatImage_calls : nat;
  respawns : list (Source * Q);   (* movePlayerTo((168, 80, 16)), newest first,
                                     with the clock of the call *)
  landingCamera_starts : nat;
  clock : Q;
  timers : list (Timers.Timer Callback)
}.

Definition initial : State :=
  {| kersplatCooldown := false;
     kersplatSound_position := Vec.Zero;
     kersplatSound_playing := false;
     showKersplatImage_calls := 0;
     respawns := [];
     landingCamera_starts := 0;
     clock := 0;
     timers := [] |}.

Definition set_kersplatCooldown (v : bool) (s : State) : State :=
  mkState v (kersplatSound_position s) (kersplatSound_playing s)
    (showKersplatImage_calls s) (respawns s) (landingCamera_starts s)
    (clock s) (timers s).

Definition set_clock (v : Q) (s : State) : State :=
  mkState (kersplatCooldown s) (kersplatSound_position s)
    (kersplatSound_playing s) (showKersplatImage_calls s) (respawns s)
    (landingCamera_starts s) v (timers s).

Definition set_timers (v : list (Timers.Timer Callback)) (s : State) : State :=
  mkState (kersplatCooldown s) (kersplatSound_position s)
    (kersplatSound_playing s) (showKersplatImage_calls s) (respawns s)
    (landingCamera_starts s) (clock s) v.

Definition setTimeout (cb : Callback) (ms : Q) (s : State) : State :=
  set_timers (Timers.setTimeout (clock s) cb ms (timers s)) s.

(** Sound at the player's position, the kersplat image, and the teleport
    back to the spawn point: the three effects every kersplat path performs
    before it schedules the landing camera. *)
Definition kersplat (src : Source) (playerPos : Vector3) (s : State) : State :=
  mkState (kersplatCooldown s) playerPos true (S (showKersplatImage_calls s))
    ((src, clock s) :: respawns s) (landingCamera_starts s) (clock s)
    (timers s).

(** State updates unfold under [simpl]. *)
Arguments set_kersplatCooldown /.
Arguments set_clock /.
Arguments set_timers /.
Arguments setTimeout /.
Arguments kersplat /.

Definition zone1Pos : Vector3 := Vec.create 168 0 (-24).
Definition zone2Pos : Vector3 := Vec.create 168 12 (-24).

Definition inZone1 (playerPos : Vector3) : bool :=
  Zone.withinBox zone1Pos 140 1 160 playerPos.

Definition inZone2 (playerPos : Vector3) : bool :=
  Zone.withinBox zone2Pos 50 1 50 playerPos.

(** The system added by [engine.addSystem(() => ...)]. *)
Definition kersplatSystem (playerPos : Vector3) (s : State) : State :=
  if kersplatCooldown s then s
  else if inZone1 playerPos || inZone2 playerPos then
    let s := set_kersplatCooldown true s in
    let s := kersplat BySystem playerPos s in
    let s := setTimeout StartLandingCamera 3000 s in
    setTimeout ResetKersplatCooldown 3000 s
  else s.

(** Enter-callbacks of the two trigger volumes (delays 3100 ms in both). *)
Definition kersplatTriggerZone_onEnter (playerPos : Vector3) (s : State) : State :=
  let s := kersplat ByTrigger playerPos s in
  setTimeout StartLandingCamera 3100 s.

Definition runCallback (cb : Callback) (s : State) : State :=
  match cb with
  | StartLandingCamera =>
      mkState (kersplatCooldown s) (kersplatSound_position s)
        (kersplatSound_playing s) (showKersplatImage_calls s) (respawns s)
        (S (landingCamera_starts s)) (clock s) (timers s)
  | ResetKersplatCooldown => set_kersplatCooldown false s
  end.

Definition runTimers (s : State) : State :=
  let '(cbs, pending) := Timers.poll (clock s) (timers s) in
  fold_left (fun s cb => runCallback cb s) cbs (set_timers pending s).

(** The engine runs the timer system and the scene's system once per frame;
    which of them comes first depends on priorities set by the host. *)
Inductive Order : Type := TimersFirst | SystemFirst.

(** One frame: its delta, where the player is, and how many enter events the
    host's trigger system delivers for the two volumes. *)
Record Frame : Type := mkFrame {
  dt : Q;
  playerPos : Vector3;
  entered : nat
}.

Definition frame (order : Order) (f : Frame) (s : State) : State :=
  let s := set_clock (clock s + 1000 * dt f) s in
  let s :=
    match order with
    | TimersFirst => kersplatSystem (playerPos f) (runTimers s)
    | SystemFirst => runTimers (kersplatSystem (playerPos f) s)
    end in
  Nat.iter (entered f) (kersplatTriggerZone_onEnter (playerPos f)) s.

Definition run (order : Order) (frames : list Frame) (s : State) : State :=
  fold_left (fun s f => frame order f s) frames s.

(** The clock values at which the scanner respawned the player. *)
Definition systemRespawns (s : State) : list Q :=
  map snd (filter (fun r => match fst r with BySystem => true | ByTrigger => false end)
                  (respawns s)).

(** *** Views of the state used to state its properties *)

Definition isReset (cb : Callback) : bool :=
  match cb with ResetKersplatCooldown => true | StartLandingCamera => false end.

(** The pending timers that will clear the cooldown. *)
Definition resetTimers (timers : list (Timers.Timer Callback))
  : list (Timers.Timer Callback) :=
  filter (fun tm => isReset (Timers.callback tm)) timers.

(** Two respawns of the scanner, the later one first: at least 3000 ms of
    the clock lie between them. *)
Definition apart (later earlier : Q) : Prop := (earlier + 3000 <= later)%Q.

(** What holds between frames: the scanner's respawns are 3000 ms apart and
    not in the future; without cooldown no reset is pending and the last
    respawn is 3000 ms old; with cooldown exactly one reset is pending, due
    3000 ms after the last respawn or later. *)
Record Invariant (s : State) : Prop := mkInvariant {
  inv_apart : ForallOrdPairs apart (systemRespawns s);
  inv_past : Forall (fun t => t <= clock s)%Q (systemRespawns s);
  inv_idle :
    kersplatCooldown s = false ->
    resetTimers (timers s) = []
    /\ Forall (fun t => t + 3000 <= clock s)%Q (systemRespawns s);
  inv_cooling :
    kersplatCooldown s = true ->
    exists tm, resetTimers (timers s) = [tm]
               /\ Forall (fun t => t + 3000 <= Timers.due tm)%Q (systemRespawns s)
}.

End Kersplat.

(** ** Cinematic cameras (cameraSystem.ts) *)

Module Camera.

Inductive Entity : Type :=
| treeCinematicCamera
| portalCinematicCamera
| npcCinematicCamera
| runningCinematicCamera
| landingCinematicCamera.

(** [animationType]: 'tree' | 'portal' | 'npc' | 'running' | 'landing';
    [null] is [None]. *)
Inductive AnimationType : Type :=
| anim_tree | anim_portal | anim_npc | anim_running | anim_landing.

(** [treeCameraPhase]: 'tilt' | 'hold' | 'orbit' | 'return'. *)
Inductive TreePhase : Type :=
| phase_tilt | phase_hold | phase_orbit | phase_return.

Record State : Type := mkState {
  (* module-level variables *)
  activeCinematicCamera : option Entity;
  isAnimating : bool;
  animationStartTime : Z;
  animationDuration : Z;
  animationType : option AnimationType;
  orbitStartAngle : Q;
  orbitCenter : Vector3;
  orbitRadius : Q;
  playerFacingAngle : Q;
  treeCameraPhase : TreePhase;
  returnStartPos : Vector3;
  returnStartTime : Z;
  (* host components: MainCamera of the camera entity, Transform positions *)
  virtualCameraEntity : option Entity;
  treeCinematicCamera_position : Vector3;
  treeCameraTarget_position : Vector3;
  landingCinematicCamera_position : Vector3;
  landingCameraTarget_position : Vector3;
  portalCameraTarget_position : Vector3
}.

Definition set_activeCinematicCamera (v : option Entity) (s : State) : State :=
  mkState v (isAnimating s) (animationStartTime s) (animationDuration s)
    (animationType s) (orbitStartAngle s) (orbitCenter s) (orbitRadius s)
    (playerFacingAngle s) (treeCameraPhase s) (returnStartPos s)
    (returnStartTime s) (virtualCameraEntity s)
    (treeCinematicCamera_position s) (treeCameraTarget_position s)
    (landingCinematicCamera_position s) (landingCameraTarget_position s)
    (portalCameraTarget_position s).

Definition set_isAnimating (v : bool) (s : State) : State :=
  mkState (activeCinematicCamera s) v (animationStartTime s)
    (animationDuration s) (animationType s) (orbitStartAngle s)
    (orbitCenter s) (orbitRadius s) (playerFacingAngle s) (treeCameraPhase s)
    (returnStartPos s) (returnStartTime s) (virtualCameraEntity s)
    (treeCinematicCamera_position s) (treeCameraTarget_position s)
    (landingCinematicCamera_position s) (landingCameraTarget_position s)
    (portalCameraTarget_position s).

Definition set_animationStartTime (v : Z) (s : State) : State :=
  mkState (activeCinematicCamera s) (isAnimating s) v (animationDuration s)
    (animationType s) (orbitStartAngle s) (orbitCenter s) (orbitRadius s)
    (playerFacingAngle s) (treeCameraPhase s) (returnStartPos s)
    (returnStartTime s) (virtualCameraEntity s)
    (treeCinematicCamera_position s) (treeCameraTarget_position s)
    (landingCinematicCamera_position s) (landingCameraTarget_position s)
    (portalCameraTarget_position s).

Definition set_animationDuration (v : Z) (s : State) : State :=
  mkState (activeCinematicCamera s) (isAnimating s) (animationStartTime s) v
    (animationType s) (orbitStartAngle s) (orbitCenter s) (orbitRadius s)
    (playerFacingAngle s) (treeCameraPhase s) (returnStartPos s)
    (returnStartTime s) (virtualCameraEntity s)
    (treeCinematicCamera_position s) (treeCameraTarget_position s)
    (landingCinematicCamera_position s) (landingCameraTarget_position s)
    (portalCameraTarget_position s).

Definition set_animationType (v : option AnimationType) (s : State) : State :=
  mkState (activeCinematicCamera s) (isAnimating s) (animationStartTime s)
    (animationDuration s) v (orbitStartAngle s) (orbitCenter s)
    (orbitRadius s) (playerFacingAngle s) (treeCameraPhase s)
    (returnStartPos s) (returnStartTime s) (virtualCameraEntity s)
    (treeCinematicCamera_position s) (treeCameraTarget_position s)
    (landingCinematicCamera_position s) (landingCameraTarget_position s)
    (portalCameraTarget_position s).

Definition set_orbitStartAngle (v : Q) (s : State) : State :=
  mkState (activeCinematicCamera s) (isAnimating s) (animationStartTime s)
    (animationDuration s) (animationType s) v (orbitCenter s) (orbitRadius s)
    (playerFacingAngle s) (treeCameraPhase s) (returnStartPos s)
    (returnStartTime s) (virtualCameraEntity s)
    (treeCinematicCamera_position s) (treeCameraTarget_position s)
    (landingCinematicCamera_position s) (landingCameraTarget_position s)
    (portalCameraTarget_position s).

Definition set_orbitCenter (v : Vector3) (s : State) : State :=
  mkState (activeCinematicCamera s) (isAnimating s) (animationStartTime s)
    (animationDuration s) (animationType s) (orbitStartAngle s) v
    (orbitRadius s) (playerFacingAngle s) (treeCameraPhase s)
    (returnStartPos s) (returnStartTime s) (virtualCameraEntity s)
    (treeCinematicCamera_position s) (treeCameraTarget_position s)
    (landingCinematicCamera_position s) (landingCameraTarget_position s)
    (portalCameraTarget_position s).

Definition set_orbitRadius (v : Q) (s : State) : State :=
  mkState (activeCinematicCamera s) (isAnimating s) (animationStartTime s)
    (animationDuration s) (animationType s) (orbitStartAngle s)
    (orbitCenter s) v (playerFacingAngle s) (treeCameraPhase s)
    (returnStartPos s) (returnStartTime s) (virtualCameraEntity s)
    (treeCinematicCamera_position s) (treeCameraTarget_position s)
    (landingCinematicCamera_position s) (landingCameraTarget_position s)
    (portalCameraTarget_position s).

Definition set_playerFacingAngle (v : Q) (s : State) : State :=
  mkState (activeCinematicCamera s) (isAnimating s) (animationStartTime s)
    (animationDuration s) (animationType s) (orbitStartAngle s)
    (orbitCenter s) (orbitRadius s) v (treeCameraPhase s) (returnStartPos s)
    (returnStartTime s) (virtualCameraEntity s)
    (treeCinematicCamera_position s) (treeCameraTarget_position s)
    (landingCinematicCamera_position s) (landingCameraTarget_position s)
    (portalCameraTarget_position s).

Definition set_treeCameraPhase (v : TreePhase) (s : State) : State :=
  mkState (activeCinematicCamera s) (isAnimating s) (animationStartTime s)
    (animationDuration s) (animationType s) (orbitStartAngle s)
    (orbitCenter s) (orbitRadius s) (playerFacingAngle s) v (returnStartPos s)
    (returnStartTime s) (virtualCameraEntity s)
    (treeCinematicCamera_position s) (treeCameraTarget_position s)
    (landingCinematicCamera_position s) (landingCameraTarget_position s)
    (portalCameraTarget_position s).

Definition set_returnStartPos (v : Vector3) (s : State) : State :=
  mkState (activeCinematicCamera s) (isAnimating s) (animationStartTime s)
    (animationDuration s) (animationType s) (orbitStartAngle s)
    (orbitCenter s) (orbitRadius s) (playerFacingAngle s) (treeCameraPhase s)
    v (returnStartTime s) (virtualCameraEntity s)
    (treeCinematicCamera_position s) (treeCameraTarget_position s)
    (landingCinematicCamera_position s) (landingCameraTarget_position s)
    (portalCameraTarget_position s).

Definition set_returnStartTime (v : Z) (s : State) : State :=
  mkState (activeCinematicCamera s) (isAnimating s) (animationStartTime s)
    (animationDuration s) (animationType s) (orbitStartAngle s)
    (orbitCenter s) (orbitRadius s) (playerFacingAngle s) (treeCameraPhase s)
    (returnStartPos s) v (virtualCameraEntity s)
    (treeCinematicCamera_position s) (treeCameraTarget_position s)
    (landingCinematicCamera_position s) (landingCameraTarget_position s)
    (portalCameraTarget_position s).

Definition set_virtualCameraEntity (v : option Entity) (s : State) : State :=
  mkState (activeCinematicCamera s) (isAnimating s) (animationStartTime s)
    (animationDuration s) (animationType s) (orbitStartAngle s)
    (orbitCenter s) (orbitRadius s) (playerFacingAngle s) (treeCameraPhase s)
    (returnStartPos s) (returnStartTime s) v (treeCinematicCamera_position s)
    (treeCameraTarget_position s) (landingCinematicCamera_position s)
    (landingCameraTarget_position s) (portalCameraTarget_position s).

Definition set_treeCinematicCamera_position (v : Vector3) (s : State) : State :=
  mkState (activeCinematicCamera s) (isAnimating s) (animationStartTime s)
    (animationDuration s) (animationType s) (orbitStartAngle s)
    (orbitCenter s) (orbitRadius s) (playerFacingAngle s) (treeCameraPhase s)
    (returnStartPos s) (returnStartTime s) (virtualCameraEntity s) v
    (treeCameraTarget_position s) (landingCinematicCamera_position s)
    (landingCameraTarget_position s) (portalCameraTarget_position s).

Definition set_treeCameraTarget_position (v : Vector3) (s : State) : State :=
  mkState (activeCinematicCamera s) (isAnimating s) (animationStartTime s)
    (animationDuration s) (animationType s) (orbitStartAngle s)
    (orbitCenter s) (orbitRadius s) (playerFacingAngle s) (treeCameraPhase s)
    (returnStartPos s) (returnStartTime s) (virtualCameraEntity s)
    (treeCinematicCamera_position s) v (landingCinematicCamera_position s)
    (landingCameraTarget_position s) (portalCameraTarget_position s).

Definition set_landingCinematicCamera_position (v : Vector3) (s : State) : State :=
  mkState (activeCinematicCamera s) (isAnimating s) (animationStartTime s)
    (animationDuration s) (animationType s) (orbitStartAngle s)
    (orbitCenter s) (orbitRadius s) (playerFacingAngle s) (treeCameraPhase s)
    (returnStartPos s) (returnStartTime s) (virtualCameraEntity s)
    (treeCinematicCamera_position s) (treeCameraTarget_position s) v
    (landingCameraTarget_position s) (portalCameraTarget_position s).

Definition set_landingCameraTarget_position (v : Vector3) (s : State) : State :=
  mkState (activeCinematicCamera s) (isAnimating s) (animationStartTime s)
    (animationDuration s) (animationType s) (orbitStartAngle s)
    (orbitCenter s) (orbitRadius s) (playerFacingAngle s) (treeCameraPhase s)
    (returnStartPos s) (returnStartTime s) (virtualCameraEntity s)
    (treeCinematicCamera_position s) (treeCameraTarget_position s)
    (landingCinematicCamera_position s) v (portalCameraTarget_position s).

Definition set_portalCameraTarget_position (v : Vector3) (s : State) : State :=
  mkState (activeCinematicCamera s) (isAnimating s) (animationStartTime s)
    (animationDuration s) (animationType s) (orbitStartAngle s)
    (orbitCenter s) (orbitRadius s) (playerFacingAngle s) (treeCameraPhase s)
    (returnStartPos s) (returnStartTime s) (virtualCameraEntity s)
    (treeCinematicCamera_position s) (treeCameraTarget_position s)
    (landingCinematicCamera_position s) (landingCameraTarget_position s) v.
Definition initial : State :=
  {| activeCinematicCamera := None;
     isAnimating := false;
     animationStartTime := 0;
     animationDuration := 0;
     animationType := None;
     orbitStartAngle := 0;
     orbitCenter := Vec.Zero;
     orbitRadius := 4;
     playerFacingAngle := 0;
     treeCameraPhase := phase_tilt;
     returnStartPos := Vec.Zero;
     returnStartTime := 0;
     virtualCameraEntity := None;
     treeCinematicCamera_position := Vec.create 140 4 108;
     treeCameraTarget_position := Vec.create 144 (37 # 10) 108;
     landingCinematicCamera_position := Vec.create 0 1 4;
     landingCameraTarget_position := Vec.create 0 (17 # 10) 0;
     portalCameraTarget_position := Vec.create 157 4 183 |}.

(** State updates unfold under [simpl]. *)
Arguments set_activeCinematicCamera /.
Arguments set_isAnimating /.
Arguments set_animationStartTime /.
Arguments set_animationDuration /.
Arguments set_animationType /.
Arguments set_orbitStartAngle /.
Arguments set_orbitCenter /.
Arguments set_orbitRadius /.
Arguments set_playerFacingAngle /.
Arguments set_treeCameraPhase /.
Arguments set_returnStartPos /.
Arguments set_returnStartTime /.
Arguments set_virtualCameraEntity /.
Arguments set_treeCinematicCamera_position /.
Arguments set_treeCameraTarget_position /.
Arguments set_landingCinematicCamera_position /.
Arguments set_landingCameraTarget_position /.
Arguments set_portalCameraTarget_position /.

(** "Helper to reset camera to default" *)
Definition resetToDefaultCamera (s : State) : State :=
  match activeCinematicCamera s with
  | Some _ =>
      let s := set_virtualCameraEntity None s in
      let s := set_activeCinematicCamera None s in
      let s := set_isAnimating false s in
      let s := set_animationType None s in
      set_treeCameraPhase phase_tilt s
  | None => s
  end.

Definition is_tree (a : option AnimationType) : bool :=
  match a with Some anim_tree => true | _ => false end.

Definition is_hold (p : TreePhase) : bool :=
  match p with phase_hold => true | _ => false end.

(** [startTreeCameraOrbit()], called by the "altar" dialog; [now] is its
    read of [Date.now()]. *)
Definition startTreeCameraOrbit (now : Z) (s : State) : State :=
  if is_tree (animationType s) && is_hold (treeCameraPhase s) then
    let s := set_treeCameraPhase phase_orbit s in
    let s := set_animationStartTime now s in
    set_isAnimating true s
  else s.

(** [resetTreeCamera()], called when the dialog ends and by the return
    teleport; [now] is its read of [Date.now()]. *)
Definition resetTreeCamera (now : Z) (s : State) : State :=
  if is_tree (animationType s) then
    let s := set_returnStartPos (treeCinematicCamera_position s) s in
    let s := set_returnStartTime now s in
    let s := set_treeCameraPhase phase_return s in
    set_isAnimating true s
  else resetToDefaultCamera s.

Definition tiltDuration : Z := 1500.
Definition orbitDuration : Z := 7400.
Definition returnDuration : Z := 2000.
Definition panDuration : Z := 3000.

(** [Math.min(elapsed / duration, 1)] *)
Definition progressOf (elapsed duration : Z) : Q :=
  Qmin (inject_Z elapsed / inject_Z duration) 1.

(** [progress >= 1] *)
Definition complete (progress : Q) : bool := Qle_bool 1 progress.

(** Who holds the camera and where the tree sequence stands: the active
    cinematic camera, [isAnimating], [animationType], the tree phase and the
    camera entity the main camera is bound to ([None]: the player's own). *)
Definition control (s : State)
  : option Entity * bool * option AnimationType * TreePhase * option Entity :=
  (activeCinematicCamera s, isAnimating s, animationType s, treeCameraPhase s,
   virtualCameraEntity s).

Section WithMath.
Local Open Scope Q_scope.

(** [Math.sin], [Math.cos] and [Math.PI] of the host. *)
Variables (Math_sin Math_cos : Q -> Q) (Math_PI : Q).

(** The point at [angle] degrees on the circle of [radius] around the orbit
    centre, at [height]. *)
Definition onOrbit (s : State) (angle height radius : Q) : Vector3 :=
  Vec.create
    (vx (orbitCenter s) + Math_sin ((angle * Math_PI) / 180) * radius)
    height
    (vz (orbitCenter s) + Math_cos ((angle * Math_PI) / 180) * radius).

(** The branch [animationType === 'tree'] of the animation system.
    [now_return] is the read of [Date.now()] in the return phase. *)
Definition treeAnimation (elapsed now_return : Z) (playerPos : Vector3)
           (s : State) : State :=
  match treeCameraPhase s with
  | phase_tilt =>
      let tiltProgress := progressOf elapsed tiltDuration in
      let startHeight := vy (orbitCenter s) + 2 in
      let endHeight := vy (orbitCenter s) - (5 # 10) in
      let currentHeight := startHeight + ((endHeight - startHeight) * tiltProgress) in
      let newPos := onOrbit s (orbitStartAngle s) currentHeight (orbitRadius s) in
      let s := set_treeCinematicCamera_position newPos s in
      if complete tiltProgress then set_treeCameraPhase phase_hold s else s
  | phase_hold =>
      let holdHeight := vy (orbitCenter s) - (5 # 10) in
      let holdPos := onOrbit s (orbitStartAngle s) holdHeight (orbitRadius s) in
      set_treeCinematicCamera_position holdPos s
  | phase_orbit =>
      let orbitProgress := progressOf elapsed orbitDuration in
      let angle := orbitStartAngle s - (180 * orbitProgress) in
      let currentRadius := orbitRadius s in
      let currentHeight := vy (orbitCenter s) - (5 # 10) in
      let newPos := onOrbit s angle currentHeight currentRadius in
      let s := set_treeCinematicCamera_position newPos s in
      if complete orbitProgress then set_isAnimating false s else s
  | phase_return =>
      let returnElapsed := (now_return - returnStartTime s)%Z in
      let returnProgress := progressOf returnElapsed returnDuration in
      let targetPos :=
        Vec.create (vx playerPos) (vy playerPos + (18 # 10)) (vz playerPos) in
      let currentPos := Vec.lerp (returnStartPos s) targetPos returnProgress in
      let s := set_treeCinematicCamera_position currentPos s in
      if complete returnProgress then
        let s := set_virtualCameraEntity None s in
        let s := set_activeCinematicCamera None s in
        let s := set_isAnimating false s in
        let s := set_animationType None s in
        set_treeCameraPhase phase_tilt s
      else s
  end.

(** The branch [animationType === 'landing']. *)
Definition landingAnimation (elapsed : Z) (s : State) : State :=
  let panProgress := progressOf elapsed panDuration in
  let startHeight := vy (orbitCenter s) - 1 in
  let endHeight := vy (orbitCenter s) + (5 # 10) in
  let currentHeight := startHeight + ((endHeight - startHeight) * panProgress) in
  let newPos := onOrbit s (orbitStartAngle s) currentHeight (orbitRadius s) in
  let s := set_landingCinematicCamera_position newPos s in
  if complete panProgress then resetToDefaultCamera s else s.

(** "Camera animation system": [now] is the read of [Date.now()] at its
    top. The [progress] it also computes there is used by no branch. *)
Definition cameraSystem (now now_return : Z) (playerPos : Vector3) (s : State)
  : State :=
  if negb (isAnimating s) then s
  else
    match animationType s with
    | None => s
    | Some anim_tree =>
        treeAnimation (now - animationStartTime s)%Z now_return playerPos s
    | Some anim_landing => landingAnimation (now - animationStartTime s)%Z s
    | Some anim_portal | Some anim_npc | Some anim_running => s
    end.

(** [startCinematic] of the tree camera; [facing] is the angle in degrees
    that the host's [atan2] gives for the player's forward direction. *)
Definition treeCamera_startCinematic (playerPos : Vector3) (facing : Q)
           (now : Z) (s : State) : State :=
  let s := set_playerFacingAngle facing s in
  let s := set_orbitRadius 5 s in
  let height := (17 # 10)%Q in
  let s := set_orbitCenter
             (Vec.create (vx playerPos) (vy playerPos + height) (vz playerPos)) s in
  let s := set_treeCameraTarget_position (orbitCenter s) s in
  let s := set_orbitStartAngle (playerFacingAngle s + 180) s in
  let s := set_animationDuration 1500%Z s in
  let startHeight := vy (orbitCenter s) + 2 in
  let startPos := onOrbit s (orbitStartAngle s) startHeight (orbitRadius s) in
  let s := set_treeCinematicCamera_position startPos s in
  let s := set_virtualCameraEntity (Some treeCinematicCamera) s in
  let s := set_activeCinematicCamera (Some treeCinematicCamera) s in
  let s := set_isAnimating true s in
  let s := set_animationType (Some anim_tree) s in
  set_animationStartTime now s.

(** [startCinematic] of the portal camera. *)
Definition portalCamera_startCinematic (now : Z) (s : State) : State :=
  let lookAtPos := Vec.create 158 3 184 in
  let s := set_portalCameraTarget_position lookAtPos s in
  let s := set_virtualCameraEntity (Some portalCinematicCamera) s in
  let s := set_activeCinematicCamera (Some portalCinematicCamera) s in
  let s := set_animationType (Some anim_portal) s in
  let s := set_animationStartTime now s in
  let s := set_animationDuration 3000%Z s in
  set_isAnimating true s.

(** A run of the animation system over frames, each with its two clock
    reads and the player's position. *)
Definition runSystem (frames : list (Z * Z * Vector3)) (s : State) : State :=
  fold_left (fun s '(now, now_return, playerPos) =>
               cameraSystem now now_return playerPos s) frames s.

End WithMath.

End Camera.

(** ** The countdown's components as the scene description words them

    "All components are floored integers; no rounding up": whole days, then
    the whole hours, minutes and seconds left over, each a floored quotient
    of the remaining milliseconds. *)
Module Floored.
Definition days (ms : Z) : Z := ms / 86400000.
Definition hours (ms : Z) : Z := (ms / 3600000) mod 24.
Definition minutes (ms : Z) : Z := (ms / 60000) mod 60.
Definition seconds (ms : Z) : Z := (ms / 1000) mod 60.

(** The time the displayed components stand for. *)
Definition shown (ms : Z) : Z :=
  days ms * 86400000 + hours ms * 3600000 + minutes ms * 60000
  + seconds ms * 1000.
End Floored.

(** ** The kersplat image (kersplatUI.tsx) *)

Module KersplatUI.

Inductive Callback : Type :=
| HideKersplatImage.   (* () => { hideKersplatImage() } *)

Record State : Type := mkState {
  isKersplatVisible : bool;
  clock : Q;
  timers : list (Timers.Timer Callback)
}.

Definition initial : State :=
  {| isKersplatVisible := false; clock := 0; timers := [] |}.

Definition hideKersplatImage (s : State) : State :=
  mkState false (clock s) (timers s).

(** "Auto-close after 2 seconds" *)
Definition showKersplatImage (s : State) : State :=
  mkState true (clock s)
    (Timers.setTimeout (clock s) HideKersplatImage 2000 (timers s)).

(** [KersplatUI()] renders the overlay only while the image is visible; a
    mouse press on the overlay hides it. *)
Definition rendered (s : State) : bool := isKersplatVisible s.

Definition onMouseDown (s : State) : State :=
  if rendered s then hideKersplatImage s else s.

Definition runCallback (cb : Callback) (s : State) : State :=
  match cb with
  | HideKersplatImage => hideKersplatImage s
  end.

(** What happens to the image: the scene shows it, the player presses the
    mouse, or a frame of the engine passes and due timers run. *)
Inductive Event : Type :=
| Show
| MouseDown
| Frame (dt : Q).

Definition step (e : Event) (s : State) : State :=
  match e with
  | Show => showKersplatImage s
  | MouseDown => onMouseDown s
  | Frame dt =>
      let s := mkState (isKersplatVisible s) (clock s + 1000 * dt) (timers s) in
      let '(cbs, pending) := Timers.poll (clock s) (timers s) in
      fold_left (fun s cb => runCallback cb s) cbs
        (mkState (isKersplatVisible s) (clock s) pending)
  end.

Definition run (events : list Event) (s : State) : State :=
  fold_left (fun s e => step e s) events s.

(** Frames have a non-negative length. *)
Definition forward (e : Event) : Prop :=
  match e with Frame dt => (0 <= dt)%Q | _ => True end.

Definition isShow (e : Event) : bool :=
  match e with Show => true | _ => false end.

(** Between events: a visible image has a hide pending, no pending hide is
    due now or earlier, and none later than 2000 ms from now. *)
Record Invariant (s : State) : Prop := mkInvariant {
  inv_pending : isKersplatVisible s = true -> timers s <> [];
  inv_future : Forall (fun tm => clock s < Timers.due tm)%Q (timers s);
  inv_soon : Forall (fun tm => Timers.due tm <= clock s + 2000)%Q (timers s)
}.

End KersplatUI.

(** ** All operations on the cinematic cameras (cameraSystem.ts) *)

Module CameraOps.
Import Camera.

(** The camera state together with the two transforms only the NPC camera
    writes. *)
Record World : Type := mkWorld {
  cam : Camera.State;
  npcCinematicCamera_position : Vector3;
  npcCameraTarget_position : Vector3
}.

Definition initial : World :=
  {| cam := Camera.initial;
     npcCinematicCamera_position := Vec.create 189 (1 # 2) 93;
     npcCameraTarget_position := Vec.create 188 (35 # 10) 92 |}.

Section WithMath.
Local Open Scope Q_scope.
Variables (Math_sin Math_cos : Q -> Q) (Math_PI : Q).

(** [startCinematic] of the NPC camera. *)
Definition npcCamera_startCinematic (playerPos : Vector3) (now : Z)
           (w : World) : World :=
  let cameraPos :=
    Vec.create (vx playerPos - (5 # 10)) (vy playerPos + 2) (vz playerPos + 4) in
  let s := cam w in
  let s := set_virtualCameraEntity (Some npcCinematicCamera) s in
  let s := set_activeCinematicCamera (Some npcCinematicCamera) s in
  let s := set_animationType (Some anim_npc) s in
  let s := set_animationStartTime now s in
  let s := set_animationDuration 0%Z s in
  let s := set_isAnimating true s in
  mkWorld s cameraPos (Vec.create 188 (55 # 10) 92).

(** [startCinematic] of the landing camera: [playerPos] and [facing] are
    what it reads from the player's transform ([facing] in degrees, from
    the host's [atan2]). *)
Definition landingCamera_startCinematic (playerPos : Vector3) (facing : Q)
           (now : Z) (s : Camera.State) : Camera.State :=
  let s := set_playerFacingAngle facing s in
  let s := set_orbitRadius 5 s in
  let height := 17 # 10 in
  let s := set_orbitCenter
             (Vec.create (vx playerPos) (vy playerPos + height) (vz playerPos)) s in
  let s := set_landingCameraTarget_position (orbitCenter s) s in
  let s := set_orbitStartAngle (playerFacingAngle s + 180) s in
  let startHeight := vy (orbitCenter s) - 1 in
  let startPos :=
    onOrbit Math_sin Math_cos Math_PI s (orbitStartAngle s) startHeight
      (orbitRadius s) in
  let s := set_landingCinematicCamera_position startPos s in
  let s := set_virtualCameraEntity (Some landingCinematicCamera) s in
  let s := set_activeCinematicCamera (Some landingCinematicCamera) s in
  let s := set_isAnimating true s in
  let s := set_animationType (Some anim_landing) s in
  let s := set_animationStartTime now s in
  set_animationDuration 3000%Z s.

(** [startCinematic] of the running camera; the reset it schedules after
    3000 ms is the operation [ResetToDefault] below. *)
Definition runningCamera_startCinematic (s : Camera.State) : Camera.State :=
  let s := set_virtualCameraEntity (Some runningCinematicCamera) s in
  let s := set_activeCinematicCamera (Some runningCinematicCamera) s in
  let s := set_animationType (Some anim_running) s in
  set_isAnimating true s.

(** Everything the scene, the dialogs, the timers and the engine can do to
    the cameras. *)
Inductive Op : Type :=
| TreeStart (playerPos : Vector3) (facing : Q) (now : Z)
| PortalStart (now : Z)
| NpcStart (playerPos : Vector3) (now : Z)
| RunningStart
| LandingStart (playerPos : Vector3) (facing : Q) (now : Z)
| ResetToDefault            (* exit of the portal zone, running timeout, stop *)
| StartTreeCameraOrbit (now : Z)
| ResetTreeCamera (now : Z)
| System (now now_return : Z) (playerPos : Vector3).

Definition onCam (g : Camera.State -> Camera.State) (w : World) : World :=
  mkWorld (g (cam w)) (npcCinematicCamera_position w)
    (npcCameraTarget_position w).

Definition apply (op : Op) (w : World) : World :=
  match op with
  | TreeStart p facing now =>
      onCam (treeCamera_startCinematic Math_sin Math_cos Math_PI p facing now) w
  | PortalStart now => onCam (portalCamera_startCinematic now) w
  | NpcStart p now => npcCamera_startCinematic p now w
  | RunningStart => onCam runningCamera_startCinematic w
  | LandingStart p facing now =>
      onCam (landingCamera_startCinematic p facing now) w
  | ResetToDefault => onCam resetToDefaultCamera w
  | StartTreeCameraOrbit now => onCam (startTreeCameraOrbit now) w
  | ResetTreeCamera now => onCam (resetTreeCamera now) w
  | System now now_return p =>
      onCam (cameraSystem Math_sin Math_cos Math_PI now now_return p) w
  end.

Definition run (ops : list Op) (w : World) : World :=
  fold_left (fun w op => apply op w) ops w.

End WithMath.

(** The camera entity each sequence binds. *)
Definition cameraOf (a : AnimationType) : Entity :=
  match a with
  | anim_tree => treeCinematicCamera
  | anim_portal => portalCinematicCamera
  | anim_npc => npcCinematicCamera
  | anim_running => runningCinematicCamera
  | anim_landing => landingCinematicCamera
  end.

(** The bookkeeping of the module agrees with the host: the main camera is
    bound to the camera of the running sequence, or to none; only a running
    sequence animates; with no sequence the tree phase is the initial one. *)
Record Coherent (s : Camera.State) : Prop := mkCoherent {
  coh_bound : virtualCameraEntity s = activeCinematicCamera s;
  coh_camera : activeCinematicCamera s = option_map cameraOf (animationType s);
  coh_animating : isAnimating s = true -> animationType s <> None;
  coh_idle : animationType s = None -> treeCameraPhase s = phase_tilt
}.

End CameraOps.

(** ** The camera trigger zones (createCameraTriggers in cameraSystem.ts)

    The callbacks of the tree, portal and NPC zones with the flags they
    close over. When the host calls them is its business: a run is any
    sequence of such calls, mixed with everything else that acts on the
    cameras. *)

Module CameraTriggers.
Import Camera CameraOps.

Record State : Type := mkState {
  world : World;
  treeTriggerUsed : bool;
  npcTriggerUsed : bool;
  treeCameraActive : bool;
  portalCameraActive : bool;
  npcCameraActive : bool
}.

Definition initial : State :=
  {| world := CameraOps.initial;
     treeTriggerUsed := false;
     npcTriggerUsed := false;
     treeCameraActive := false;
     portalCameraActive := false;
     npcCameraActive := false |}.

Definition set_world (w : World) (t : State) : State :=
  mkState w (treeTriggerUsed t) (npcTriggerUsed t) (treeCameraActive t)
    (portalCameraActive t) (npcCameraActive t).

Inductive Event : Type :=
| TreeEnter (playerPos : Vector3) (facing : Q) (now : Z)
| PortalEnter (now : Z)
| PortalExit
| NpcEnter (playerPos : Vector3) (now : Z)
| Other (op : Op).

Section WithMath.
Variables (Math_sin Math_cos : Q -> Q) (Math_PI : Q).

(** The enter callback of the tree zone. *)
Definition treeTriggerZone_onEnter (playerPos : Vector3) (facing : Q) (now : Z)
           (t : State) : State :=
  if negb (treeCameraActive t) && negb (treeTriggerUsed t)
  then mkState
         (onCam (treeCamera_startCinematic Math_sin Math_cos Math_PI playerPos
                   facing now) (world t))
         true (npcTriggerUsed t) true (portalCameraActive t)
         (npcCameraActive t)
  else t.

(** The enter and exit callbacks of the portal zone. *)
Definition portalTriggerZone_onEnter (now : Z) (t : State) : State :=
  if negb (portalCameraActive t)
  then mkState (onCam (portalCamera_startCinematic now) (world t))
         (treeTriggerUsed t) (npcTriggerUsed t) (treeCameraActive t) true
         (npcCameraActive t)
  else t.

Definition portalTriggerZone_onExit (t : State) : State :=
  if portalCameraActive t
  then mkState (onCam resetToDefaultCamera (world t))
         (treeTriggerUsed t) (npcTriggerUsed t) (treeCameraActive t) false
         (npcCameraActive t)
  else t.

(** The enter callback of the NPC zone. *)
Definition npcTriggerZone_onEnter (playerPos : Vector3) (now : Z)
           (t : State) : State :=
  if negb (npcCameraActive t) && negb (npcTriggerUsed t)
  then mkState (npcCamera_startCinematic playerPos now (world t))
         (treeTriggerUsed t) true (treeCameraActive t) (portalCameraActive t)
         true
  else t.

Definition step (t : State) (e : Event) : State :=
  match e with
  | TreeEnter p facing now => treeTriggerZone_onEnter p facing now t
  | PortalEnter now => portalTriggerZone_onEnter now t
  | PortalExit => portalTriggerZone_onExit t
  | NpcEnter p now => npcTriggerZone_onEnter p now t
  | Other op => set_world (apply Math_sin Math_cos Math_PI op (world t)) t
  end.

Definition run (events : list Event) (t : State) : State :=
  fold_left step events t.

End WithMath.

Definition isTreeEnter (e : Event) : bool :=
  match e with TreeEnter _ _ _ => true | _ => false end.

Definition isNpcEnter (e : Event) : bool :=
  match e with NpcEnter _ _ => true | _ => false end.

Definition isPortalExit (e : Event) : bool :=
  match e with PortalExit => true | _ => false end.

Definition isOther (e : Event) : bool :=
  match e with Other _ => true | _ => false end.

End CameraTriggers.

(** ** String helpers of the burn module (burnModule/nftBurner.ts)

    A JavaScript string is modelled as a [string] of one-byte characters;
    the characters these helpers test are all ASCII. *)

Module Burner.

(** [s.split(sep)] for a separator of one character. *)
Fixpoint split (sep : ascii) (s : string) : list string :=
  match s with
  | EmptyString => [EmptyString]
  | String c rest =>
      if Ascii.eqb c sep then EmptyString :: split sep rest
      else match split sep rest with
           | [] => [String c EmptyString]
           | part :: parts => String c part :: parts
           end
  end.

Record URN : Type := mkURN { address : string; tokenId : string }.

(** [parseURN]: nothing in its [try] block can throw on a string. *)
Definition parseURN (urn : string) : option URN :=
  let parts := split ":" urn in
  if (6 <=? List.length parts)%nat
     && String.eqb (nth 0 parts EmptyString) "urn"
     && String.eqb (nth 1 parts EmptyString) "decentraland"
  then Some {| address := nth 4 parts EmptyString;
               tokenId := nth 5 parts EmptyString |}
  else None.

(** Parts put together, the separator before each of them. *)
Fixpoint glue (sep : ascii) (parts : list string) : string :=
  match parts with
  | [] => EmptyString
  | part :: parts => String sep (part ++ glue sep parts)
  end.

(** The parts of a split, put together again with the separator. *)
Definition join (sep : ascii) (parts : list string) : string :=
  match parts with
  | [] => EmptyString
  | part :: parts => (part ++ glue sep parts)%string
  end.

Definition has (c : ascii) (s : string) : bool :=
  existsb (Ascii.eqb c) (list_ascii_of_string s).

(** [s.startsWith(pre)] *)
Definition startsWith (s pre : string) : bool := String.prefix pre s.

Fixpoint skip (n : nat) (s : string) : string :=
  match n, s with
  | O, _ => s
  | S n, String _ rest => skip n rest
  | S _, EmptyString => EmptyString
  end.

(** [s.replace(pat, rep)] for a string pattern: the first occurrence only.
    [rep] must hold no [$], which JavaScript would expand. *)
Fixpoint replace (pat rep s : string) : string :=
  if String.prefix pat s then (rep ++ skip (String.length pat) s)%string
  else match s with
       | EmptyString => EmptyString
       | String c rest => String c (replace pat rep rest)
       end.

Definition normalizeImageURL (imageUrl : string) : string :=
  if startsWith imageUrl "ipfs://"
  then replace "ipfs://" "https://ipfs.io/ipfs/" imageUrl
  else imageUrl.

(** *** base64Decode *)

Definition chars : string :=
  "ABCDEFGHIJKLMNOPQRSTUVWXYZabcdefghijklmnopqrstuvwxyz0123456789+/=".

(** [chars.indexOf(c)] for one character, searching from index [i]. *)
Fixpoint indexOf (c : ascii) (s : string) (i : Z) : Z :=
  match s with
  | EmptyString => -1
  | String d rest => if Ascii.eqb c d then i else indexOf c rest (i + 1)
  end.

(** [chars.indexOf(base64.charAt(i))]: past the end [charAt] is the empty
    string, whose index is 0. *)
Definition enc (c : option ascii) : Z :=
  match c with
  | Some c => indexOf c chars 0
  | None => 0
  end.

(** The class [A-Za-z0-9+/=] of the regular expression. *)
Definition inAlphabet (c : ascii) : bool :=
  let n := Z.of_nat (nat_of_ascii c) in
  ((65 <=? n) && (n <=? 90)) || ((97 <=? n) && (n <=? 122))
  || ((48 <=? n) && (n <=? 57)) || (n =? 43) || (n =? 47) || (n =? 61).

(** [String.fromCharCode(n)] as the code unit it makes. *)
Definition fromCharCode (n : Z) : Z := n mod 65536.

(** One turn of the loop: the code units appended to [output]. The shifts
    and masks act on numbers below 2^9, where 32-bit and unbounded
    arithmetic agree. *)
Definition group (enc1 enc2 enc3 enc4 : Z) : list Z :=
  let chr1 := Z.lor (Z.shiftl enc1 2) (Z.shiftr enc2 4) in
  let chr2 := Z.lor (Z.shiftl (Z.land enc2 15) 4) (Z.shiftr enc3 2) in
  let chr3 := Z.lor (Z.shiftl (Z.land enc3 3) 6) enc4 in
  [fromCharCode chr1]
    ++ (if enc3 =? 64 then [] else [fromCharCode chr2])
    ++ (if enc4 =? 64 then [] else [fromCharCode chr3]).

(** The loop [for (i = 0; i < base64.length; i += 4)]. *)
Fixpoint decodeGroups (l : list ascii) : list Z :=
  match l with
  | [] => []
  | c1 :: l1 =>
      match l1 with
      | [] => group (enc (Some c1)) (enc None) (enc None) (enc None)
      | c2 :: l2 =>
          match l2 with
          | [] => group (enc (Some c1)) (enc (Some c2)) (enc None) (enc None)
          | c3 :: l3 =>
              match l3 with
              | [] => group (enc (Some c1)) (enc (Some c2)) (enc (Some c3))
                        (enc None)
              | c4 :: l4 =>
                  group (enc (Some c1)) (enc (Some c2)) (enc (Some c3))
                    (enc (Some c4))
                    ++ decodeGroups l4
              end
          end
      end
  end.

(** The decoded string, as its code units. *)
Definition base64Decode (base64 : string) : list Z :=
  decodeGroups (filter inAlphabet (list_ascii_of_string base64)).

(** *** The standard encoding, to measure the decoder against

    Base 64 of RFC 4648 with padding: three bytes make four characters of
    six bits each. *)
Definition digit (n : Z) : ascii :=
  nth (Z.to_nat n) (list_ascii_of_string chars) "="%char.

Fixpoint encode (bytes : list Z) : list ascii :=
  match bytes with
  | [] => []
  | a :: rest =>
      match rest with
      | [] =>
          [digit (Z.shiftr a 2); digit (Z.shiftl (Z.land a 3) 4);
           "="%char; "="%char]
      | b :: rest =>
          match rest with
          | [] =>
              [digit (Z.shiftr a 2);
               digit (Z.lor (Z.shiftl (Z.land a 3) 4) (Z.shiftr b 4));
               digit (Z.shiftl (Z.land b 15) 2); "="%char]
          | c :: rest =>
              [digit (Z.shiftr a 2);
               digit (Z.lor (Z.shiftl (Z.land a 3) 4) (Z.shiftr b 4));
               digit (Z.lor (Z.shiftl (Z.land b 15) 2) (Z.shiftr c 6));
               digit (Z.land c 63)]
                ++ encode rest
          end
      end
  end.

Definition isByte (b : Z) : Prop := 0 <= b < 256.

End Burner.

(** ** Kersplat: views of the state for the landing camera and the release
    of the cooldown *)

Module KersplatViews.
Import Kersplat.



(** No pending reset of the cooldown is due later than 3000 ms from now. *)
Definition ResetsSoon (s : State) : Prop :=
  Forall (fun tm => Timers.due tm <= clock s + 3000)%Q (resetTimers (timers s)).

End KersplatViews.

(** * Properties *)

(** ** The window evaluator *)

Section Evaluator.
Variable cfg : Config.
Variable now : Z.

Lemma shouldPortalBeActive_shutdown :
  ROCKSCAPE_PORTAL_SHUTDOWN cfg = true -> shouldPortalBeActive cfg now = false.
Proof. unfold shouldPortalBeActive; intros ->; reflexivity. Qed.

Lemma shouldPortalBeActive_untimed :
  ROCKSCAPE_PORTAL_SHUTDOWN cfg = false -> ENABLE_TIMED_LAUNCH cfg = false ->
  shouldPortalBeActive cfg now = true.
Proof. unfold shouldPortalBeActive; intros -> ->; reflexivity. Qed.

Lemma shouldPortalBeActive_timed :
  ROCKSCAPE_PORTAL_SHUTDOWN cfg = false -> ENABLE_TIMED_LAUNCH cfg = true ->
  shouldPortalBeActive cfg now =
  if LAUNCH_END_TIME cfg =? 0 then LAUNCH_START_TIME cfg <=? now
  else (LAUNCH_START_TIME cfg <=? now) && (now <? LAUNCH_END_TIME cfg).
Proof. unfold shouldPortalBeActive; intros -> ->; reflexivity. Qed.

End Evaluator.

(** C2, as the description words it, fails: with the master shutdown off and
    the timed launch switched off, the portal is active before the start
    time of an open-ended window. *)
Lemma shouldPortalBeActive_window_counterexample :
  ~ (forall (cfg : Config) (now : Z),
        (ROCKSCAPE_PORTAL_SHUTDOWN cfg = true ->
         shouldPortalBeActive cfg now = false)
        /\ (ROCKSCAPE_PORTAL_SHUTDOWN cfg = false ->
            LAUNCH_END_TIME cfg = 0 ->
            (shouldPortalBeActive cfg now = true <-> LAUNCH_START_TIME cfg <= now))
        /\ (ROCKSCAPE_PORTAL_SHUTDOWN cfg = false ->
            LAUNCH_END_TIME cfg <> 0 ->
            (shouldPortalBeActive cfg now = true
             <-> LAUNCH_START_TIME cfg <= now < LAUNCH_END_TIME cfg))).
Proof.
  intros H.
  destruct (H (mkConfig false false 1000 0) 0) as (_ & Hopen & _).
  assert (Hle : 1000 <= 0) by (apply Hopen; reflexivity).
  lia.
Qed.

(** C2 (amended): the master shutdown forces inactive; otherwise a scene
    without timed launch is always active; otherwise an open-ended window
    ([LAUNCH_END_TIME = 0]) is active iff [now >= start], and a closed one
    iff [start <= now < end]. *)
Theorem shouldPortalBeActive_window (cfg : Config) (now : Z) :
  (ROCKSCAPE_PORTAL_SHUTDOWN cfg = true ->
   shouldPortalBeActive cfg now = false)
  /\ (ROCKSCAPE_PORTAL_SHUTDOWN cfg = false ->
      ENABLE_TIMED_LAUNCH cfg = false ->
      shouldPortalBeActive cfg now = true)
  /\ (ROCKSCAPE_PORTAL_SHUTDOWN cfg = false ->
      ENABLE_TIMED_LAUNCH cfg = true ->
      LAUNCH_END_TIME cfg = 0 ->
      (shouldPortalBeActive cfg now = true <-> LAUNCH_START_TIME cfg <= now))
  /\ (ROCKSCAPE_PORTAL_SHUTDOWN cfg = false ->
      ENABLE_TIMED_LAUNCH cfg = true ->
      LAUNCH_END_TIME cfg <> 0 ->
      (shouldPortalBeActive cfg now = true
       <-> LAUNCH_START_TIME cfg <= now < LAUNCH_END_TIME cfg)).
Proof.
  split; [apply shouldPortalBeActive_shutdown |].
  split; [apply shouldPortalBeActive_untimed |].
  split; intros Hs Ht He; rewrite (shouldPortalBeActive_timed _ _ Hs Ht).
  - rewrite He; simpl. apply Z.leb_le.
  - apply Z.eqb_neq in He; rewrite He.
    rewrite andb_true_iff, Z.leb_le, Z.ltb_lt. reflexivity.
Qed.

(** The four cases of the amended C2, each met by a configuration: the
    shipped one is timed and open-ended. *)
Lemma shouldPortalBeActive_window_witness :
  shouldPortalBeActive (mkConfig true true 1000 2000) 1500 = false
  /\ shouldPortalBeActive (mkConfig false false 1000 2000) 0 = true
  /\ (shouldPortalBeActive source_config 1761958800000 = true
      <-> LAUNCH_START_TIME source_config <= 1761958800000)
  /\ (shouldPortalBeActive (mkConfig false true 1000 2000) 2000 = true
      <-> 1000 <= 2000 < 2000).
Proof.
  split; [| split; [| split]].
  - destruct (shouldPortalBeActive_window (mkConfig true true 1000 2000) 1500)
      as (H & _).
    apply H; reflexivity.
  - destruct (shouldPortalBeActive_window (mkConfig false false 1000 2000) 0)
      as (_ & H & _).
    apply H; reflexivity.
  - destruct (shouldPortalBeActive_window source_config 1761958800000)
      as (_ & _ & H & _).
    apply H; reflexivity.
  - destruct (shouldPortalBeActive_window (mkConfig false true 1000 2000) 2000)
      as (_ & _ & _ & H).
    apply H; [reflexivity | reflexivity | simpl; lia].
Defined.

(** ** The countdown formatter *)

Section Formatter.
Variable ms : Z.
Hypothesis ms_pos : 0 < ms.

Lemma totalSeconds_nonneg : 0 <= JS.floor_div ms 1000.
Proof. unfold JS.floor_div. apply Z.div_pos; lia. Qed.

Lemma days_floored :
  JS.floor_div (JS.floor_div ms 1000) 86400 = Floored.days ms.
Proof.
  unfold JS.floor_div, Floored.days.
  rewrite Z.div_div by lia. reflexivity.
Qed.

Lemma hours_floored :
  JS.floor_div (JS.rem (JS.floor_div ms 1000) 86400) 3600 = Floored.hours ms.
Proof.
  pose proof totalSeconds_nonneg as Ht.
  unfold JS.floor_div, JS.rem, Floored.hours in *.
  rewrite Z.rem_mod_nonneg by lia.
  replace 3600000 with (1000 * 3600) by reflexivity.
  rewrite <- Z.div_div by lia.
  set (t := ms / 1000) in *.
  replace 86400 with (3600 * 24) by reflexivity.
  rewrite Z.rem_mul_r by lia.
  rewrite Z.add_comm, Z.mul_comm, Z.div_add_l by lia.
  rewrite (Z.div_small (t mod 3600)) by (apply Z.mod_pos_bound; lia).
  lia.
Qed.

Lemma minutes_floored :
  JS.floor_div (JS.rem (JS.floor_div ms 1000) 3600) 60 = Floored.minutes ms.
Proof.
  pose proof totalSeconds_nonneg as Ht.
  unfold JS.floor_div, JS.rem, Floored.minutes in *.
  rewrite Z.rem_mod_nonneg by lia.
  replace 60000 with (1000 * 60) by reflexivity.
  rewrite <- Z.div_div by lia.
  set (t := ms / 1000) in *.
  replace 3600 with (60 * 60) by reflexivity.
  rewrite Z.rem_mul_r by lia.
  rewrite Z.add_comm, Z.mul_comm, Z.div_add_l by lia.
  rewrite (Z.div_small (t mod 60)) by (apply Z.mod_pos_bound; lia).
  lia.
Qed.

Lemma seconds_floored :
  JS.rem (JS.floor_div ms 1000) 60 = Floored.seconds ms.
Proof.
  pose proof totalSeconds_nonneg as Ht.
  unfold JS.floor_div, JS.rem, Floored.seconds in *.
  apply Z.rem_mod_nonneg; lia.
Qed.

(** The function's result with its locals replaced by the floored
    components. *)
Lemma formatTimeRemaining_floored (isBeforeStart : bool) :
  formatTimeRemaining ms isBeforeStart =
  if 0 <? Floored.days ms then
    (prefix isBeforeStart ++ JS.toString (Floored.days ms) ++ "d "
       ++ JS.toString (Floored.hours ms) ++ "h "
       ++ JS.toString (Floored.minutes ms) ++ "m")%string
  else if 0 <? Floored.hours ms then
    (prefix isBeforeStart ++ JS.toString (Floored.hours ms) ++ "h "
       ++ JS.toString (Floored.minutes ms) ++ "m")%string
  else if 0 <? Floored.minutes ms then
    (prefix isBeforeStart ++ JS.toString (Floored.minutes ms) ++ "m "
       ++ JS.toString (Floored.seconds ms) ++ "s")%string
  else
    (prefix isBeforeStart ++ JS.toString (Floored.seconds ms) ++ "s")%string.
Proof.
  unfold formatTimeRemaining.
  replace (ms <=? 0) with false by (symmetry; apply Z.leb_gt; exact ms_pos).
  cbv zeta.
  rewrite days_floored, hours_floored, minutes_floored, seconds_floored.
  reflexivity.
Qed.

Lemma shown_floored : Floored.shown ms <= ms < Floored.shown ms + 1000.
Proof.
  unfold Floored.shown, Floored.days, Floored.hours, Floored.minutes,
    Floored.seconds.
  pose proof (Z.div_mod ms 1000 ltac:(lia)) as E0.
  pose proof (Z.mod_pos_bound ms 1000 ltac:(lia)) as B0.
  set (t := ms / 1000) in *.
  replace (ms / 86400000) with (t / 86400)
    by (subst t; rewrite Z.div_div by lia; reflexivity).
  replace (ms / 3600000) with (t / 3600)
    by (subst t; rewrite Z.div_div by lia; reflexivity).
  replace (ms / 60000) with (t / 60)
    by (subst t; rewrite Z.div_div by lia; reflexivity).
  assert (Et : t = t / 86400 * 86400 + (t / 3600) mod 24 * 3600
                   + (t / 60) mod 60 * 60 + t mod 60).
  { pose proof (Z.div_mod t 60 ltac:(lia)) as E1.
    pose proof (Z.div_mod (t / 60) 60 ltac:(lia)) as E2.
    pose proof (Z.div_mod (t / 3600) 24 ltac:(lia)) as E3.
    replace (t / 60 / 60) with (t / 3600) in E2
      by (rewrite Z.div_div by lia; reflexivity).
    replace (t / 3600 / 24) with (t / 86400) in E3
      by (rewrite Z.div_div by lia; reflexivity).
    lia. }
  lia.
Qed.

End Formatter.

Lemma tier_days (ms : Z) :
  0 < ms -> (0 <? Floored.days ms) = (86400000 <=? ms).
Proof.
  intros H. unfold Floored.days.
  destruct (Z.leb_spec 86400000 ms); [apply Z.ltb_lt | apply Z.ltb_ge];
    Z.to_euclidean_division_equations; lia.
Qed.

Lemma tier_hours (ms : Z) :
  0 < ms < 86400000 -> (0 <? Floored.hours ms) = (3600000 <=? ms).
Proof.
  intros H. unfold Floored.hours.
  destruct (Z.leb_spec 3600000 ms); [apply Z.ltb_lt | apply Z.ltb_ge];
    Z.to_euclidean_division_equations; lia.
Qed.

Lemma tier_minutes (ms : Z) :
  0 < ms < 3600000 -> (0 <? Floored.minutes ms) = (60000 <=? ms).
Proof.
  intros H. unfold Floored.minutes.
  destruct (Z.leb_spec 60000 ms); [apply Z.ltb_lt | apply Z.ltb_ge];
    Z.to_euclidean_division_equations; lia.
Qed.

(** The four tiers, by the size of the remaining time. *)
Lemma formatTimeRemaining_by_tier (ms : Z) (isBeforeStart : bool) :
  0 < ms ->
  (86400000 <= ms ->
   formatTimeRemaining ms isBeforeStart
   = (prefix isBeforeStart ++ JS.toString (Floored.days ms) ++ "d "
        ++ JS.toString (Floored.hours ms) ++ "h "
        ++ JS.toString (Floored.minutes ms) ++ "m")%string)
  /\ (3600000 <= ms < 86400000 ->
      formatTimeRemaining ms isBeforeStart
      = (prefix isBeforeStart ++ JS.toString (Floored.hours ms) ++ "h "
           ++ JS.toString (Floored.minutes ms) ++ "m")%string)
  /\ (60000 <= ms < 3600000 ->
      formatTimeRemaining ms isBeforeStart
      = (prefix isBeforeStart ++ JS.toString (Floored.minutes ms) ++ "m "
           ++ JS.toString (Floored.seconds ms) ++ "s")%string)
  /\ (ms < 60000 ->
      formatTimeRemaining ms isBeforeStart
      = (prefix isBeforeStart ++ JS.toString (Floored.seconds ms) ++ "s")%string).
Proof.
  intros Hpos.
  rewrite (formatTimeRemaining_floored ms Hpos).
  repeat split; intros Htier.
  - rewrite tier_days by lia.
    replace (86400000 <=? ms) with true by (symmetry; apply Z.leb_le; lia).
    reflexivity.
  - rewrite tier_days, tier_hours by lia.
    replace (86400000 <=? ms) with false by (symmetry; apply Z.leb_gt; lia).
    replace (3600000 <=? ms) with true by (symmetry; apply Z.leb_le; lia).
    reflexivity.
  - rewrite tier_days, tier_hours, tier_minutes by lia.
    replace (86400000 <=? ms) with false by (symmetry; apply Z.leb_gt; lia).
    replace (3600000 <=? ms) with false by (symmetry; apply Z.leb_gt; lia).
    replace (60000 <=? ms) with true by (symmetry; apply Z.leb_le; lia).
    reflexivity.
  - rewrite tier_days, tier_hours, tier_minutes by lia.
    replace (86400000 <=? ms) with false by (symmetry; apply Z.leb_gt; lia).
    replace (3600000 <=? ms) with false by (symmetry; apply Z.leb_gt; lia).
    replace (60000 <=? ms) with false by (symmetry; apply Z.leb_gt; lia).
    reflexivity.
Qed.

(** C3, as the description's table has it, fails: the function never
    returns the bare strings of the table. *)
Lemma formatTimeRemaining_table_counterexample :
  ~ (formatTimeRemaining 90000 true = "1m 30s"%string
     /\ formatTimeRemaining 3700000 true = "1h 1m"%string
     /\ formatTimeRemaining 0 true = "OPENING SOON"%string
     /\ formatTimeRemaining 0 false = "CLOSED"%string
     /\ formatTimeRemaining 90061000 true = "1d 1h 1m"%string).
Proof. intros (H & _). vm_compute in H. discriminate H. Qed.

(** C3 (amended): the table with the strings the function returns. A
    positive remaining time is printed after the line "PORTAL OPENS IN:"
    and a line break; the two zero messages are "PORTAL OPENING SOON..."
    and "PORTAL CLOSED". *)
Theorem formatTimeRemaining_table :
  formatTimeRemaining 90000 true
  = ("PORTAL OPENS IN:" ++ JS.newline ++ "1m 30s")%string
  /\ formatTimeRemaining 3700000 true
     = ("PORTAL OPENS IN:" ++ JS.newline ++ "1h 1m")%string
  /\ formatTimeRemaining 0 true = "PORTAL OPENING SOON..."%string
  /\ formatTimeRemaining 0 false = "PORTAL CLOSED"%string
  /\ formatTimeRemaining 90061000 true
     = ("PORTAL OPENS IN:" ++ JS.newline ++ "1d 1h 1m")%string.
Proof. repeat split; vm_compute; reflexivity. Qed.

(** C4: for a positive remaining time the days, hours, minutes and seconds
    shown are floored quotients (what they stand for is at most the
    remaining time, and less than a second short of it), and the tiers are:
    a day or more, days hours minutes; an hour or more, hours minutes; a
    minute or more, minutes seconds; under a minute, seconds only. *)
Theorem formatTimeRemaining_tiers (ms : Z) (isBeforeStart : bool) :
  0 < ms ->
  Floored.shown ms <= ms < Floored.shown ms + 1000
  /\ (86400000 <= ms ->
      formatTimeRemaining ms isBeforeStart
      = (prefix isBeforeStart ++ JS.toString (Floored.days ms) ++ "d "
           ++ JS.toString (Floored.hours ms) ++ "h "
           ++ JS.toString (Floored.minutes ms) ++ "m")%string)
  /\ (3600000 <= ms < 86400000 ->
      formatTimeRemaining ms isBeforeStart
      = (prefix isBeforeStart ++ JS.toString (Floored.hours ms) ++ "h "
           ++ JS.toString (Floored.minutes ms) ++ "m")%string)
  /\ (60000 <= ms < 3600000 ->
      formatTimeRemaining ms isBeforeStart
      = (prefix isBeforeStart ++ JS.toString (Floored.minutes ms) ++ "m "
           ++ JS.toString (Floored.seconds ms) ++ "s")%string)
  /\ (ms < 60000 ->
      formatTimeRemaining ms isBeforeStart
      = (prefix isBeforeStart ++ JS.toString (Floored.seconds ms) ++ "s")%string).
Proof.
  intros Hpos.
  split; [exact (shown_floored ms) |].
  exact (formatTimeRemaining_by_tier ms isBeforeStart Hpos).
Qed.

(** One second short of two days: 1d 23h 59m, with the 59 seconds dropped
    and nothing rounded up to "2d". *)
Lemma formatTimeRemaining_tiers_witness :
  0 < 172799000
  /\ formatTimeRemaining 172799000 false
     = ("PORTAL CLOSES IN:" ++ JS.newline ++ "1d 23h 59m")%string.
Proof.
  split; [lia |].
  destruct (formatTimeRemaining_tiers 172799000 false) as (_ & Hday & _);
    [lia |].
  rewrite Hday by lia. vm_compute. reflexivity.
Defined.

(** C10: strictly between 0 and 1000 ms the function prints "0s" after the
    prefix of the direction, not one of the two zero messages. *)
Theorem formatTimeRemaining_subsecond (ms : Z) (isBeforeStart : bool) :
  0 < ms < 1000 ->
  formatTimeRemaining ms isBeforeStart
  = (prefix isBeforeStart ++ "0s")%string
  /\ formatTimeRemaining ms isBeforeStart <> "PORTAL OPENING SOON..."%string
  /\ formatTimeRemaining ms isBeforeStart <> "PORTAL CLOSED"%string.
Proof.
  intros Hms.
  assert (E : formatTimeRemaining ms isBeforeStart
              = (prefix isBeforeStart ++ "0s")%string).
  { destruct (formatTimeRemaining_by_tier ms isBeforeStart) as (_ & _ & _ & Hsec);
      [lia |].
    rewrite Hsec by lia.
    unfold Floored.seconds.
    replace (ms / 1000) with 0 by (symmetry; apply Z.div_small; lia).
    reflexivity. }
  rewrite E.
  repeat split; destruct isBeforeStart; vm_compute; discriminate.
Qed.

Lemma formatTimeRemaining_subsecond_witness :
  0 < 999 < 1000
  /\ formatTimeRemaining 999 true
     = ("PORTAL OPENS IN:" ++ JS.newline ++ "0s")%string.
Proof.
  split; [lia |].
  destruct (formatTimeRemaining_subsecond 999 true) as (H & _); [lia |].
  exact H.
Defined.

(** ** The portal state machine *)

Module PortalFacts.
Import Portal.

Section WithConfig.
Variable cfg : Config.

Lemma runCallbacks_core (cbs : list Callback) (s : State) :
  core (fold_left (fun s cb => runCallback cb s) cbs s) = core s.
Proof.
  revert s; induction cbs as [| cb cbs IH]; intros s; simpl; [reflexivity |].
  rewrite IH. destruct cb; reflexivity.
Qed.

Lemma updatePortal_core (shouldBeActive : bool) (s : State) :
  core (updatePortal shouldBeActive s) = updateCore shouldBeActive (core s).
Proof.
  destruct s as [active txt since added inst sc1 sc2 sc3 ctxt cbs moves sys clk tms].
  unfold updatePortal, core, updateCore; simpl.
  destruct shouldBeActive, active, added; reflexivity.
Qed.

Lemma instantTeleportCheck_core (f : Frame) (s : State) :
  core (instantTeleportCheck f s) = core s.
Proof.
  unfold instantTeleportCheck.
  destruct (Zone.withinBox _ _ _ _ _); reflexivity.
Qed.

Lemma countdownSystem_core (f : Frame) (s : State) :
  core (countdownSystem cfg f s)
  = if skipped cfg f s then core s
    else updateCore (shouldPortalBeActive cfg (now_eval f)) (core s).
Proof.
  unfold countdownSystem, skipped, frameCheckInterval, timeUntilEvent.
  destruct (countdown cfg (now f)) as [text t]. cbv zeta.
  match goal with
  | |- core (if ?c then _ else _) = (if ?d then _ else _) =>
      change c with d; destruct d
  end; [reflexivity |].
  rewrite updatePortal_core. f_equal.
  repeat match goal with
         | |- core (if ?c then _ else _) = _ => destruct c
         | |- core (instantTeleportCheck _ _) = _ =>
             rewrite instantTeleportCheck_core
         end; reflexivity.
Qed.

(** An activation edge: the evaluator says active and the machine is
    inactive. The frame is never skipped. *)
Lemma countdownSystem_activates (f : Frame) (s : State) :
  shouldPortalBeActive cfg (now_eval f) = true ->
  isPortalActive s = false ->
  core (countdownSystem cfg f s)
  = (true, true,
     if triggerAdded s then triggerZone_addTrigger_calls s
     else S (triggerZone_addTrigger_calls s),
     systemInstalled s).
Proof.
  intros Hshould Hinactive.
  rewrite countdownSystem_core. unfold skipped, core, updateCore.
  rewrite Hshould, Hinactive. reflexivity.
Qed.

(** Any other frame leaves the registration alone and cannot activate. *)
Lemma countdownSystem_no_edge (f : Frame) (s : State) :
  shouldPortalBeActive cfg (now_eval f) && negb (isPortalActive s) = false ->
  triggerAdded (countdownSystem cfg f s) = triggerAdded s
  /\ triggerZone_addTrigger_calls (countdownSystem cfg f s)
     = triggerZone_addTrigger_calls s
  /\ systemInstalled (countdownSystem cfg f s) = systemInstalled s
  /\ (isPortalActive s = false -> isPortalActive (countdownSystem cfg f s) = false).
Proof.
  intros Hno.
  pose proof (countdownSystem_core f s) as Hcore.
  unfold core, updateCore in Hcore. rewrite Hno in Hcore.
  destruct (skipped cfg f s);
    [| destruct (negb (shouldPortalBeActive cfg (now_eval f)) && isPortalActive s)
         eqn:Hoff ];
    injection Hcore as Ha Hb Hc Hd; repeat split; congruence.
Qed.

Lemma frame_beforeSystem (f : Frame) (s : State) :
  frame cfg f s
  = if systemInstalled (beforeSystem f s)
    then countdownSystem cfg f (beforeSystem f s)
    else beforeSystem f s.
Proof. reflexivity. Qed.

Lemma beforeSystem_core (f : Frame) (s : State) :
  core (beforeSystem f s) = core s.
Proof.
  unfold beforeSystem.
  destruct (Timers.poll _ _) as [cbs pending].
  rewrite runCallbacks_core. reflexivity.
Qed.

Lemma core_fields (s s' : State) :
  core s' = core s ->
  isPortalActive s' = isPortalActive s
  /\ triggerAdded s' = triggerAdded s
  /\ triggerZone_addTrigger_calls s' = triggerZone_addTrigger_calls s
  /\ systemInstalled s' = systemInstalled s.
Proof. unfold core; intros H; injection H; auto. Qed.

Lemma frame_not_installed (f : Frame) (s : State) :
  systemInstalled s = false -> core (frame cfg f s) = core s.
Proof.
  intros Hoff. rewrite frame_beforeSystem.
  destruct (core_fields _ _ (beforeSystem_core f s)) as (_ & _ & _ & Hsys).
  rewrite Hsys, Hoff. apply beforeSystem_core.
Qed.

Lemma frame_activates (f : Frame) (s : State) :
  systemInstalled s = true ->
  shouldPortalBeActive cfg (now_eval f) = true ->
  isPortalActive s = false ->
  core (frame cfg f s)
  = (true, true,
     if triggerAdded s then triggerZone_addTrigger_calls s
     else S (triggerZone_addTrigger_calls s),
     true).
Proof.
  intros Hon Hshould Hinactive. rewrite frame_beforeSystem.
  destruct (core_fields _ _ (beforeSystem_core f s)) as (Ha & Hb & Hc & Hd).
  rewrite Hd, Hon.
  rewrite countdownSystem_activates by congruence.
  rewrite Hb, Hc, Hd, Hon. reflexivity.
Qed.

Lemma frame_no_edge (f : Frame) (s : State) :
  shouldPortalBeActive cfg (now_eval f) && negb (isPortalActive s) = false ->
  triggerAdded (frame cfg f s) = triggerAdded s
  /\ triggerZone_addTrigger_calls (frame cfg f s) = triggerZone_addTrigger_calls s
  /\ systemInstalled (frame cfg f s) = systemInstalled s
  /\ (isPortalActive s = false -> isPortalActive (frame cfg f s) = false).
Proof.
  intros Hno. rewrite frame_beforeSystem.
  destruct (core_fields _ _ (beforeSystem_core f s)) as (Ha & Hb & Hc & Hd).
  destruct (systemInstalled (beforeSystem f s)) eqn:Hsys.
  - destruct (countdownSystem_no_edge f (beforeSystem f s)) as (H1 & H2 & H3 & H4);
      [rewrite Ha; exact Hno |].
    repeat split; try congruence.
    intros Hinactive. apply H4. congruence.
  - repeat split; congruence.
Qed.

(** Once the flag is set, no frame clears it or registers again. *)
Lemma frame_added (f : Frame) (s : State) :
  triggerAdded s = true ->
  triggerAdded (frame cfg f s) = true
  /\ triggerZone_addTrigger_calls (frame cfg f s) = triggerZone_addTrigger_calls s.
Proof.
  intros Hadded.
  destruct (shouldPortalBeActive cfg (now_eval f) && negb (isPortalActive s))
    eqn:Hedge.
  - apply andb_true_iff in Hedge as [Hshould Hinactive].
    apply negb_true_iff in Hinactive.
    destruct (systemInstalled s) eqn:Hsys.
    + pose proof (frame_activates f s Hsys Hshould Hinactive) as Hcore.
      rewrite Hadded in Hcore. unfold core in Hcore.
      injection Hcore as _ Hb Hc _. auto.
    + destruct (core_fields _ _ (frame_not_installed f s Hsys)) as (_ & Hb & Hc & _).
      split; congruence.
  - destruct (frame_no_edge f s Hedge) as (Hb & Hc & _). split; congruence.
Qed.

Lemma run_added (frames : list Frame) (s : State) :
  triggerAdded s = true ->
  triggerAdded (run cfg frames s) = true
  /\ triggerZone_addTrigger_calls (run cfg frames s) = triggerZone_addTrigger_calls s.
Proof.
  revert s; induction frames as [| f frames IH]; intros s Hadded; simpl.
  - auto.
  - destruct (frame_added f s Hadded) as (Hb & Hc).
    destruct (IH _ Hb) as (Hb' & Hc'). split; congruence.
Qed.

Lemma run_app (l1 l2 : list Frame) (s : State) :
  run cfg (l1 ++ l2) s = run cfg l2 (run cfg l1 s).
Proof. unfold run. apply fold_left_app. Qed.

(** From an inactive machine with the system installed and no trigger
    registered by the system yet: the flag is set by the first frame whose
    evaluation is active, with one registration. *)
Lemma run_from_inactive (frames : list Frame) (s : State) :
  systemInstalled s = true ->
  isPortalActive s = false ->
  triggerAdded s = false ->
  triggerAdded (run cfg frames s) = everActive cfg frames
  /\ triggerZone_addTrigger_calls (run cfg frames s)
     = ((if everActive cfg frames then 1 else 0) + triggerZone_addTrigger_calls s)%nat.
Proof.
  revert s; induction frames as [| f frames IH]; intros s Hsys Hinactive Hfresh;
    simpl.
  - auto.
  - destruct (shouldPortalBeActive cfg (now_eval f)) eqn:Hshould; simpl.
    + pose proof (frame_activates f s Hsys Hshould Hinactive) as Hcore.
      rewrite Hfresh in Hcore. unfold core in Hcore.
      injection Hcore as _ Hb Hc _.
      destruct (run_added frames _ Hb) as (Hb' & Hc').
      split; congruence.
    + destruct (frame_no_edge f s) as (Hb & Hc & Hd & Ha);
        [rewrite Hshould; reflexivity |].
      destruct (IH (frame cfg f s)) as (Hb' & Hc'); try congruence; auto.
      split; congruence.
Qed.

(** Where the system is not installed, nothing ever changes the core. *)
Lemma run_not_installed (frames : list Frame) (s : State) :
  systemInstalled s = false -> core (run cfg frames s) = core s.
Proof.
  revert s; induction frames as [| f frames IH]; intros s Hoff; simpl.
  - reflexivity.
  - pose proof (frame_not_installed f s Hoff) as Hcore.
    destruct (core_fields _ _ Hcore) as (_ & _ & _ & Hsys).
    rewrite IH by congruence. exact Hcore.
Qed.

(** [main] on the core. *)
Lemma main_core (now0 now1 : Z) :
  core (main cfg now0 now1)
  = (shouldPortalBeActive cfg now0, false,
     if shouldPortalBeActive cfg now0 then 1%nat else 0%nat,
     ENABLE_TIMED_LAUNCH cfg && negb (ROCKSCAPE_PORTAL_SHUTDOWN cfg)).
Proof.
  unfold main.
  destruct (shouldPortalBeActive cfg now0);
    destruct (ENABLE_TIMED_LAUNCH cfg && negb (ROCKSCAPE_PORTAL_SHUTDOWN cfg));
    reflexivity.
Qed.

(** When [main] does not install the system the evaluator is constant. *)
Lemma evaluator_constant_without_system (now now' : Z) :
  ENABLE_TIMED_LAUNCH cfg && negb (ROCKSCAPE_PORTAL_SHUTDOWN cfg) = false ->
  shouldPortalBeActive cfg now = shouldPortalBeActive cfg now'.
Proof.
  unfold shouldPortalBeActive.
  destruct (ROCKSCAPE_PORTAL_SHUTDOWN cfg), (ENABLE_TIMED_LAUNCH cfg);
    simpl; intros H; try reflexivity; discriminate H.
Qed.

(** A run that started with one registration made by [main]: the count is
    one, plus one if the system has set its flag. *)
Lemma frame_count_from_active (f : Frame) (s : State) :
  triggerZone_addTrigger_calls s = (if triggerAdded s then 2 else 1)%nat ->
  triggerZone_addTrigger_calls (frame cfg f s)
  = (if triggerAdded (frame cfg f s) then 2 else 1)%nat.
Proof.
  intros Hcount.
  destruct (triggerAdded s) eqn:Hadded.
  - destruct (frame_added f s Hadded) as (Hb & Hc). rewrite Hb. congruence.
  - destruct (shouldPortalBeActive cfg (now_eval f) && negb (isPortalActive s))
      eqn:Hedge.
    + apply andb_true_iff in Hedge as [Hshould Hinactive].
      apply negb_true_iff in Hinactive.
      destruct (systemInstalled s) eqn:Hsys.
      * pose proof (frame_activates f s Hsys Hshould Hinactive) as Hcore.
        rewrite Hadded in Hcore. unfold core in Hcore.
        injection Hcore as _ Hb Hc _. rewrite Hb, Hc, Hcount. reflexivity.
      * destruct (core_fields _ _ (frame_not_installed f s Hsys))
          as (_ & Hb & Hc & _).
        rewrite Hb, Hc, Hadded. exact Hcount.
    + destruct (frame_no_edge f s Hedge) as (Hb & Hc & _).
      rewrite Hb, Hc, Hadded. exact Hcount.
Qed.

Lemma run_count_from_active (frames : list Frame) (s : State) :
  triggerZone_addTrigger_calls s = (if triggerAdded s then 2 else 1)%nat ->
  triggerZone_addTrigger_calls (run cfg frames s)
  = (if triggerAdded (run cfg frames s) then 2 else 1)%nat.
Proof.
  revert s; induction frames as [| f frames IH]; intros s Hcount; simpl.
  - exact Hcount.
  - apply IH, frame_count_from_active, Hcount.
Qed.

End WithConfig.
End PortalFacts.

(** C1: a run that starts inactive registers the enter-callback of the
    teleport trigger exactly once, however the evaluator oscillates. The
    flag [triggerAdded] is set by the first frame whose evaluation is
    active, the count of registrations is then one, and no later frame
    clears the flag or registers again. *)
Theorem trigger_registered_once
        (cfg : Config) (now0 now1 : Z) (frames later : list Portal.Frame) :
  shouldPortalBeActive cfg now0 = false ->
  let s := Portal.run cfg frames (Portal.main cfg now0 now1) in
  Portal.triggerAdded s = Portal.everActive cfg frames
  /\ Portal.triggerZone_addTrigger_calls s
     = (if Portal.everActive cfg frames then 1 else 0)%nat
  /\ (Portal.triggerAdded s = true ->
      Portal.triggerAdded (Portal.run cfg later s) = true
      /\ Portal.triggerZone_addTrigger_calls (Portal.run cfg later s) = 1%nat).
Proof.
  intros Hinactive s.
  pose proof (PortalFacts.main_core cfg now0 now1) as Hmain.
  rewrite Hinactive in Hmain.
  unfold Portal.core in Hmain. injection Hmain as Ha Hb Hc Hd.
  assert (Hrun : Portal.triggerAdded s = Portal.everActive cfg frames
                 /\ Portal.triggerZone_addTrigger_calls s
                    = (if Portal.everActive cfg frames then 1 else 0)%nat).
  { destruct (ENABLE_TIMED_LAUNCH cfg && negb (ROCKSCAPE_PORTAL_SHUTDOWN cfg))
      eqn:Hinstalled.
    - destruct (PortalFacts.run_from_inactive cfg frames
                  (Portal.main cfg now0 now1) Hd Ha Hb) as (H1 & H2).
      subst s. rewrite H1, H2, Hc. split; [reflexivity | apply Nat.add_0_r].
    - assert (Hnever : Portal.everActive cfg frames = false).
      { unfold Portal.everActive. clear s.
        induction frames as [| f frames IH]; simpl; [reflexivity |].
        rewrite (PortalFacts.evaluator_constant_without_system cfg
                   (Portal.now_eval f) now0 Hinstalled), Hinactive.
        exact IH. }
      destruct (PortalFacts.core_fields _ _
                  (PortalFacts.run_not_installed cfg frames
                     (Portal.main cfg now0 now1) Hd)) as (_ & H1 & H2 & _).
      subst s. rewrite H1, H2, Hnever. split; assumption. }
  destruct Hrun as (Hflag & Hcount).
  split; [exact Hflag |]. split; [exact Hcount |].
  intros Hset.
  destruct (PortalFacts.run_added cfg later s Hset) as (Hstays & Hsame).
  split; [exact Hstays |].
  rewrite Hsame, Hcount, <- Hflag, Hset. reflexivity.
Qed.

(** A closed window from 1000 to 2000, built before it opens. The clock
    reads 500, 1500, 2500 and then 1500 again: the machine goes inactive,
    active, inactive, active, and the count of registrations is one. *)
Lemma trigger_registered_once_witness :
  let cfg := mkConfig false true 1000 2000 in
  let at_ (now : Z) := Portal.mkFrame 1 now now Vec.Zero in
  let frames := [at_ 500; at_ 1500; at_ 2500; at_ 1500] in
  shouldPortalBeActive cfg 0 = false
  /\ map (fun n => Portal.isPortalActive
                     (Portal.run cfg (firstn n frames) (Portal.main cfg 0 0)))
         [1; 2; 3; 4]%nat
     = [false; true; false; true]
  /\ Portal.triggerZone_addTrigger_calls
       (Portal.run cfg frames (Portal.main cfg 0 0)) = 1%nat.
Proof.
  intros cfg at_ frames.
  split; [reflexivity |].
  split; [vm_compute; reflexivity |].
  destruct (trigger_registered_once cfg 0 0 frames []) as (_ & Hcount & _);
    [reflexivity |].
  exact Hcount.
Defined.

(** C9: when the portal is already active as [main] runs, [main] registers
    the enter-callback without setting [triggerAdded]. In every run from
    there in which the machine has gone inactive and the evaluator then
    says active again, the system registers a second enter-callback on the
    same zone, and the count stays at two. *)
Theorem second_registration_after_active_start
        (cfg : Config) (now0 now1 : Z) (before : list Portal.Frame)
        (f : Portal.Frame) (after : list Portal.Frame) :
  shouldPortalBeActive cfg now0 = true ->
  let s0 := Portal.main cfg now0 now1 in
  Portal.isPortalActive s0 = true
  /\ Portal.triggerAdded s0 = false
  /\ Portal.triggerZone_addTrigger_calls s0 = 1%nat
  /\ (Portal.isPortalActive (Portal.run cfg before s0) = false ->
      shouldPortalBeActive cfg (Portal.now_eval f) = true ->
      Portal.triggerZone_addTrigger_calls
        (Portal.run cfg (before ++ f :: after) s0) = 2%nat).
Proof.
  intros Hactive s0.
  pose proof (PortalFacts.main_core cfg now0 now1) as Hmain.
  rewrite Hactive in Hmain. unfold Portal.core in Hmain.
  injection Hmain as Ha Hb Hc Hd. fold s0 in Ha, Hb, Hc, Hd.
  split; [exact Ha |]. split; [exact Hb |]. split; [exact Hc |].
  intros Hwent_inactive Hshould.
  assert (Hcount0 : Portal.triggerZone_addTrigger_calls s0
                    = (if Portal.triggerAdded s0 then 2 else 1)%nat)
    by (rewrite Hb, Hc; reflexivity).
  set (s1 := Portal.run cfg before s0) in *.
  pose proof (PortalFacts.run_count_from_active cfg before s0 Hcount0) as Hcount1.
  fold s1 in Hcount1.
  assert (Hsys1 : Portal.systemInstalled s1 = true).
  { destruct (Portal.systemInstalled s0) eqn:Hsys0.
    - destruct (ENABLE_TIMED_LAUNCH cfg && negb (ROCKSCAPE_PORTAL_SHUTDOWN cfg))
        eqn:Hinstalled; [| discriminate Hd].
      clear - Hsys0. subst s1. revert Hsys0. generalize s0.
      induction before as [| g before IH]; intros s Hsys; simpl; [exact Hsys |].
      apply IH.
      destruct (shouldPortalBeActive cfg (Portal.now_eval g)
                && negb (Portal.isPortalActive s)) eqn:Hedge.
      + apply andb_true_iff in Hedge as [Hs Hi]. apply negb_true_iff in Hi.
        pose proof (PortalFacts.frame_activates cfg g s Hsys Hs Hi) as Hcore.
        unfold Portal.core in Hcore. injection Hcore as _ _ _ Hinst. exact Hinst.
      + destruct (PortalFacts.frame_no_edge cfg g s Hedge) as (_ & _ & Hinst & _).
        congruence.
    - destruct (PortalFacts.core_fields _ _
                  (PortalFacts.run_not_installed cfg before s0 Hsys0))
        as (Hsame & _).
      fold s1 in Hsame. congruence. }
  rewrite PortalFacts.run_app. fold s1. simpl.
  pose proof (PortalFacts.frame_activates cfg f s1 Hsys1 Hshould Hwent_inactive)
    as Hcore.
  unfold Portal.core in Hcore. injection Hcore as _ Hadded Hcount _.
  pose proof (PortalFacts.frame_count_from_active cfg f s1 Hcount1) as Hcount2.
  rewrite Hadded in Hcount2.
  destruct (PortalFacts.run_added cfg after _ Hadded) as (_ & Hsame).
  fold (Portal.run cfg after (Portal.frame cfg f s1)).
  rewrite Hsame. exact Hcount2.
Qed.

(** The shipped configuration, built at the start time. The clock then
    reads one millisecond earlier, and the start time again: the machine
    goes inactive and active, and the zone has had two enter-callbacks
    registered. *)
Lemma second_registration_after_active_start_witness :
  let start := LAUNCH_START_TIME source_config in
  let at_ (now : Z) := Portal.mkFrame (1 # 60) now now Vec.Zero in
  let s0 := Portal.main source_config start start in
  let s := Portal.run source_config [at_ (start - 1); at_ start] s0 in
  shouldPortalBeActive source_config start = true
  /\ Portal.isPortalActive (Portal.run source_config [at_ (start - 1)] s0) = false
  /\ Portal.triggerZone_addTrigger_calls s = 2%nat.
Proof.
  intros start at_ s0 s.
  split; [reflexivity |].
  split; [vm_compute; reflexivity |].
  destruct (second_registration_after_active_start source_config start start
              [at_ (start - 1)] (at_ start) [])
    as (_ & _ & _ & Htwo); [reflexivity |].
  apply Htwo; vm_compute; reflexivity.
Defined.

(** ** The polling interval *)

(** C5, as the description words it, fails: in the shipped configuration,
    with the portal open and the machine active, the time to the next event
    is 0, which is under 5 seconds, and the interval is one second, not
    every frame. *)
Lemma checkInterval_tiers_counterexample :
  let start := LAUNCH_START_TIME source_config in
  let f := Portal.mkFrame (1 # 60) start start Vec.Zero in
  let s := Portal.main source_config start start in
  shouldPortalBeActive source_config (Portal.now_eval f)
    && negb (Portal.isPortalActive s) = false
  /\ Portal.timeUntilEvent source_config (Portal.now f) < 5000
  /\ Portal.frameCheckInterval source_config f s <> 0.
Proof.
  intros start f s.
  split; [vm_compute; reflexivity |].
  split; [vm_compute; reflexivity |].
  vm_compute. discriminate.
Qed.

(** C5 (amended): the interval is 0 whenever the evaluator says active and
    the machine is still inactive. Otherwise it depends on the time to the
    next event alone: at or past the event, 1 second; under 5 seconds,
    every frame; between 5 seconds and 10 minutes, 1 second; between 10
    minutes and 1 hour, 10 seconds; over 1 hour, 60 seconds. *)
Theorem checkInterval_tiers (cfg : Config) (f : Portal.Frame) (s : Portal.State) :
  let t := Portal.timeUntilEvent cfg (Portal.now f) in
  (shouldPortalBeActive cfg (Portal.now_eval f) = true ->
   Portal.isPortalActive s = false ->
   Portal.frameCheckInterval cfg f s = 0)
  /\ (shouldPortalBeActive cfg (Portal.now_eval f)
        && negb (Portal.isPortalActive s) = false ->
      (t <= 0 -> Portal.frameCheckInterval cfg f s = 1)
      /\ (0 < t < 5000 -> Portal.frameCheckInterval cfg f s = 0)
      /\ (5000 < t < 600000 -> Portal.frameCheckInterval cfg f s = 1)
      /\ (600000 < t < 3600000 -> Portal.frameCheckInterval cfg f s = 10)
      /\ (3600000 < t -> Portal.frameCheckInterval cfg f s = 60)).
Proof.
  intros t. unfold Portal.frameCheckInterval. fold t.
  split.
  - intros -> ->. reflexivity.
  - intros ->. unfold Portal.checkInterval.
    repeat split; intros Ht;
      repeat match goal with
             | |- context [?a <=? ?b] => destruct (Z.leb_spec a b); try lia
             end; reflexivity.
Qed.

(** The five tiers and the fast path, each met in the shipped
    configuration: the start time is the event while the portal is closed. *)
Lemma checkInterval_tiers_witness :
  let start := LAUNCH_START_TIME source_config in
  let at_ (now : Z) := Portal.mkFrame (1 # 60) now now Vec.Zero in
  let closed := Portal.main source_config (start - 1) (start - 1) in
  let open := Portal.main source_config start start in
  Portal.frameCheckInterval source_config (at_ start) closed = 0
  /\ Portal.frameCheckInterval source_config (at_ start) open = 1
  /\ Portal.frameCheckInterval source_config (at_ (start - 4999)) closed = 0
  /\ Portal.frameCheckInterval source_config (at_ (start - 599999)) closed = 1
  /\ Portal.frameCheckInterval source_config (at_ (start - 3599999)) closed = 10
  /\ Portal.frameCheckInterval source_config (at_ (start - 3600001)) closed = 60.
Proof.
  intros start at_ closed open.
  split; [| split; [| split; [| split; [| split]]]].
  - destruct (checkInterval_tiers source_config (at_ start) closed) as (H & _).
    apply H; reflexivity.
  - destruct (checkInterval_tiers source_config (at_ start) open)
      as (_ & H).
    destruct H as (H & _); [reflexivity |]. apply H. vm_compute. discriminate.
  - destruct (checkInterval_tiers source_config (at_ (start - 4999)) closed)
      as (_ & H).
    destruct H as (_ & H & _); [reflexivity |]. apply H. vm_compute. auto.
  - destruct (checkInterval_tiers source_config (at_ (start - 599999)) closed)
      as (_ & H).
    destruct H as (_ & _ & H & _); [reflexivity |]. apply H. vm_compute. auto.
  - destruct (checkInterval_tiers source_config (at_ (start - 3599999)) closed)
      as (_ & H).
    destruct H as (_ & _ & _ & H & _); [reflexivity |]. apply H. vm_compute. auto.
  - destruct (checkInterval_tiers source_config (at_ (start - 3600001)) closed)
      as (_ & H).
    destruct H as (_ & _ & _ & _ & H); [reflexivity |]. apply H. vm_compute.
    reflexivity.
Defined.

(** At the thresholds themselves the comparisons of the source are
    inclusive: 5000 ms still polls every frame, 600000 ms every second and
    3600000 ms every 10 seconds. *)
Lemma checkInterval_at_thresholds :
  Portal.checkInterval false 5000 = 0
  /\ Portal.checkInterval false 600000 = 1
  /\ Portal.checkInterval false 3600000 = 10.
Proof. repeat split. Qed.

(** ** Zone membership *)

Section ZoneFacts.
Local Open Scope Q_scope.

Lemma within_iff (dist size : Q) :
  Zone.within dist size = true <-> dist <= size / 2.
Proof. unfold Zone.within. apply Qle_bool_iff. Qed.

Lemma within_false_iff (dist size : Q) :
  Zone.within dist size = false <-> size / 2 < dist.
Proof.
  unfold Zone.within. split.
  - intros Hfalse. apply Qnot_le_lt. intros Hle.
    apply Qle_bool_iff in Hle. congruence.
  - intros Hlt. destruct (Qle_bool dist (size / 2)) eqn:Hle; [| reflexivity].
    apply Qle_bool_iff in Hle. apply Qlt_not_le in Hlt. contradiction.
Qed.

Lemma withinBox_iff (zonePos : Vector3) (sizeX sizeY sizeZ : Q) (p : Vector3) :
  Zone.withinBox zonePos sizeX sizeY sizeZ p = true
  <-> Qabs (vx p - vx zonePos) <= sizeX / 2
      /\ Qabs (vy p - vy zonePos) <= sizeY / 2
      /\ Qabs (vz p - vz zonePos) <= sizeZ / 2.
Proof.
  unfold Zone.withinBox. cbv zeta.
  rewrite !andb_true_iff, !within_iff. tauto.
Qed.

End ZoneFacts.

(** C8: containment is the conjunction of three per-axis comparisons of
    the distance from the centre with half the size, boundary included: a
    point at exactly half the size away on every axis is inside, a point
    one unit further on any axis is outside. This is the test of the two
    kersplat zones and of the waiting zone at the portal. *)
Theorem withinBox_inclusive
        (zonePos : Vector3) (sizeX sizeY sizeZ : Q) (p : Vector3) :
  let distX := Qabs (vx p - vx zonePos) in
  let distY := Qabs (vy p - vy zonePos) in
  let distZ := Qabs (vz p - vz zonePos) in
  (Zone.withinBox zonePos sizeX sizeY sizeZ p = true
   <-> (distX <= sizeX / 2 /\ distY <= sizeY / 2 /\ distZ <= sizeZ / 2)%Q)
  /\ ((distX == sizeX / 2 /\ distY == sizeY / 2 /\ distZ == sizeZ / 2)%Q ->
      Zone.withinBox zonePos sizeX sizeY sizeZ p = true)
  /\ ((distX == sizeX / 2 + 1 \/ distY == sizeY / 2 + 1
       \/ distZ == sizeZ / 2 + 1)%Q ->
      Zone.withinBox zonePos sizeX sizeY sizeZ p = false)
  /\ Kersplat.inZone1 p = Zone.withinBox Kersplat.zone1Pos 140 1 160 p
  /\ Kersplat.inZone2 p = Zone.withinBox Kersplat.zone2Pos 50 1 50 p.
Proof.
  intros distX distY distZ.
  split; [apply withinBox_iff |].
  split; [| split; [| split; reflexivity]].
  - intros (Hx & Hy & Hz). apply withinBox_iff.
    fold distX distY distZ. rewrite Hx, Hy, Hz.
    repeat split; apply Qle_refl.
  - intros Hbeyond.
    destruct (Zone.withinBox zonePos sizeX sizeY sizeZ p) eqn:Hin;
      [| reflexivity].
    apply withinBox_iff in Hin. fold distX distY distZ in Hin.
    destruct Hin as (Hx & Hy & Hz).
    destruct Hbeyond as [H | [H | H]]; rewrite H in *; lra.
Qed.

(** The corner of kersplat zone 1 (70, 0.5 and 80 away from its centre) is
    inside; one unit further along x is outside. The corner of the waiting
    zone (4 away on each axis) is inside too. *)
Lemma withinBox_inclusive_witness :
  Kersplat.inZone1 (Vec.create 238 (1 # 2) 56) = true
  /\ Kersplat.inZone1 (Vec.create 239 0 (-24)) = false
  /\ Zone.withinBox (Vec.create (1688 # 10) 22 (-32)) 8 8 8
       (Vec.create (1728 # 10) 26 (-28)) = true.
Proof.
  split; [| split].
  - destruct (withinBox_inclusive Kersplat.zone1Pos 140 1 160
                (Vec.create 238 (1 # 2) 56)) as (_ & Hon & _ & Hz1 & _).
    rewrite Hz1. apply Hon. vm_compute. auto.
  - destruct (withinBox_inclusive Kersplat.zone1Pos 140 1 160
                (Vec.create 239 0 (-24))) as (_ & _ & Hout & Hz1 & _).
    rewrite Hz1. apply Hout. left. vm_compute. reflexivity.
  - destruct (withinBox_inclusive (Vec.create (1688 # 10) 22 (-32)) 8 8 8
                (Vec.create (1728 # 10) 26 (-28))) as (_ & Hon & _).
    apply Hon. vm_compute. auto.
Defined.

(** ** The cooldown of the kersplat scanner *)

Module KersplatFacts.
Import Kersplat.
Local Open Scope Q_scope.

Lemma initial_invariant : Invariant initial.
Proof.
  constructor; simpl.
  - constructor.
  - constructor.
  - intros _. split; constructor.
  - discriminate.
Qed.

Lemma Forall_le_trans (l : list Q) (a b : Q) :
  a <= b -> Forall (fun t => t <= a) l -> Forall (fun t => t <= b) l.
Proof.
  intros Hab. apply Forall_impl. intros t Ht. apply Qle_trans with a; assumption.
Qed.

Lemma Forall_plus_le_trans (l : list Q) (a b : Q) :
  a <= b ->
  Forall (fun t => t + 3000 <= a) l -> Forall (fun t => t + 3000 <= b) l.
Proof.
  intros Hab. apply Forall_impl. intros t Ht.
  apply Qle_trans with a; assumption.
Qed.

(** The clock advances by a frame of non-negative length. *)
Lemma advance_invariant (d : Q) (s : State) :
  0 <= d -> Invariant s -> Invariant (set_clock (clock s + 1000 * d) s).
Proof.
  intros Hd [Hapart Hpast Hidle Hcooling].
  assert (Hclock : clock s <= clock s + 1000 * d) by lra.
  constructor; simpl.
  - exact Hapart.
  - apply Forall_le_trans with (clock s); assumption.
  - intros Hoff. destruct (Hidle Hoff) as (Hnone & Hold).
    split; [exact Hnone |].
    apply Forall_plus_le_trans with (clock s); assumption.
  - exact Hcooling.
Qed.

(** Running callbacks: only a reset touches the cooldown, nothing touches
    the respawns, the clock or the pending timers. *)
Lemma runCallbacks_fields (cbs : list Callback) (s : State) :
  let s' := fold_left (fun s cb => runCallback cb s) cbs s in
  kersplatCooldown s'
  = (if existsb isReset cbs then false else kersplatCooldown s)
  /\ respawns s' = respawns s
  /\ clock s' = clock s
  /\ timers s' = timers s.
Proof.
  revert s; induction cbs as [| cb cbs IH]; intros s; simpl.
  - auto.
  - destruct (IH (runCallback cb s)) as (Hc & Hr & Hk & Ht).
    rewrite Hc, Hr, Hk, Ht.
    destruct cb; simpl; repeat split; try reflexivity.
    destruct (existsb isReset cbs); reflexivity.
Qed.

Lemma existsb_isReset (l : list (Timers.Timer Callback)) :
  existsb isReset (map Timers.callback l)
  = match resetTimers l with [] => false | _ :: _ => true end.
Proof.
  induction l as [| tm l IH]; simpl; [reflexivity |].
  destruct (isReset (Timers.callback tm)); simpl; [reflexivity | exact IH].
Qed.

Lemma resetTimers_filter (p : Timers.Timer Callback -> bool)
      (l : list (Timers.Timer Callback)) :
  resetTimers (filter p l) = filter p (resetTimers l).
Proof.
  unfold resetTimers.
  induction l as [| tm l IH]; simpl; [reflexivity |].
  destruct (p tm) eqn:Hp, (isReset (Timers.callback tm)) eqn:Hr; simpl;
    rewrite ?Hp, ?Hr, IH; reflexivity.
Qed.

Lemma resetTimers_app (l1 l2 : list (Timers.Timer Callback)) :
  resetTimers (l1 ++ l2) = resetTimers l1 ++ resetTimers l2.
Proof. apply filter_app. Qed.

Lemma runTimers_fields (s : State) :
  kersplatCooldown (runTimers s)
  = match filter (Timers.expired (clock s)) (resetTimers (timers s)) with
    | [] => kersplatCooldown s
    | _ :: _ => false
    end
  /\ systemRespawns (runTimers s) = systemRespawns s
  /\ clock (runTimers s) = clock s
  /\ resetTimers (timers (runTimers s))
     = filter (fun tm => negb (Timers.expired (clock s) tm))
              (resetTimers (timers s)).
Proof.
  unfold runTimers, Timers.poll, systemRespawns.
  match goal with
  | |- context [fold_left ?step ?cbs ?s0] =>
      destruct (runCallbacks_fields cbs s0) as (Hc & Hr & Hk & Ht)
  end.
  rewrite Hc, Hr, Hk, Ht, existsb_isReset, resetTimers_filter. simpl.
  rewrite resetTimers_filter.
  destruct (filter (Timers.expired (clock s)) (resetTimers (timers s)));
    auto.
Qed.

(** The timer system: a reset that is due clears the cooldown, and by then
    the last respawn is 3000 ms old. *)
Lemma runTimers_invariant (s : State) : Invariant s -> Invariant (runTimers s).
Proof.
  intros [Hapart Hpast Hidle Hcooling].
  destruct (runTimers_fields s) as (Hc & Hr & Hk & Ht).
  constructor; rewrite ?Hr, ?Hk, ?Ht, ?Hc; try assumption.
  - (* no cooldown afterwards *)
    intros Hoff.
    destruct (kersplatCooldown s) eqn:Hcool.
    + destruct (Hcooling eq_refl) as (tm & Hone & Hdue).
      rewrite Hone in *. simpl in *.
      destruct (Timers.expired (clock s) tm) eqn:Hexp; simpl in *;
        [| discriminate Hoff].
      split; [reflexivity |].
      apply Qle_bool_iff in Hexp.
      apply Forall_plus_le_trans with (Timers.due tm); assumption.
    + destruct (Hidle eq_refl) as (Hnone & Hold).
      rewrite Hnone. simpl. split; [reflexivity | exact Hold].
  - (* cooldown afterwards *)
    intros Hon.
    destruct (kersplatCooldown s) eqn:Hcool.
    + destruct (Hcooling eq_refl) as (tm & Hone & Hdue).
      rewrite Hone in *. simpl in *.
      destruct (Timers.expired (clock s) tm) eqn:Hexp; simpl in *;
        [discriminate Hon |].
      exists tm. split; [reflexivity | exact Hdue].
    + destruct (Hidle eq_refl) as (Hnone & _).
      rewrite Hnone in Hon. simpl in Hon. discriminate Hon.
Qed.

(** The scanner: it respawns only without cooldown, and then sets it. *)
Lemma kersplatSystem_invariant (p : Vector3) (s : State) :
  Invariant s -> Invariant (kersplatSystem p s).
Proof.
  intros Hinv. unfold kersplatSystem.
  destruct (kersplatCooldown s) eqn:Hcool; [exact Hinv |].
  destruct (inZone1 p || inZone2 p); [| exact Hinv].
  destruct Hinv as [Hapart Hpast Hidle Hcooling].
  destruct (Hidle Hcool) as (Hnone & Hold).
  constructor; simpl.
  - unfold systemRespawns; simpl. fold (systemRespawns s).
    constructor; [exact Hold | exact Hapart].
  - unfold systemRespawns; simpl. fold (systemRespawns s).
    constructor; [apply Qle_refl | exact Hpast].
  - discriminate.
  - intros _. unfold Timers.setTimeout.
    rewrite !resetTimers_app, Hnone. simpl.
    eexists. split; [reflexivity |]. simpl.
    unfold systemRespawns; simpl. fold (systemRespawns s).
    constructor; [apply Qle_refl |].
    revert Hpast. apply Forall_impl. intros t Ht. lra.
Qed.

(** The enter-callbacks of the trigger volumes neither read nor write the
    cooldown; their respawns are not the scanner's. *)
Lemma onEnter_invariant (p : Vector3) (s : State) :
  Invariant s -> Invariant (kersplatTriggerZone_onEnter p s).
Proof.
  intros [Hapart Hpast Hidle Hcooling].
  constructor; simpl; unfold Timers.setTimeout;
    rewrite ?resetTimers_app, ?app_nil_r; assumption.
Qed.

Lemma frame_invariant (order : Order) (f : Frame) (s : State) :
  0 <= dt f -> Invariant s -> Invariant (frame order f s).
Proof.
  intros Hdt Hinv. unfold frame.
  apply (advance_invariant (dt f) s Hdt) in Hinv.
  set (s1 := set_clock (clock s + 1000 * dt f) s) in *.
  assert (Hsys : Invariant
                   match order with
                   | TimersFirst => kersplatSystem (playerPos f) (runTimers s1)
                   | SystemFirst => runTimers (kersplatSystem (playerPos f) s1)
                   end).
  { destruct order.
    - apply kersplatSystem_invariant, runTimers_invariant, Hinv.
    - apply runTimers_invariant, kersplatSystem_invariant, Hinv. }
  induction (entered f) as [| n IH]; simpl; [exact Hsys |].
  apply onEnter_invariant, IH.
Qed.

Lemma run_invariant (order : Order) (frames : list Frame) (s : State) :
  Forall (fun f => 0 <= dt f) frames ->
  Invariant s -> Invariant (run order frames s).
Proof.
  revert s; induction frames as [| f frames IH]; intros s Hdt Hinv; simpl.
  - exact Hinv.
  - inversion Hdt as [| ? ? Hf Hrest]; subst.
    apply IH; [exact Hrest |]. apply frame_invariant; assumption.
Qed.

End KersplatFacts.

(** *** Counting the respawns *)

Module KersplatCount.
Import Kersplat.

Lemma runTimers_respawns (s : State) : respawns (runTimers s) = respawns s.
Proof.
  unfold runTimers.
  destruct (Timers.poll (clock s) (timers s)) as [cbs pending].
  destruct (KersplatFacts.runCallbacks_fields cbs (set_timers pending s))
    as (_ & Hr & _).
  rewrite Hr. reflexivity.
Qed.

Lemma runTimers_clock (s : State) : clock (runTimers s) = clock s.
Proof.
  unfold runTimers.
  destruct (Timers.poll (clock s) (timers s)) as [cbs pending].
  destruct (KersplatFacts.runCallbacks_fields cbs (set_timers pending s))
    as (_ & _ & Hk & _).
  rewrite Hk. reflexivity.
Qed.

(** The scanner adds no respawn or one of its own. *)
Lemma kersplatSystem_respawns (p : Vector3) (s : State) :
  respawns (kersplatSystem p s) = respawns s
  \/ respawns (kersplatSystem p s) = (BySystem, clock s) :: respawns s.
Proof.
  unfold kersplatSystem.
  destruct (kersplatCooldown s); [left; reflexivity |].
  destruct (inZone1 p || inZone2 p); [right | left]; reflexivity.
Qed.

(** An enter-callback respawns whatever the cooldown says, and leaves the
    cooldown as it is. *)
Lemma onEnter_respawns (p : Vector3) (s : State) :
  respawns (kersplatTriggerZone_onEnter p s) = (ByTrigger, clock s) :: respawns s
  /\ kersplatCooldown (kersplatTriggerZone_onEnter p s) = kersplatCooldown s
  /\ clock (kersplatTriggerZone_onEnter p s) = clock s.
Proof. repeat split. Qed.

Lemma systemRespawns_length_cons (src : Source) (t : Q) (s s' : State) :
  respawns s' = (src, t) :: respawns s ->
  List.length (systemRespawns s')
  = ((match src with BySystem => 1 | ByTrigger => 0 end)
     + List.length (systemRespawns s))%nat.
Proof.
  unfold systemRespawns. intros ->. destruct src; reflexivity.
Qed.

Lemma iter_onEnter_count (n : nat) (p : Vector3) (s : State) :
  List.length (respawns (Nat.iter n (kersplatTriggerZone_onEnter p) s))
  = (n + List.length (respawns s))%nat
  /\ systemRespawns (Nat.iter n (kersplatTriggerZone_onEnter p) s)
     = systemRespawns s.
Proof.
  induction n as [| n (IHlen & IHsys)]; [split; reflexivity |].
  change (Nat.iter (S n) (kersplatTriggerZone_onEnter p) s)
    with (kersplatTriggerZone_onEnter p
            (Nat.iter n (kersplatTriggerZone_onEnter p) s)).
  set (s1 := Nat.iter n (kersplatTriggerZone_onEnter p) s) in *.
  destruct (onEnter_respawns p s1) as (Hr & _).
  split.
  - rewrite Hr. cbn [List.length]. rewrite IHlen. reflexivity.
  - unfold systemRespawns in *. rewrite Hr. exact IHsys.
Qed.

(** A frame adds one respawn for each enter event, and those of the
    scanner. *)
Lemma frame_count (order : Order) (f : Frame) (s : State) (n : nat) :
  List.length (respawns s) = (List.length (systemRespawns s) + n)%nat ->
  List.length (respawns (frame order f s))
  = (List.length (systemRespawns (frame order f s)) + (n + entered f))%nat.
Proof.
  intros Hcount. unfold frame. cbv zeta.
  set (s0 := set_clock (clock s + 1000 * dt f)%Q s).
  assert (H0 : List.length (respawns s0)
               = (List.length (systemRespawns s0) + n)%nat) by exact Hcount.
  assert (Hmid : forall s1,
             respawns s1 = respawns s0
             \/ (exists t, respawns s1 = (BySystem, t) :: respawns s0) ->
             List.length (respawns s1)
             = (List.length (systemRespawns s1) + n)%nat).
  { intros s1 [Hsame | (t & Hmore)].
    - unfold systemRespawns. rewrite Hsame. exact H0.
    - rewrite (systemRespawns_length_cons BySystem t s0 s1 Hmore), Hmore.
      cbn [List.length]. rewrite H0. reflexivity. }
  assert (Hstep : forall s1,
             List.length (respawns s1)
             = (List.length (systemRespawns s1) + n)%nat ->
             List.length
               (respawns (Nat.iter (entered f)
                            (kersplatTriggerZone_onEnter (playerPos f)) s1))
             = (List.length
                  (systemRespawns
                     (Nat.iter (entered f)
                        (kersplatTriggerZone_onEnter (playerPos f)) s1))
                + (n + entered f))%nat).
  { intros s1 H1.
    destruct (iter_onEnter_count (entered f) (playerPos f) s1) as (Hlen & Hsys).
    rewrite Hlen, Hsys, H1. lia. }
  destruct order; apply Hstep, Hmid.
  - destruct (kersplatSystem_respawns (playerPos f) (runTimers s0))
      as [Hsame | Hmore].
    + left. rewrite Hsame. apply runTimers_respawns.
    + right. exists (clock (runTimers s0)).
      rewrite Hmore, runTimers_respawns. reflexivity.
  - rewrite runTimers_respawns.
    destruct (kersplatSystem_respawns (playerPos f) s0) as [Hsame | Hmore].
    + left. exact Hsame.
    + right. exists (clock s0). exact Hmore.
Qed.

Lemma run_count (order : Order) (frames : list Frame) (s : State) (n : nat) :
  List.length (respawns s) = (List.length (systemRespawns s) + n)%nat ->
  List.length (respawns (run order frames s))
  = (List.length (systemRespawns (run order frames s))
     + (n + list_sum (map entered frames)))%nat.
Proof.
  revert s n. induction frames as [| f frames IH]; intros s n Hcount.
  - simpl. rewrite Hcount. lia.
  - cbn [run fold_left map list_sum fold_right].
    fold (run order frames (frame order f s)).
    rewrite (IH _ _ (frame_count order f s n Hcount)).
    change (fold_right Nat.add 0%nat (map entered frames))
      with (list_sum (map entered frames)).
    lia.
Qed.

End KersplatCount.

(** C7, as the description words it, fails: the enter-callbacks of the two
    trigger volumes do not read the cooldown. In one frame with the player
    at the centre of zone 1 and one enter event of the volume there, the
    scanner and the callback both see the fall: the player is respawned
    twice at the same clock value, and the image is shown twice. *)
Lemma kersplat_cooldown_counterexample :
  let f := Kersplat.mkFrame 1 Kersplat.zone1Pos 1 in
  let s := Kersplat.frame Kersplat.TimersFirst f Kersplat.initial in
  Kersplat.inZone1 (Kersplat.playerPos f) = true
  /\ map fst (Kersplat.respawns s) = [Kersplat.ByTrigger; Kersplat.BySystem]
  /\ Forall (fun r => snd r = Kersplat.clock s) (Kersplat.respawns s)
  /\ Kersplat.showKersplatImage_calls s = 2%nat
  /\ ~ ForallOrdPairs Kersplat.apart (map snd (Kersplat.respawns s)).
Proof.
  intros f s.
  split; [vm_compute; reflexivity |].
  split; [vm_compute; reflexivity |].
  split; [vm_compute; repeat constructor |].
  split; [vm_compute; reflexivity |].
  intros Hapart. vm_compute in Hapart.
  inversion Hapart as [| later rest Hfirst _]; subst.
  inversion Hfirst as [| earlier rest' Hle _]; subst.
  vm_compute in Hle. apply Hle. reflexivity.
Qed.

(** C7 (amended): in every run of the scene with frames of non-negative
    length, whichever of the timer system and the scanner runs first and
    whatever the trigger volumes deliver, any two respawns by the scanner
    are at least 3000 ms of the clock apart. While the cooldown is set the
    scanner does nothing; without it a position inside either zone respawns
    once and sets it. The enter-callbacks of the two trigger volumes are
    outside the lock: each enter event respawns the player and leaves the
    cooldown as it is, so the respawns of a run are those of the scanner
    and one for each enter event. *)
Theorem kersplat_cooldown
        (order : Kersplat.Order) (frames : list Kersplat.Frame) (p : Vector3) :
  Forall (fun f => 0 <= Kersplat.dt f)%Q frames ->
  let s := Kersplat.run order frames Kersplat.initial in
  ForallOrdPairs Kersplat.apart (Kersplat.systemRespawns s)
  /\ (Kersplat.kersplatCooldown s = true -> Kersplat.kersplatSystem p s = s)
  /\ (Kersplat.kersplatCooldown s = false ->
      Kersplat.inZone1 p || Kersplat.inZone2 p = true ->
      Kersplat.systemRespawns (Kersplat.kersplatSystem p s)
      = Kersplat.clock s :: Kersplat.systemRespawns s
      /\ Kersplat.kersplatCooldown (Kersplat.kersplatSystem p s) = true)
  /\ Kersplat.respawns (Kersplat.kersplatTriggerZone_onEnter p s)
     = (Kersplat.ByTrigger, Kersplat.clock s) :: Kersplat.respawns s
  /\ Kersplat.kersplatCooldown (Kersplat.kersplatTriggerZone_onEnter p s)
     = Kersplat.kersplatCooldown s
  /\ List.length (Kersplat.respawns s)
     = (List.length (Kersplat.systemRespawns s)
        + list_sum (map Kersplat.entered frames))%nat.
Proof.
  intros Hdt s.
  split.
  - apply Kersplat.inv_apart.
    apply KersplatFacts.run_invariant;
      [exact Hdt | exact KersplatFacts.initial_invariant].
  - unfold Kersplat.kersplatSystem. split.
    + intros ->. reflexivity.
    + split; [intros -> ->; split; reflexivity |].
      split; [reflexivity |]. split; [reflexivity |].
      exact (KersplatCount.run_count order frames Kersplat.initial 0 eq_refl).
Qed.

(** Four frames of one second with the player at the centre of zone 1: the
    scanner respawns in the first, is locked in the second and third, and
    respawns again in the fourth, 3000 ms after the first. *)
Lemma kersplat_cooldown_witness :
  let inside := Kersplat.mkFrame 1 Kersplat.zone1Pos 0 in
  let frames := [inside; inside; inside; inside] in
  let count (n : nat) :=
    List.length (Kersplat.systemRespawns
              (Kersplat.run Kersplat.TimersFirst (firstn n frames)
                 Kersplat.initial)) in
  Forall (fun f => 0 <= Kersplat.dt f)%Q frames
  /\ map count [1; 2; 3; 4]%nat = [1; 1; 1; 2]%nat
  /\ ForallOrdPairs Kersplat.apart
       (Kersplat.systemRespawns
          (Kersplat.run Kersplat.TimersFirst frames Kersplat.initial)).
Proof.
  intros inside frames count.
  assert (Hdt : Forall (fun f => 0 <= Kersplat.dt f)%Q frames)
    by (repeat constructor; discriminate).
  split; [exact Hdt |].
  split; [vm_compute; reflexivity |].
  destruct (kersplat_cooldown Kersplat.TimersFirst frames Vec.Zero Hdt)
    as (Hapart & _).
  exact Hapart.
Defined.

(** ** The return phase of the tree camera *)

Module CameraFacts.
Import Camera.

Lemma return_complete (elapsed : Z) :
  complete (progressOf elapsed returnDuration) = (2000 <=? elapsed).
Proof.
  unfold complete, progressOf, returnDuration.
  change (inject_Z 2000) with 2000%Q.
  destruct (Z.leb_spec 2000 elapsed) as [Hdone | Hpending].
  - apply Qle_bool_iff, Q.min_glb; [| apply Qle_refl].
    rewrite Zle_Qle in Hdone. change (inject_Z 2000) with 2000%Q in Hdone.
    apply Qle_shift_div_l; [reflexivity |]. rewrite Qmult_1_l. exact Hdone.
  - destruct (Qle_bool 1 (Qmin (inject_Z elapsed / 2000) 1)) eqn:Hle;
      [| reflexivity].
    apply Qle_bool_iff, Q.min_glb_l in Hle.
    rewrite Zlt_Qlt in Hpending.
    change (inject_Z 2000) with 2000%Q in Hpending.
    exfalso. apply (Qlt_not_le _ _ Hpending).
    apply (Qmult_le_compat_r _ _ 2000%Q) in Hle; [| discriminate].
    rewrite Qmult_1_l in Hle.
    setoid_replace (inject_Z elapsed / 2000 * 2000)%Q with (inject_Z elapsed)
      in Hle by (field).
    exact Hle.
Qed.

Section WithMath.
Variables (Math_sin Math_cos : Q -> Q) (Math_PI : Q).

(** [resetTreeCamera] during the tree sequence starts the return phase at
    its own clock read, whatever the phase and the animation flag were. *)
Lemma resetTreeCamera_tree (now : Z) (s : State) :
  animationType s = Some anim_tree ->
  control (resetTreeCamera now s)
  = (activeCinematicCamera s, true, Some anim_tree, phase_return,
     virtualCameraEntity s)
  /\ returnStartTime (resetTreeCamera now s) = now
  /\ returnStartPos (resetTreeCamera now s) = treeCinematicCamera_position s.
Proof.
  intros Htree. unfold resetTreeCamera, control. rewrite Htree. simpl.
  rewrite Htree. auto.
Qed.

(** A frame of the return phase before its 2000 ms are over moves the
    camera and nothing else. *)
Lemma return_pending (now now_return : Z) (p : Vector3) (s : State) :
  isAnimating s = true ->
  animationType s = Some anim_tree ->
  treeCameraPhase s = phase_return ->
  now_return - returnStartTime s < 2000 ->
  control (cameraSystem Math_sin Math_cos Math_PI now now_return p s) = control s
  /\ returnStartTime (cameraSystem Math_sin Math_cos Math_PI now now_return p s) = returnStartTime s.
Proof.
  intros Hanim Htree Hphase Hpending.
  unfold cameraSystem, control. rewrite Hanim, Htree. simpl.
  unfold treeAnimation. rewrite Hphase. cbv zeta.
  rewrite return_complete.
  replace (2000 <=? now_return - returnStartTime s) with false
    by (symmetry; apply Z.leb_gt; exact Hpending).
  simpl. rewrite Hanim, Htree, Hphase. auto.
Qed.

(** The first frame at or after 2000 ms ends the sequence: the phase is the
    initial one and the main camera is the player's again. *)
Lemma return_done (now now_return : Z) (p : Vector3) (s : State) :
  isAnimating s = true ->
  animationType s = Some anim_tree ->
  treeCameraPhase s = phase_return ->
  2000 <= now_return - returnStartTime s ->
  control (cameraSystem Math_sin Math_cos Math_PI now now_return p s) = (None, false, None, phase_tilt, None).
Proof.
  intros Hanim Htree Hphase Hdone.
  unfold cameraSystem, control. rewrite Hanim, Htree. simpl.
  unfold treeAnimation. rewrite Hphase. cbv zeta.
  rewrite return_complete.
  replace (2000 <=? now_return - returnStartTime s) with true
    by (symmetry; apply Z.leb_le; exact Hdone).
  reflexivity.
Qed.

Lemma control_fields (s : State) a b c d e :
  control s = (a, b, c, d, e) ->
  activeCinematicCamera s = a /\ isAnimating s = b /\ animationType s = c
  /\ treeCameraPhase s = d /\ virtualCameraEntity s = e.
Proof. unfold control. intros H. injection H. auto. Qed.

(** Frames that all read the clock less than 2000 ms after the reset leave
    the sequence in its return phase. *)
Lemma return_run_pending (frames : list (Z * Z * Vector3)) (s : State) :
  isAnimating s = true ->
  animationType s = Some anim_tree ->
  treeCameraPhase s = phase_return ->
  Forall (fun f => snd (fst f) - returnStartTime s < 2000) frames ->
  control (runSystem Math_sin Math_cos Math_PI frames s) = control s
  /\ returnStartTime (runSystem Math_sin Math_cos Math_PI frames s)
     = returnStartTime s.
Proof.
  revert s; induction frames as [| [[now now_return] p] frames IH];
    intros s Hanim Htree Hphase Hall; simpl.
  - auto.
  - inversion Hall as [| ? ? Hhead Hrest]; subst. simpl in Hhead.
    destruct (return_pending now now_return p s Hanim Htree Hphase Hhead)
      as (Hctl & Hstart).
    destruct (control_fields _ _ _ _ _ _ Hctl) as (_ & Hb & Hc & Hd & _).
    destruct (IH (cameraSystem Math_sin Math_cos Math_PI now now_return p s)) as (Hctl' & Hstart');
      try congruence.
    + rewrite Hstart. exact Hrest.
    + split; congruence.
Qed.

End WithMath.
End CameraFacts.

(** C6: during the tree sequence, [resetTreeCamera] in the orbit phase puts
    the sequence in its return phase at once. Frames that read the clock
    less than 2000 ms after the reset keep it there, with the camera still
    bound; the first frame that reads 2000 ms or more sets the phase back to
    tilt and gives the main camera back to the player. Nothing of this
    depends on when the orbit started or whether it had finished. *)
Theorem resetTreeCamera_preempts_orbit
        (Math_sin Math_cos : Q -> Q) (Math_PI : Q)
        (s : Camera.State) (reset_at : Z)
        (frames : list (Z * Z * Vector3))
        (now now_return : Z) (playerPos : Vector3) :
  Camera.animationType s = Some Camera.anim_tree ->
  Camera.treeCameraPhase s = Camera.phase_orbit ->
  let s1 := Camera.resetTreeCamera reset_at s in
  let s2 := Camera.runSystem Math_sin Math_cos Math_PI frames s1 in
  let s3 := Camera.cameraSystem Math_sin Math_cos Math_PI now now_return
              playerPos s2 in
  Camera.control s1
  = (Camera.activeCinematicCamera s, true, Some Camera.anim_tree,
     Camera.phase_return, Camera.virtualCameraEntity s)
  /\ (Forall (fun f => snd (fst f) - reset_at < 2000) frames ->
      Camera.control s2 = Camera.control s1
      /\ (2000 <= now_return - reset_at ->
          Camera.control s3
          = (None, false, None, Camera.phase_tilt, None))).
Proof.
  intros Htree Horbit s1 s2 s3.
  destruct (CameraFacts.resetTreeCamera_tree reset_at s Htree)
    as (Hctl1 & Hstart1 & _).
  fold s1 in Hctl1, Hstart1.
  split; [exact Hctl1 |].
  intros Hpending.
  destruct (CameraFacts.control_fields _ _ _ _ _ _ Hctl1)
    as (_ & Hanim & Htype & Hphase & _).
  destruct (CameraFacts.return_run_pending Math_sin Math_cos Math_PI frames s1
              Hanim Htype Hphase) as (Hctl2 & Hstart2).
  { rewrite Hstart1. exact Hpending. }
  fold s2 in Hctl2, Hstart2.
  split; [exact Hctl2 |].
  intros Hdone.
  rewrite Hctl1 in Hctl2.
  destruct (CameraFacts.control_fields _ _ _ _ _ _ Hctl2)
    as (_ & Hanim2 & Htype2 & Hphase2 & _).
  apply CameraFacts.return_done; try assumption.
  rewrite Hstart2, Hstart1. exact Hdone.
Qed.

(** The tree sequence from its start: tilt until 1500 ms, hold, orbit from
    5000 ms, reset at 6500 ms in the middle of the orbit. The frame at
    8499 ms is still in the return phase; the frame at 8500 ms ends it. *)
Lemma resetTreeCamera_preempts_orbit_witness :
  let zero (_ : Q) := 0%Q in
  let system := Camera.cameraSystem zero zero 3 in
  let s :=
    system 6000 6000 Vec.Zero
      (Camera.startTreeCameraOrbit 5000
         (system 1500 1500 Vec.Zero
            (Camera.treeCamera_startCinematic zero zero 3 Vec.Zero 0 0
               Camera.initial))) in
  let returning :=
    Camera.runSystem zero zero 3 [(8499, 8499, Vec.Zero)]
      (Camera.resetTreeCamera 6500 s) in
  Camera.animationType s = Some Camera.anim_tree
  /\ Camera.treeCameraPhase s = Camera.phase_orbit
  /\ Camera.treeCameraPhase returning = Camera.phase_return
  /\ Camera.control (system 8500 8500 Vec.Zero returning)
     = (None, false, None, Camera.phase_tilt, None).
Proof.
  intros zero system s returning.
  assert (Htree : Camera.animationType s = Some Camera.anim_tree)
    by (vm_compute; reflexivity).
  assert (Horbit : Camera.treeCameraPhase s = Camera.phase_orbit)
    by (vm_compute; reflexivity).
  split; [exact Htree |]. split; [exact Horbit |].
  destruct (resetTreeCamera_preempts_orbit zero zero 3 s 6500
              [(8499, 8499, Vec.Zero)] 8500 8500 Vec.Zero Htree Horbit)
    as (Hctl1 & Hrest).
  destruct Hrest as (Hctl2 & Hdone).
  { repeat constructor. }
  split.
  - fold returning in Hctl2. rewrite Hctl1 in Hctl2.
    destruct (CameraFacts.control_fields _ _ _ _ _ _ Hctl2)
      as (_ & _ & _ & Hphase & _).
    exact Hphase.
  - apply Hdone. vm_compute. discriminate.
Defined.

(** Outside the tree sequence (another camera has taken over, or none is
    active) [resetTreeCamera] is the instant reset, with no return phase. *)
Lemma resetTreeCamera_other_sequence (now : Z) (s : Camera.State) :
  Camera.is_tree (Camera.animationType s) = false ->
  Camera.resetTreeCamera now s = Camera.resetToDefaultCamera s.
Proof. unfold Camera.resetTreeCamera. intros ->. reflexivity. Qed.

(** * Further properties of the scene code *)

(** ** The countdown text *)

Section CountdownText.
Variable cfg : Config.

(** A positive time is always printed after the prefix of its direction. *)
Lemma formatTimeRemaining_prefixed (ms : Z) (isBeforeStart : bool) :
  0 < ms ->
  exists rest, formatTimeRemaining ms isBeforeStart
               = (prefix isBeforeStart ++ rest)%string.
Proof.
  intros Hpos. rewrite (formatTimeRemaining_floored ms Hpos).
  repeat match goal with
         | |- context [if ?c then _ else _] => destruct c
         end; eexists; reflexivity.
Qed.

Lemma prefixed_not_zero_message (isBeforeStart : bool) (rest : string) :
  (prefix isBeforeStart ++ rest)%string <> "PORTAL OPENING SOON..."%string
  /\ (prefix isBeforeStart ++ rest)%string <> "PORTAL CLOSED"%string
  /\ (prefix isBeforeStart ++ rest)%string <> "PORTAL ACTIVE"%string.
Proof. destruct isBeforeStart; simpl; repeat split; discriminate. Qed.

Lemma prefixes_differ (rest rest' : string) :
  (prefix true ++ rest)%string <> (prefix false ++ rest')%string.
Proof. simpl. discriminate. Qed.

(** The four shapes of the countdown, by the position of [now] in the
    window. *)
Lemma countdown_cases (now : Z) :
  (Portal.isBeforeStart cfg now = true
   /\ 0 < LAUNCH_START_TIME cfg - now
   /\ Portal.countdown cfg now
      = (formatTimeRemaining (LAUNCH_START_TIME cfg - now) true,
         LAUNCH_START_TIME cfg - now))
  \/ (Portal.isBeforeStart cfg now = false /\ Portal.isActive cfg now = true
      /\ LAUNCH_END_TIME cfg = 0
      /\ Portal.countdown cfg now = ("PORTAL ACTIVE"%string, 0))
  \/ (Portal.isBeforeStart cfg now = false /\ Portal.isActive cfg now = true
      /\ 0 < LAUNCH_END_TIME cfg - now
      /\ Portal.countdown cfg now
         = (formatTimeRemaining (LAUNCH_END_TIME cfg - now) false,
            LAUNCH_END_TIME cfg - now))
  \/ (Portal.isBeforeStart cfg now = false /\ Portal.isActive cfg now = false
      /\ Portal.countdown cfg now = ("PORTAL CLOSED"%string, 0)).
Proof.
  unfold Portal.countdown, Portal.isActive, Portal.isBeforeStart.
  destruct (Z.ltb_spec now (LAUNCH_START_TIME cfg)) as [Hbefore | Hstarted].
  - left. repeat split. lia.
  - right.
    replace (LAUNCH_START_TIME cfg <=? now) with true
      by (symmetry; apply Z.leb_le; exact Hstarted).
    destruct (Z.eqb_spec (LAUNCH_END_TIME cfg) 0) as [Hopen | Hclosed]; simpl.
    + left. auto.
    + right. destruct (Z.ltb_spec now (LAUNCH_END_TIME cfg)) as [Hin | Hout].
      * left. repeat split. lia.
      * right. auto.
Qed.

End CountdownText.

(** X1: the countdown never passes a time of zero or less to the formatter:
    the time to the next event is positive wherever a countdown is printed
    and 0 otherwise, so the text is never "PORTAL OPENING SOON...", and it
    is "PORTAL CLOSED" only where the window is over. *)
Theorem countdown_never_opening_soon (cfg : Config) (now : Z) :
  0 <= Portal.timeUntilEvent cfg now
  /\ fst (Portal.countdown cfg now) <> "PORTAL OPENING SOON..."%string
  /\ (fst (Portal.countdown cfg now) = "PORTAL CLOSED"%string
      <-> Portal.isBeforeStart cfg now = false /\ Portal.isActive cfg now = false)
  /\ (Portal.timeUntilEvent cfg now = 0
      <-> fst (Portal.countdown cfg now) = "PORTAL ACTIVE"%string
          \/ fst (Portal.countdown cfg now) = "PORTAL CLOSED"%string).
Proof.
  unfold Portal.timeUntilEvent.
  destruct (countdown_cases cfg now)
    as [(Hb & Hpos & ->) | [(Hb & Ha & Hend & ->) | [(Hb & Ha & Hpos & ->)
        | (Hb & Ha & ->)]]]; simpl.
  - destruct (formatTimeRemaining_prefixed _ true Hpos) as (rest & ->).
    destruct (prefixed_not_zero_message true rest) as (H1 & H2 & H3).
    split; [lia |]. split; [exact H1 |].
    split; split; try tauto; try lia.
    + intros (Hb' & _). congruence.
  - split; [lia |]. split; [discriminate |].
    split; split; try discriminate; auto.
    intros (_ & Ha'). congruence.
  - destruct (formatTimeRemaining_prefixed _ false Hpos) as (rest & ->).
    destruct (prefixed_not_zero_message false rest) as (H1 & H2 & H3).
    split; [lia |]. split; [exact H1 |].
    split; split; try tauto; try lia.
    intros (_ & Ha'). congruence.
  - split; [lia |]. split; [discriminate |].
    split; split; auto.
Qed.

(** X2: where [main] installs the countdown system, its own test of the
    window agrees with [shouldPortalBeActive] at the same clock value, and
    the text tells the state: the evaluator is inactive exactly where the
    text is "PORTAL CLOSED" or a countdown to the opening. *)
Theorem countdown_agrees_with_evaluator (cfg : Config) (now : Z) :
  ENABLE_TIMED_LAUNCH cfg = true ->
  ROCKSCAPE_PORTAL_SHUTDOWN cfg = false ->
  Portal.isActive cfg now = shouldPortalBeActive cfg now
  /\ (shouldPortalBeActive cfg now = false
      <-> fst (Portal.countdown cfg now) = "PORTAL CLOSED"%string
          \/ exists rest, fst (Portal.countdown cfg now)
                          = (prefix true ++ rest)%string).
Proof.
  intros Htimed Hshutdown.
  assert (Hagree : Portal.isActive cfg now = shouldPortalBeActive cfg now).
  { unfold Portal.isActive, shouldPortalBeActive.
    rewrite Htimed, Hshutdown. simpl.
    destruct (LAUNCH_END_TIME cfg =? 0); simpl;
      [apply andb_true_r | reflexivity]. }
  split; [exact Hagree |]. rewrite <- Hagree.
  assert (Hbefore : Portal.isBeforeStart cfg now = true ->
                    Portal.isActive cfg now = false).
  { unfold Portal.isBeforeStart, Portal.isActive. intros H.
    apply Z.ltb_lt in H.
    replace (LAUNCH_START_TIME cfg <=? now) with false
      by (symmetry; apply Z.leb_gt; exact H).
    reflexivity. }
  destruct (countdown_cases cfg now)
    as [(Hb & Hpos & ->) | [(Hb & Ha & Hend & ->) | [(Hb & Ha & Hpos & ->)
        | (Hb & Ha & ->)]]]; simpl.
  - destruct (formatTimeRemaining_prefixed _ true Hpos) as (rest & ->).
    split; [| auto]. intros _. right. exists rest. reflexivity.
  - rewrite Ha. split; [discriminate |].
    intros [H | (rest & H)]; simpl in H; discriminate H.
  - destruct (formatTimeRemaining_prefixed _ false Hpos) as (rest & ->).
    rewrite Ha. split; [discriminate |].
    intros [H | (rest' & H)].
    + destruct (prefixed_not_zero_message false rest) as (_ & H2 & _).
      contradiction.
    + symmetry in H. apply prefixes_differ in H. contradiction.
  - rewrite Ha. split; auto.
Qed.

Lemma countdown_agrees_with_evaluator_witness :
  Portal.isActive source_config 1761958800000
  = shouldPortalBeActive source_config 1761958800000
  /\ shouldPortalBeActive source_config 1761958799000 = false.
Proof.
  split.
  - destruct (countdown_agrees_with_evaluator source_config 1761958800000)
      as (H & _); [reflexivity | reflexivity | exact H].
  - destruct (countdown_agrees_with_evaluator source_config 1761958799000)
      as (_ & H); [reflexivity | reflexivity |].
    apply H. right. eexists. vm_compute. reflexivity.
Defined.

(** ** What the countdown system shows and when it teleports *)

Module PortalDisplay.
Import Portal.

(** The fields the timers never touch. *)
Lemma runCallbacks_display (cbs : list Callback) (s : State) :
  let s' := fold_left (fun s cb => runCallback cb s) cbs s in
  countdownText s' = countdownText s
  /\ countdownTimer_text s' = countdownTimer_text s
  /\ countdownTimer_scale s' = countdownTimer_scale s
  /\ movePlayerTo_calls s' = movePlayerTo_calls s.
Proof.
  revert s; induction cbs as [| cb cbs IH]; intros s; simpl; [auto |].
  destruct (IH (runCallback cb s)) as (H1 & H2 & H3 & H4).
  rewrite H1, H2, H3, H4. destruct cb; auto.
Qed.

Lemma beforeSystem_display (f : Frame) (s : State) :
  countdownText (beforeSystem f s) = countdownText s
  /\ countdownTimer_text (beforeSystem f s) = countdownTimer_text s
  /\ countdownTimer_scale (beforeSystem f s) = countdownTimer_scale s
  /\ movePlayerTo_calls (beforeSystem f s) = movePlayerTo_calls s.
Proof.
  unfold beforeSystem. destruct (Timers.poll _ _) as [cbs pending].
  match goal with
  | |- context [fold_left ?step cbs ?s0] =>
      destruct (runCallbacks_display cbs s0) as (H1 & H2 & H3 & H4)
  end.
  rewrite H1, H2, H3, H4. auto.
Qed.

Lemma updatePortal_display (shouldBeActive : bool) (s : State) :
  countdownText (updatePortal shouldBeActive s) = countdownText s
  /\ countdownTimer_text (updatePortal shouldBeActive s) = countdownTimer_text s
  /\ movePlayerTo_calls (updatePortal shouldBeActive s) = movePlayerTo_calls s
  /\ instantTeleportCheckActive (updatePortal shouldBeActive s)
     = instantTeleportCheckActive s
  /\ countdownTimer_scale (updatePortal shouldBeActive s)
     = (if negb shouldBeActive && isPortalActive s then Some Vec.Zero
        else countdownTimer_scale s)
  /\ isPortalActive (updatePortal shouldBeActive s)
     = (if shouldBeActive && negb (isPortalActive s) then true
        else if negb shouldBeActive && isPortalActive s then false
        else isPortalActive s).
Proof.
  destruct s as [active txt since added inst sc1 sc2 sc3 ctxt cbs moves sys clk tms].
  unfold updatePortal; simpl.
  destruct shouldBeActive, active, added; simpl; auto 10.
Qed.

Lemma instantTeleportCheck_display (f : Frame) (s : State) :
  countdownText (instantTeleportCheck f s) = countdownText s
  /\ countdownTimer_text (instantTeleportCheck f s) = countdownTimer_text s
  /\ countdownTimer_scale (instantTeleportCheck f s) = countdownTimer_scale s
  /\ isPortalActive (instantTeleportCheck f s) = isPortalActive s.
Proof.
  unfold instantTeleportCheck.
  destruct (Zone.withinBox _ _ _ _ _); auto.
Qed.

Section WithConfig.
Variable cfg : Config.

(** The text entity shows the variable, and after a frame that is not
    skipped the variable is the text of that frame. *)
Lemma countdownSystem_text (f : Frame) (s : State) :
  countdownTimer_text s = Some (countdownText s) ->
  countdownTimer_text (countdownSystem cfg f s)
  = Some (countdownText (countdownSystem cfg f s))
  /\ (skipped cfg f s = false ->
      countdownText (countdownSystem cfg f s) = fst (countdown cfg (now f))).
Proof.
  intros Hshown.
  unfold countdownSystem, skipped, frameCheckInterval, timeUntilEvent.
  destruct (countdown cfg (now f)) as [text t]. cbv zeta.
  match goal with
  | |- context [if ?c then _ else _] =>
      match goal with
      | |- context [?d = false -> _] => change c with d; destruct d
      end
  end; [split; [exact Hshown | discriminate] |].
  match goal with
  | |- context [updatePortal ?b ?x] =>
      destruct (updatePortal_display b x) as (H1 & H2 & _); rewrite H1, H2
  end.
  assert (Hboth : forall x : State,
             countdownTimer_text x = Some (countdownText x) ->
             forall c : bool,
               countdownTimer_text (if c then instantTeleportCheck f x else x)
               = Some (countdownText (if c then instantTeleportCheck f x else x))).
  { intros x Hx [|]; [| exact Hx].
    destruct (instantTeleportCheck_display f x) as (E1 & E2 & _).
    rewrite E1, E2. exact Hx. }
  assert (Hsame : forall (x : State) (c : bool),
             countdownText (if c then instantTeleportCheck f x else x)
             = countdownText x).
  { intros x [|]; [| reflexivity].
    apply (instantTeleportCheck_display f x). }
  split.
  - apply Hboth. simpl.
    destruct (negb (text =? countdownText s)%string); simpl;
      [reflexivity | exact Hshown].
  - intros _. rewrite Hsame. simpl.
    destruct (text =? countdownText s)%string eqn:Heq; simpl; [| reflexivity].
    apply String.eqb_eq in Heq. symmetry. exact Heq.
Qed.

(** A frame that is not skipped ends in [updatePortal], applied to a state
    that differs from the one before in the text and, where the instant
    teleport fired, in the teleport. *)
Lemma countdownSystem_shape (f : Frame) (s : State) :
  skipped cfg f s = false ->
  exists m,
    countdownSystem cfg f s
    = updatePortal (shouldPortalBeActive cfg (now_eval f)) m
    /\ isPortalActive m = isPortalActive s
    /\ countdownTimer_scale m = countdownTimer_scale s
    /\ movePlayerTo_calls m
       = (if shouldPortalBeActive cfg (now_eval f) && negb (isPortalActive s)
             && negb (instantTeleportCheckActive s)
             && Zone.withinBox (Vec.create (1688 # 10) 22 (-32)) 8 8 8
                  (playerPos f)
          then S (movePlayerTo_calls s) else movePlayerTo_calls s).
Proof.
  unfold countdownSystem, skipped, frameCheckInterval, timeUntilEvent.
  destruct (countdown cfg (now f)) as [text t]. cbv zeta.
  intros Hrun.
  match goal with
  | |- context [if ?c then _ else _] =>
      match type of Hrun with ?d = false => change c with d end
  end.
  rewrite Hrun.
  eexists. split; [reflexivity |].
  unfold instantTeleportCheck. simpl.
  destruct (negb (text =? countdownText s)%string); simpl;
    destruct (shouldPortalBeActive cfg (now_eval f)); simpl;
    destruct (isPortalActive s); simpl;
    destruct (instantTeleportCheckActive s); simpl;
    try destruct (Zone.withinBox _ _ _ _ _); simpl; auto.
Qed.

(** The system hides the countdown entity when the portal closes and
    otherwise leaves its scale alone. *)
Lemma countdownSystem_scale (f : Frame) (s : State) :
  countdownTimer_scale (countdownSystem cfg f s)
  = if negb (skipped cfg f s)
       && negb (shouldPortalBeActive cfg (now_eval f)) && isPortalActive s
    then Some Vec.Zero else countdownTimer_scale s.
Proof.
  destruct (skipped cfg f s) eqn:Hskip.
  - simpl. revert Hskip.
    unfold countdownSystem, skipped, frameCheckInterval, timeUntilEvent.
    destruct (countdown cfg (now f)) as [text t]. cbv zeta. intros Hskip.
    match goal with
    | |- context [if ?c then _ else _] =>
        match type of Hskip with ?d = true => change c with d end
    end.
    rewrite Hskip. reflexivity.
  - destruct (countdownSystem_shape f s Hskip) as (m & -> & Ha & Hs & _).
    destruct (updatePortal_display (shouldPortalBeActive cfg (now_eval f)) m)
      as (_ & _ & _ & _ & H5 & _).
    rewrite H5, Ha, Hs. reflexivity.
Qed.

(** The system teleports only in a frame in which it opens the portal, only
    a player inside the waiting zone, and once. *)
Lemma countdownSystem_teleport (f : Frame) (s : State) :
  movePlayerTo_calls (countdownSystem cfg f s) = movePlayerTo_calls s
  \/ (movePlayerTo_calls (countdownSystem cfg f s) = S (movePlayerTo_calls s)
      /\ isPortalActive s = false
      /\ isPortalActive (countdownSystem cfg f s) = true
      /\ instantTeleportCheckActive s = false
      /\ Zone.withinBox (Vec.create (1688 # 10) 22 (-32)) 8 8 8 (playerPos f)
         = true).
Proof.
  destruct (skipped cfg f s) eqn:Hskip.
  - left. revert Hskip.
    unfold countdownSystem, skipped, frameCheckInterval, timeUntilEvent.
    destruct (countdown cfg (now f)) as [text t]. cbv zeta. intros Hskip.
    match goal with
    | |- context [if ?c then _ else _] =>
        match type of Hskip with ?d = true => change c with d end
    end.
    rewrite Hskip. reflexivity.
  - destruct (countdownSystem_shape f s Hskip) as (m & -> & Ha & _ & Hm).
    destruct (updatePortal_display (shouldPortalBeActive cfg (now_eval f)) m)
      as (_ & _ & H3 & _ & _ & H6).
    rewrite H3, H6, Hm, Ha.
    destruct (shouldPortalBeActive cfg (now_eval f)); simpl; [| auto].
    destruct (isPortalActive s); simpl; [auto |].
    destruct (instantTeleportCheckActive s); simpl; [auto |].
    destruct (Zone.withinBox _ _ _ _ _); simpl; [| auto].
    right. auto.
Qed.

Lemma frame_scale_hidden (f : Frame) (s : State) :
  countdownTimer_scale s = Some Vec.Zero ->
  countdownTimer_scale (frame cfg f s) = Some Vec.Zero.
Proof.
  intros Hhidden. unfold frame.
  destruct (beforeSystem_display f s) as (_ & _ & Hscale & _).
  destruct (systemInstalled (beforeSystem f s)); [| congruence].
  rewrite countdownSystem_scale, Hscale, Hhidden.
  destruct (_ && _); reflexivity.
Qed.

Lemma run_scale_hidden (frames : list Frame) (s : State) :
  countdownTimer_scale s = Some Vec.Zero ->
  countdownTimer_scale (run cfg frames s) = Some Vec.Zero.
Proof.
  revert s; induction frames as [| f frames IH]; intros s Hhidden; simpl;
    [exact Hhidden |].
  apply IH, frame_scale_hidden, Hhidden.
Qed.

Lemma frame_text (f : Frame) (s : State) :
  countdownTimer_text s = Some (countdownText s) ->
  countdownTimer_text (frame cfg f s) = Some (countdownText (frame cfg f s)).
Proof.
  intros Hshown. unfold frame.
  destruct (beforeSystem_display f s) as (Htext & Hshape & _).
  assert (Hbefore : countdownTimer_text (beforeSystem f s)
                    = Some (countdownText (beforeSystem f s)))
    by congruence.
  destruct (systemInstalled (beforeSystem f s)); [| exact Hbefore].
  apply (countdownSystem_text f _ Hbefore).
Qed.

Lemma run_text (frames : list Frame) (s : State) :
  countdownTimer_text s = Some (countdownText s) ->
  countdownTimer_text (run cfg frames s) = Some (countdownText (run cfg frames s)).
Proof.
  revert s; induction frames as [| f frames IH]; intros s Hshown; simpl;
    [exact Hshown |].
  apply IH, frame_text, Hshown.
Qed.

End WithConfig.
End PortalDisplay.

Lemma run_installed (cfg : Config) (frames : list Portal.Frame) (s : Portal.State) :
  Portal.systemInstalled s = true ->
  Portal.systemInstalled (Portal.run cfg frames s) = true.
Proof.
  revert s; induction frames as [| f frames IH]; intros s Hsys; simpl;
    [exact Hsys |].
  apply IH.
  destruct (shouldPortalBeActive cfg (Portal.now_eval f)
            && negb (Portal.isPortalActive s)) eqn:Hedge.
  - apply andb_true_iff in Hedge as [Hs Hi]. apply negb_true_iff in Hi.
    pose proof (PortalFacts.frame_activates cfg f s Hsys Hs Hi) as Hcore.
    unfold Portal.core in Hcore. injection Hcore as _ _ _ Hinst. exact Hinst.
  - destruct (PortalFacts.frame_no_edge cfg f s Hedge) as (_ & _ & Hinst & _).
    congruence.
Qed.

(** X3: in a scene with the timed launch, the text entity always shows the
    value of [countdownText], and after every frame that is not skipped
    that value is the countdown computed from the frame's clock read. *)
Theorem countdown_text_shown
        (cfg : Config) (now0 now1 : Z) (frames : list Portal.Frame)
        (f : Portal.Frame) :
  ENABLE_TIMED_LAUNCH cfg && negb (ROCKSCAPE_PORTAL_SHUTDOWN cfg) = true ->
  let s := Portal.run cfg frames (Portal.main cfg now0 now1) in
  Portal.countdownTimer_text s = Some (Portal.countdownText s)
  /\ (Portal.skipped cfg f (Portal.beforeSystem f s) = false ->
      Portal.countdownText (Portal.frame cfg f s)
      = fst (Portal.countdown cfg (Portal.now f))).
Proof.
  intros Htimed s.
  assert (Hmain : Portal.countdownTimer_text (Portal.main cfg now0 now1)
                  = Some (Portal.countdownText (Portal.main cfg now0 now1))
                  /\ Portal.systemInstalled (Portal.main cfg now0 now1) = true).
  { unfold Portal.main. rewrite Htimed.
    destruct (shouldPortalBeActive cfg now0); split; reflexivity. }
  destruct Hmain as (Hshown0 & Hsys0).
  assert (Hshown : Portal.countdownTimer_text s = Some (Portal.countdownText s))
    by (apply PortalDisplay.run_text; exact Hshown0).
  split; [exact Hshown |].
  intros Hrun. unfold Portal.frame.
  destruct (PortalFacts.core_fields _ _ (PortalFacts.beforeSystem_core f s))
    as (_ & _ & _ & Hsys).
  rewrite Hsys. unfold s at 1. rewrite (run_installed cfg frames _ Hsys0).
  destruct (PortalDisplay.beforeSystem_display f s) as (Htext & Hshape & _).
  apply PortalDisplay.countdownSystem_text; [congruence | exact Hrun].
Qed.

(** The shipped scene, built an hour and a half before the start: one
    minute later and 61 seconds after the last check the text is the
    countdown of that moment. *)
Lemma countdown_text_shown_witness :
  let start := LAUNCH_START_TIME source_config in
  let s := Portal.main source_config (start - 5400000) (start - 5400000) in
  let f := Portal.mkFrame 61 (start - 5340000) (start - 5340000) Vec.Zero in
  Portal.countdownTimer_text s = Some (Portal.countdownText s)
  /\ Portal.countdownText (Portal.frame source_config f s)
     = ("PORTAL OPENS IN:" ++ JS.newline ++ "1h 29m")%string.
Proof.
  intros start s f.
  destruct (countdown_text_shown source_config (start - 5400000)
              (start - 5400000) [] f) as (Hshown & Hfresh); [reflexivity |].
  split; [exact Hshown |].
  change (Portal.run source_config []
            (Portal.main source_config (start - 5400000) (start - 5400000)))
    with s in Hfresh.
  rewrite Hfresh by (vm_compute; reflexivity).
  vm_compute. reflexivity.
Defined.

(** X4: a frame that closes the portal hides the countdown entity, and no
    later frame shows it again, also not when the portal reopens. *)
Theorem countdown_hidden_after_close
        (cfg : Config) (s : Portal.State) (f : Portal.Frame)
        (frames : list Portal.Frame) :
  Portal.isPortalActive s = true ->
  Portal.isPortalActive (Portal.frame cfg f s) = false ->
  Portal.countdownTimer_scale (Portal.run cfg frames (Portal.frame cfg f s))
  = Some Vec.Zero.
Proof.
  intros Hopen Hclosed.
  apply PortalDisplay.run_scale_hidden.
  revert Hclosed. unfold Portal.frame.
  destruct (PortalFacts.core_fields _ _ (PortalFacts.beforeSystem_core f s))
    as (Hactive & _).
  destruct (Portal.systemInstalled (Portal.beforeSystem f s));
    [| congruence].
  intros Hclosed.
  rewrite PortalDisplay.countdownSystem_scale.
  pose proof (PortalFacts.countdownSystem_core cfg f (Portal.beforeSystem f s))
    as Hcore.
  unfold Portal.core, Portal.updateCore in Hcore.
  rewrite Hclosed, Hactive, Hopen in Hcore. rewrite Hactive, Hopen.
  destruct (Portal.skipped cfg f (Portal.beforeSystem f s));
    [discriminate Hcore |].
  destruct (shouldPortalBeActive cfg (Portal.now_eval f)); simpl in *;
    [discriminate Hcore | reflexivity].
Qed.

(** A window from 1000 to 2000, built open at 1500 and closed by the frame
    at 2500: when the clock reads 1500 again the portal is open and the
    countdown entity is still hidden. *)
Lemma countdown_hidden_after_close_witness :
  let cfg := mkConfig false true 1000 2000 in
  let at_ (now : Z) := Portal.mkFrame 1 now now Vec.Zero in
  let s := Portal.main cfg 1500 1500 in
  let reopened := Portal.run cfg [at_ 1500] (Portal.frame cfg (at_ 2500) s) in
  Portal.isPortalActive s = true
  /\ Portal.isPortalActive reopened = true
  /\ Portal.countdownTimer_scale reopened = Some Vec.Zero.
Proof.
  intros cfg at_ s reopened.
  split; [reflexivity |]. split; [vm_compute; reflexivity |].
  apply (countdown_hidden_after_close cfg s (at_ 2500) [at_ 1500]);
    vm_compute; reflexivity.
Defined.

(** X5: the countdown system teleports the player only in a frame in which
    it opens the portal, only if the player is inside the 8 m waiting box
    around the portal, and once in that frame. *)
Theorem instant_teleport_only_on_opening
        (cfg : Config) (f : Portal.Frame) (s : Portal.State) :
  Portal.movePlayerTo_calls (Portal.frame cfg f s) = Portal.movePlayerTo_calls s
  \/ (Portal.movePlayerTo_calls (Portal.frame cfg f s)
      = S (Portal.movePlayerTo_calls s)
      /\ Portal.isPortalActive s = false
      /\ Portal.isPortalActive (Portal.frame cfg f s) = true
      /\ Zone.withinBox (Vec.create (1688 # 10) 22 (-32)) 8 8 8
           (Portal.playerPos f) = true).
Proof.
  unfold Portal.frame.
  destruct (PortalFacts.core_fields _ _ (PortalFacts.beforeSystem_core f s))
    as (Hactive & _).
  destruct (PortalDisplay.beforeSystem_display f s) as (_ & _ & _ & Hmoves).
  destruct (Portal.systemInstalled (Portal.beforeSystem f s)); [| auto].
  destruct (PortalDisplay.countdownSystem_teleport cfg f (Portal.beforeSystem f s))
    as [Hsame | (Hone & Hwas & Hnow & _ & Hin)].
  - left. congruence.
  - right. repeat split; congruence.
Qed.

(** ** Kersplat: the landing camera and the end of the cooldown *)

Module KersplatMore.
Import Kersplat KersplatViews.
Local Open Scope Q_scope.








(** *** The reset of the cooldown is never more than 3000 ms away *)

Lemma runTimers_soon (s : State) : ResetsSoon s -> ResetsSoon (runTimers s).
Proof.
  unfold ResetsSoon. intros Hsoon.
  destruct (KersplatFacts.runTimers_fields s) as (_ & _ & Hk & Ht).
  rewrite Hk, Ht. apply incl_Forall with (2 := Hsoon).
  apply incl_filter.
Qed.

Lemma kersplatSystem_soon (p : Vector3) (s : State) :
  ResetsSoon s -> ResetsSoon (kersplatSystem p s).
Proof.
  unfold ResetsSoon, kersplatSystem. intros Hsoon.
  destruct (kersplatCooldown s); [exact Hsoon |].
  destruct (inZone1 p || inZone2 p); [| exact Hsoon].
  simpl. unfold Timers.setTimeout.
  rewrite !KersplatFacts.resetTimers_app. simpl. rewrite app_nil_r.
  apply Forall_app. split; [exact Hsoon |].
  constructor; [apply Qle_refl | constructor].
Qed.

Lemma onEnter_soon (p : Vector3) (s : State) :
  ResetsSoon s -> ResetsSoon (kersplatTriggerZone_onEnter p s).
Proof.
  unfold ResetsSoon, kersplatTriggerZone_onEnter. intros Hsoon.
  simpl. unfold Timers.setTimeout.
  rewrite KersplatFacts.resetTimers_app. simpl. rewrite app_nil_r.
  exact Hsoon.
Qed.

Lemma advance_soon (d : Q) (s : State) :
  0 <= d -> ResetsSoon s -> ResetsSoon (set_clock (clock s + 1000 * d) s).
Proof.
  unfold ResetsSoon. intros Hd. simpl. apply Forall_impl.
  intros tm Hdue. lra.
Qed.

Lemma frame_soon (order : Order) (f : Frame) (s : State) :
  0 <= dt f -> ResetsSoon s -> ResetsSoon (frame order f s).
Proof.
  intros Hdt Hsoon. unfold frame.
  apply (advance_soon (dt f) s Hdt) in Hsoon.
  set (s1 := set_clock (clock s + 1000 * dt f) s) in *.
  assert (Hsys : ResetsSoon
                   match order with
                   | TimersFirst => kersplatSystem (playerPos f) (runTimers s1)
                   | SystemFirst => runTimers (kersplatSystem (playerPos f) s1)
                   end).
  { destruct order.
    - apply kersplatSystem_soon, runTimers_soon, Hsoon.
    - apply runTimers_soon, kersplatSystem_soon, Hsoon. }
  induction (entered f) as [| n IH]; simpl; [exact Hsys |].
  apply onEnter_soon, IH.
Qed.

Lemma run_soon (order : Order) (frames : list Frame) (s : State) :
  Forall (fun f => 0 <= dt f) frames ->
  ResetsSoon s -> ResetsSoon (run order frames s).
Proof.
  revert s; induction frames as [| f frames IH]; intros s Hdt Hsoon; simpl;
    [exact Hsoon |].
  inversion Hdt as [| ? ? Hf Hrest]; subst.
  apply IH; [exact Hrest |]. apply frame_soon; assumption.
Qed.

(** After 3000 ms of the clock in one step every pending reset has run. *)
Lemma runTimers_releases (d : Q) (s : State) :
  3 <= d -> ResetsSoon s ->
  kersplatCooldown s = false \/ resetTimers (timers s) <> [] ->
  kersplatCooldown (runTimers (set_clock (clock s + 1000 * d) s)) = false.
Proof.
  intros Hd Hsoon Hcase.
  destruct (KersplatFacts.runTimers_fields (set_clock (clock s + 1000 * d) s))
    as (Hc & _).
  rewrite Hc. simpl.
  assert (Hall : filter (Timers.expired (clock s + 1000 * d))
                        (resetTimers (timers s))
                 = resetTimers (timers s)).
  { unfold ResetsSoon in Hsoon. revert Hsoon.
    generalize (resetTimers (timers s)). intros l Hl.
    induction Hl as [| tm l Hdue Hl IH]; simpl; [reflexivity |].
    replace (Timers.expired (clock s + 1000 * d) tm) with true.
    - rewrite IH. reflexivity.
    - symmetry. apply Qle_bool_iff. lra. }
  rewrite Hall.
  destruct (resetTimers (timers s)) eqn:Hresets; [| reflexivity].
  destruct Hcase as [Hoff | Hsome]; [exact Hoff | contradiction].
Qed.

End KersplatMore.


Lemma onEnter_keeps_cooldown (n : nat) (p : Vector3) (s : Kersplat.State) :
  Kersplat.kersplatCooldown
    (Nat.iter n (Kersplat.kersplatTriggerZone_onEnter p) s)
  = Kersplat.kersplatCooldown s.
Proof. induction n as [| n IH]; simpl; [reflexivity | exact IH]. Qed.

(** X7: the cooldown does not outlast its 3 seconds. After any run with
    frames of non-negative length, a frame of 3 seconds or more with the
    player outside both zones ends with the cooldown cleared, whichever of
    the timer system and the scanner runs first. *)
Theorem kersplat_cooldown_released
        (order : Kersplat.Order) (frames : list Kersplat.Frame)
        (f : Kersplat.Frame) :
  Forall (fun f => 0 <= Kersplat.dt f)%Q frames ->
  (3 <= Kersplat.dt f)%Q ->
  Kersplat.inZone1 (Kersplat.playerPos f)
    || Kersplat.inZone2 (Kersplat.playerPos f) = false ->
  Kersplat.kersplatCooldown
    (Kersplat.frame order f (Kersplat.run order frames Kersplat.initial))
  = false.
Proof.
  intros Hdt Hlong Houtside.
  set (s := Kersplat.run order frames Kersplat.initial).
  assert (Hinv : Kersplat.Invariant s)
    by (apply KersplatFacts.run_invariant;
        [exact Hdt | exact KersplatFacts.initial_invariant]).
  assert (Hsoon : KersplatViews.ResetsSoon s).
  { apply KersplatMore.run_soon; [exact Hdt |].
    unfold KersplatViews.ResetsSoon. simpl. constructor. }
  assert (Hcase : Kersplat.kersplatCooldown s = false
                  \/ Kersplat.resetTimers (Kersplat.timers s) <> []).
  { destruct (Kersplat.kersplatCooldown s) eqn:Hcool; [right | left; reflexivity].
    destruct (Kersplat.inv_cooling s Hinv Hcool) as (tm & Hone & _).
    rewrite Hone. discriminate. }
  pose proof (KersplatMore.runTimers_releases (Kersplat.dt f) s Hlong Hsoon Hcase)
    as Hreleased.
  assert (Hidle : forall x, Kersplat.kersplatSystem (Kersplat.playerPos f) x = x).
  { intros x. unfold Kersplat.kersplatSystem. rewrite Houtside.
    destruct (Kersplat.kersplatCooldown x); reflexivity. }
  unfold Kersplat.frame. rewrite onEnter_keeps_cooldown.
  destruct order; rewrite Hidle; exact Hreleased.
Qed.

(** The player falls into zone 1, is respawned and locked, and 3 seconds
    later stands outside: the lock is gone. *)
Lemma kersplat_cooldown_released_witness :
  let fall := Kersplat.mkFrame 1 Kersplat.zone1Pos 0 in
  let later := Kersplat.mkFrame 3 (Vec.create 168 80 16) 0 in
  Kersplat.kersplatCooldown
    (Kersplat.run Kersplat.SystemFirst [fall] Kersplat.initial) = true
  /\ Kersplat.kersplatCooldown
       (Kersplat.frame Kersplat.SystemFirst later
          (Kersplat.run Kersplat.SystemFirst [fall] Kersplat.initial)) = false.
Proof.
  intros fall later.
  split; [vm_compute; reflexivity |].
  apply (kersplat_cooldown_released Kersplat.SystemFirst [fall] later).
  - repeat constructor. discriminate.
  - discriminate.
  - vm_compute. reflexivity.
Defined.

(** ** The kersplat image closes by itself *)

Module KersplatUIFacts.
Import KersplatUI.
Local Open Scope Q_scope.

Lemma image_initial_invariant : Invariant initial.
Proof. constructor; simpl; [discriminate | constructor | constructor]. Qed.

Lemma runCallbacks_hide (cbs : list Callback) (s : State) :
  let s' := fold_left (fun s cb => runCallback cb s) cbs s in
  isKersplatVisible s'
  = (match cbs with [] => isKersplatVisible s | _ :: _ => false end)
  /\ clock s' = clock s /\ timers s' = timers s.
Proof.
  revert s; induction cbs as [| cb cbs IH]; intros s; simpl; [auto |].
  destruct (IH (runCallback cb s)) as (Hv & Hc & Ht).
  rewrite Hv, Hc, Ht. destruct cb; simpl.
  destruct cbs; auto.
Qed.

Lemma step_frame_fields (d : Q) (s : State) :
  let s' := step (Frame d) s in
  clock s' = clock s + 1000 * d
  /\ timers s'
     = filter (fun tm => negb (Timers.expired (clock s + 1000 * d) tm)) (timers s)
  /\ isKersplatVisible s'
     = (match filter (Timers.expired (clock s + 1000 * d)) (timers s) with
        | [] => isKersplatVisible s
        | _ :: _ => false
        end).
Proof.
  unfold step, Timers.poll. cbv zeta. simpl.
  match goal with
  | |- context [fold_left ?st ?cbs ?s0] =>
      destruct (runCallbacks_hide cbs s0) as (Hv & Hc & Ht)
  end.
  rewrite Hv, Hc, Ht. simpl.
  destruct (filter (Timers.expired (clock s + 1000 * d)) (timers s)); auto.
Qed.

Lemma not_expired_future (c : Q) (tm : Timers.Timer Callback) :
  negb (Timers.expired c tm) = true -> c < Timers.due tm.
Proof.
  unfold Timers.expired. intros H. apply negb_true_iff in H.
  apply Qnot_le_lt. intros Hle. apply Qle_bool_iff in Hle. congruence.
Qed.

Lemma filter_none_all {A : Type} (p : A -> bool) (l : list A) :
  filter p l = [] -> filter (fun x => negb (p x)) l = l.
Proof.
  induction l as [| x l IH]; simpl; [reflexivity |].
  destruct (p x); simpl; [discriminate |]. intros H. rewrite IH by exact H.
  reflexivity.
Qed.

Lemma step_invariant (e : Event) (s : State) :
  forward e -> Invariant s -> Invariant (step e s).
Proof.
  intros Hfwd [Hpending Hfuture Hsoon].
  destruct e as [| | d].
  - (* Show *)
    constructor; simpl; unfold Timers.setTimeout.
    + intros _ H. apply app_eq_nil in H as (_ & H). discriminate H.
    + apply Forall_app. split; [exact Hfuture |].
      constructor; [simpl; lra | constructor].
    + apply Forall_app. split; [exact Hsoon |].
      constructor; [simpl; apply Qle_refl | constructor].
  - (* MouseDown *)
    unfold step, onMouseDown, rendered.
    destruct (isKersplatVisible s) eqn:Hvisible.
    + constructor; simpl; [discriminate | exact Hfuture | exact Hsoon].
    + constructor; [rewrite Hvisible; discriminate | exact Hfuture | exact Hsoon].
  - (* Frame *)
    simpl in Hfwd.
    destruct (step_frame_fields d s) as (Hc & Ht & Hv).
    constructor; rewrite ?Hc, ?Ht, ?Hv.
    + destruct (filter (Timers.expired (clock s + 1000 * d)) (timers s))
        eqn:Hfired; [| discriminate].
      rewrite (filter_none_all _ _ Hfired). exact Hpending.
    + apply Forall_forall. intros tm Hin.
      apply filter_In in Hin as (_ & Hin). apply not_expired_future, Hin.
    + apply incl_Forall with (timers s); [apply incl_filter |].
      revert Hsoon. apply Forall_impl. intros tm Hdue. lra.
Qed.

Lemma image_run_invariant (events : list Event) (s : State) :
  Forall forward events -> Invariant s -> Invariant (run events s).
Proof.
  revert s; induction events as [| e events IH]; intros s Hfwd Hinv; simpl;
    [exact Hinv |].
  inversion Hfwd as [| ? ? He Hrest]; subst.
  apply IH; [exact Hrest |]. apply step_invariant; assumption.
Qed.

(** Without a new show, no hide is scheduled: the pending hides stay due by
    the same time. *)
Lemma run_quiet (limit : Q) (events : list Event) (s : State) :
  forallb (fun e => negb (isShow e)) events = true ->
  Forall (fun tm => Timers.due tm <= limit) (timers s) ->
  Forall (fun tm => Timers.due tm <= limit) (timers (run events s)).
Proof.
  revert s; induction events as [| e events IH]; intros s Hquiet Hdue; simpl;
    [exact Hdue |].
  simpl in Hquiet. apply andb_true_iff in Hquiet as (He & Hrest).
  apply IH; [exact Hrest |].
  destruct e as [| | d]; [discriminate He | |].
  - unfold step, onMouseDown. destruct (rendered s); exact Hdue.
  - destruct (step_frame_fields d s) as (_ & Ht & _). rewrite Ht.
    apply incl_Forall with (timers s); [apply incl_filter | exact Hdue].
Qed.

End KersplatUIFacts.

(** X8: the kersplat image never outlives its 2 seconds. After any history
    of shows, mouse presses and frames, once the clock has advanced 2000 ms
    without a new show the image is hidden. *)
Theorem kersplat_image_closes
        (history quiet : list KersplatUI.Event) :
  Forall KersplatUI.forward history ->
  Forall KersplatUI.forward quiet ->
  forallb (fun e => negb (KersplatUI.isShow e)) quiet = true ->
  let shown := KersplatUI.run history KersplatUI.initial in
  let after := KersplatUI.run quiet shown in
  (KersplatUI.clock shown + 2000 <= KersplatUI.clock after)%Q ->
  KersplatUI.isKersplatVisible after = false.
Proof.
  intros Hhist Hfwd Hquiet shown after Helapsed.
  assert (Hshown : KersplatUI.Invariant shown)
    by (apply KersplatUIFacts.image_run_invariant;
        [exact Hhist | exact KersplatUIFacts.image_initial_invariant]).
  assert (Hafter : KersplatUI.Invariant after)
    by (apply KersplatUIFacts.image_run_invariant; assumption).
  pose proof (KersplatUIFacts.run_quiet (KersplatUI.clock shown + 2000) quiet
                shown Hquiet (KersplatUI.inv_soon shown Hshown)) as Hdue.
  fold after in Hdue.
  destruct (KersplatUI.isKersplatVisible after) eqn:Hvisible; [| reflexivity].
  pose proof (KersplatUI.inv_pending after Hafter Hvisible) as Hsome.
  pose proof (KersplatUI.inv_future after Hafter) as Hfuture.
  destruct (KersplatUI.timers after) as [| tm rest]; [contradiction |].
  inversion Hdue as [| ? ? Hd _]; subst.
  inversion Hfuture as [| ? ? Hf _]; subst.
  exfalso. apply (Qlt_not_le _ _ Hf).
  apply Qle_trans with (KersplatUI.clock shown + 2000)%Q; assumption.
Qed.

(** Shown, closed by the mouse after half a second, shown again one second
    later: the first timer closes the second image after only half a
    second, and two seconds after the second show nothing is visible. *)
Lemma kersplat_image_closes_witness :
  let history :=
    [KersplatUI.Show; KersplatUI.Frame (1 # 2); KersplatUI.MouseDown;
     KersplatUI.Frame 1; KersplatUI.Show] in
  let shown := KersplatUI.run history KersplatUI.initial in
  KersplatUI.isKersplatVisible shown = true
  /\ KersplatUI.isKersplatVisible
       (KersplatUI.run [KersplatUI.Frame (1 # 2)] shown) = false
  /\ KersplatUI.isKersplatVisible
       (KersplatUI.run [KersplatUI.Frame (1 # 2); KersplatUI.Frame (3 # 2)]
          shown) = false.
Proof.
  intros history shown.
  split; [vm_compute; reflexivity |]. split; [vm_compute; reflexivity |].
  apply (kersplat_image_closes history
           [KersplatUI.Frame (1 # 2); KersplatUI.Frame (3 # 2)]).
  - repeat (apply Forall_cons; [simpl; first [exact I | discriminate] |]).
    apply Forall_nil.
  - repeat (apply Forall_cons; [simpl; first [exact I | discriminate] |]).
    apply Forall_nil.
  - reflexivity.
  - vm_compute. discriminate.
Defined.

(** ** The cinematic cameras as a whole *)

Module CameraOpsFacts.
Import Camera CameraOps.

Ltac break_ifs :=
  repeat match goal with
         | |- context [if ?c then _ else _] => destruct c
         end.

Lemma initial_coherent : Coherent Camera.initial.
Proof. constructor; simpl; [reflexivity | reflexivity | discriminate | reflexivity]. Qed.

Lemma resetToDefaultCamera_coherent (s : State) :
  Coherent s -> Coherent (resetToDefaultCamera s).
Proof.
  intros Hcoh. unfold resetToDefaultCamera.
  destruct (activeCinematicCamera s); [| exact Hcoh].
  constructor; simpl; [reflexivity | reflexivity | discriminate | reflexivity].
Qed.

Section WithMath.
Variables (Math_sin Math_cos : Q -> Q) (Math_PI : Q).

Lemma cameraSystem_coherent (now now_return : Z) (p : Vector3) (s : State) :
  Coherent s -> Coherent (cameraSystem Math_sin Math_cos Math_PI now now_return p s).
Proof.
  intros Hcoh. unfold cameraSystem.
  destruct (isAnimating s) eqn:Hanim; simpl; [| exact Hcoh].
  destruct (animationType s) as [[| | | |] |] eqn:Htype; try exact Hcoh.
  - (* tree *)
    destruct Hcoh as [Hb Hc Ha Hi].
    unfold treeAnimation.
    destruct (treeCameraPhase s); cbv zeta; break_ifs;
      constructor; simpl; rewrite ?Htype; try assumption;
      try reflexivity; try discriminate; try congruence.
  - (* landing *)
    unfold landingAnimation. cbv zeta.
    destruct (complete _).
    + apply resetToDefaultCamera_coherent.
      destruct Hcoh as [Hb Hc Ha Hi].
      constructor; simpl; assumption.
    + destruct Hcoh as [Hb Hc Ha Hi]. constructor; simpl; assumption.
Qed.

Lemma apply_coherent (op : Op) (w : World) :
  Coherent (cam w) -> Coherent (cam (apply Math_sin Math_cos Math_PI op w)).
Proof.
  intros Hcoh.
  destruct op; simpl.
  - constructor; simpl; [reflexivity | reflexivity | discriminate | discriminate].
  - constructor; simpl; [reflexivity | reflexivity | discriminate | discriminate].
  - constructor; simpl; [reflexivity | reflexivity | discriminate | discriminate].
  - constructor; simpl; [reflexivity | reflexivity | discriminate | discriminate].
  - constructor; simpl; [reflexivity | reflexivity | discriminate | discriminate].
  - apply resetToDefaultCamera_coherent, Hcoh.
  - unfold startTreeCameraOrbit.
    destruct (is_tree (animationType (cam w))) eqn:Htree; simpl;
      [| exact Hcoh].
    destruct (is_hold (treeCameraPhase (cam w))); simpl; [| exact Hcoh].
    destruct Hcoh as [Hb Hc Ha Hi].
    constructor; simpl; try assumption.
    + intros _ Hnone. rewrite Hnone in Htree. discriminate Htree.
    + intros Hnone. rewrite Hnone in Htree. discriminate Htree.
  - unfold resetTreeCamera.
    destruct (is_tree (animationType (cam w))) eqn:Htree;
      [| apply resetToDefaultCamera_coherent, Hcoh].
    destruct Hcoh as [Hb Hc Ha Hi].
    constructor; simpl; try assumption.
    + intros _ Hnone. rewrite Hnone in Htree. discriminate Htree.
    + intros Hnone. rewrite Hnone in Htree. discriminate Htree.
  - apply cameraSystem_coherent, Hcoh.
Qed.

Lemma run_coherent (ops : list Op) (w : World) :
  Coherent (cam w) -> Coherent (cam (run Math_sin Math_cos Math_PI ops w)).
Proof.
  revert w; induction ops as [| op ops IH]; intros w Hcoh; simpl;
    [exact Hcoh |].
  apply IH, apply_coherent, Hcoh.
Qed.

(** The animation system moves the tree phase from tilt to hold, or back
    to tilt when it releases the camera, and in no other way. *)
Lemma cameraSystem_phase (now now_return : Z) (p : Vector3) (s : State) :
  let s' := cameraSystem Math_sin Math_cos Math_PI now now_return p s in
  treeCameraPhase s' = treeCameraPhase s
  \/ (treeCameraPhase s = phase_tilt /\ treeCameraPhase s' = phase_hold)
  \/ treeCameraPhase s' = phase_tilt.
Proof.
  unfold cameraSystem.
  destruct (isAnimating s); simpl; [| auto].
  destruct (animationType s) as [[| | | |] |]; auto.
  - unfold treeAnimation.
    destruct (treeCameraPhase s) eqn:Hphase; cbv zeta; break_ifs; simpl; auto.
  - unfold landingAnimation, resetToDefaultCamera. cbv zeta.
    break_ifs; simpl; auto.
Qed.

End WithMath.
End CameraOpsFacts.

(** X9: whatever the scene, the dialogs, the timers and the engine do to
    the cameras, in any order, the module's bookkeeping stays coherent: the
    main camera is bound exactly to the camera of the running sequence,
    nothing animates without a sequence, and with no sequence the tree
    phase is the initial one. *)
Theorem cameras_stay_coherent
        (Math_sin Math_cos : Q -> Q) (Math_PI : Q) (ops : list CameraOps.Op) :
  CameraOps.Coherent
    (CameraOps.cam
       (CameraOps.run Math_sin Math_cos Math_PI ops CameraOps.initial)).
Proof.
  apply CameraOpsFacts.run_coherent. exact CameraOpsFacts.initial_coherent.
Qed.

(** X10: a request for the orbit made outside the hold phase is dropped,
    not queued: if the tree phase is neither hold nor orbit, then after
    [startTreeCameraOrbit] and any number of frames of the animation system
    the phase is still not orbit. *)
Theorem orbit_only_from_hold
        (Math_sin Math_cos : Q -> Q) (Math_PI : Q)
        (s : Camera.State) (now : Z) (frames : list (Z * Z * Vector3)) :
  Camera.treeCameraPhase s <> Camera.phase_hold ->
  Camera.treeCameraPhase s <> Camera.phase_orbit ->
  Camera.treeCameraPhase
    (Camera.runSystem Math_sin Math_cos Math_PI frames
       (Camera.startTreeCameraOrbit now s))
  <> Camera.phase_orbit.
Proof.
  intros Hnot_hold Hnot_orbit.
  assert (Hsame : Camera.startTreeCameraOrbit now s = s).
  { unfold Camera.startTreeCameraOrbit.
    destruct (Camera.treeCameraPhase s) eqn:Hphase; simpl;
      rewrite ?andb_false_r; try reflexivity.
    contradiction. }
  rewrite Hsame. clear Hsame Hnot_hold. revert s Hnot_orbit.
  induction frames as [| [[t t'] p] frames IH]; intros s Hnot_orbit; simpl;
    [exact Hnot_orbit |].
  apply IH.
  destruct (CameraOpsFacts.cameraSystem_phase Math_sin Math_cos Math_PI t t' p s)
    as [Hsame | [(_ & Hhold) | Htilt]]; congruence.
Qed.

(** The tree sequence two frames into its tilt: the request is dropped and
    the sequence ends its tilt in hold. *)
Lemma orbit_only_from_hold_witness :
  let zero (_ : Q) := 0%Q in
  let s := Camera.treeCamera_startCinematic zero zero 3 Vec.Zero 0 0
             Camera.initial in
  let frames := [(500, 500, Vec.Zero); (1600, 1600, Vec.Zero)] in
  Camera.treeCameraPhase s = Camera.phase_tilt
  /\ Camera.treeCameraPhase
       (Camera.runSystem zero zero 3 frames (Camera.startTreeCameraOrbit 400 s))
     = Camera.phase_hold
  /\ Camera.treeCameraPhase
       (Camera.runSystem zero zero 3 frames (Camera.startTreeCameraOrbit 400 s))
     <> Camera.phase_orbit.
Proof.
  intros zero s frames.
  split; [reflexivity |]. split; [vm_compute; reflexivity |].
  apply (orbit_only_from_hold zero zero 3 s 400 frames);
    vm_compute; discriminate.
Defined.

Module CameraTiming.
Import Camera.

(** [Math.min(elapsed / duration, 1) >= 1] says that the duration is over. *)
Lemma complete_progressOf (elapsed duration : Z) :
  0 < duration ->
  complete (progressOf elapsed duration) = (duration <=? elapsed).
Proof.
  intros Hpos. unfold complete, progressOf.
  assert (Hq : (0 < inject_Z duration)%Q)
    by (rewrite Zlt_Qlt in Hpos; exact Hpos).
  destruct (Z.leb_spec duration elapsed) as [Hdone | Hpending].
  - apply Qle_bool_iff, Q.min_glb; [| apply Qle_refl].
    apply Qle_shift_div_l; [exact Hq |]. rewrite Qmult_1_l.
    rewrite <- Zle_Qle. exact Hdone.
  - destruct (Qle_bool 1 (Qmin (inject_Z elapsed / inject_Z duration) 1))
      eqn:Hle; [| reflexivity].
    apply Qle_bool_iff, Q.min_glb_l in Hle.
    rewrite Zlt_Qlt in Hpending.
    exfalso. apply (Qlt_not_le _ _ Hpending).
    apply (Qmult_le_compat_r _ _ (inject_Z duration)) in Hle;
      [| apply Qlt_le_weak; exact Hq].
    rewrite Qmult_1_l in Hle.
    setoid_replace (inject_Z elapsed / inject_Z duration * inject_Z duration)%Q
      with (inject_Z elapsed) in Hle
      by (field; intros H0; rewrite H0 in Hq; discriminate Hq).
    exact Hle.
Qed.

Section WithMath.
Variables (Math_sin Math_cos : Q -> Q) (Math_PI : Q).

(** A state that is not animating is a fixed point of the system. *)
Lemma runSystem_idle (frames : list (Z * Z * Vector3)) (s : State) :
  isAnimating s = false ->
  runSystem Math_sin Math_cos Math_PI frames s = s.
Proof.
  intros Hidle. induction frames as [| [[t t'] p] frames IH]; simpl;
    [reflexivity |].
  unfold cameraSystem at 1. rewrite Hidle. simpl. exact IH.
Qed.

Lemma landing_pending (now now_return : Z) (p : Vector3) (s : State) :
  isAnimating s = true ->
  animationType s = Some anim_landing ->
  now - animationStartTime s < 3000 ->
  control (cameraSystem Math_sin Math_cos Math_PI now now_return p s) = control s
  /\ animationStartTime (cameraSystem Math_sin Math_cos Math_PI now now_return p s)
     = animationStartTime s.
Proof.
  intros Hanim Htype Hpending.
  unfold cameraSystem, control. rewrite Hanim, Htype. simpl.
  unfold landingAnimation. cbv zeta.
  rewrite complete_progressOf by reflexivity. unfold panDuration.
  replace (3000 <=? now - animationStartTime s) with false
    by (symmetry; apply Z.leb_gt; exact Hpending).
  simpl. rewrite Hanim, Htype. auto.
Qed.

Lemma landing_done (now now_return : Z) (p : Vector3) (s : State) :
  isAnimating s = true ->
  animationType s = Some anim_landing ->
  activeCinematicCamera s <> None ->
  3000 <= now - animationStartTime s ->
  control (cameraSystem Math_sin Math_cos Math_PI now now_return p s)
  = (None, false, None, phase_tilt, None).
Proof.
  intros Hanim Htype Hactive Hdone.
  unfold cameraSystem, control. rewrite Hanim, Htype. simpl.
  unfold landingAnimation. cbv zeta.
  rewrite complete_progressOf by reflexivity. unfold panDuration.
  replace (3000 <=? now - animationStartTime s) with true
    by (symmetry; apply Z.leb_le; exact Hdone).
  unfold resetToDefaultCamera. simpl.
  destruct (activeCinematicCamera s); [reflexivity | contradiction].
Qed.

Lemma landing_run_pending (frames : list (Z * Z * Vector3)) (s : State) :
  isAnimating s = true ->
  animationType s = Some anim_landing ->
  Forall (fun f => fst (fst f) - animationStartTime s < 3000) frames ->
  control (runSystem Math_sin Math_cos Math_PI frames s) = control s
  /\ animationStartTime (runSystem Math_sin Math_cos Math_PI frames s)
     = animationStartTime s.
Proof.
  revert s; induction frames as [| [[now now_return] p] frames IH];
    intros s Hanim Htype Hall; simpl; [auto |].
  inversion Hall as [| ? ? Hhead Hrest]; subst. simpl in Hhead.
  destruct (landing_pending now now_return p s Hanim Htype Hhead)
    as (Hctl & Hstart).
  destruct (CameraFacts.control_fields _ _ _ _ _ _ Hctl)
    as (_ & Hb & Hc & _ & _).
  destruct (IH (cameraSystem Math_sin Math_cos Math_PI now now_return p s))
    as (Hctl' & Hstart'); try congruence.
  - rewrite Hstart. exact Hrest.
  - split; congruence.
Qed.

End WithMath.
End CameraTiming.

(** X11: the orbit never gives the camera back by itself. The frame that
    finds its 7400 ms over stops the animation and nothing else: the phase
    stays orbit, the main camera stays bound to the tree camera, and every
    later frame of the system leaves the state as it is. *)
Theorem orbit_end_keeps_camera
        (Math_sin Math_cos : Q -> Q) (Math_PI : Q)
        (s : Camera.State) (now now_return : Z) (playerPos : Vector3)
        (frames : list (Z * Z * Vector3)) :
  Camera.isAnimating s = true ->
  Camera.animationType s = Some Camera.anim_tree ->
  Camera.treeCameraPhase s = Camera.phase_orbit ->
  7400 <= now - Camera.animationStartTime s ->
  let s' := Camera.cameraSystem Math_sin Math_cos Math_PI now now_return
              playerPos s in
  Camera.control s'
  = (Camera.activeCinematicCamera s, false, Some Camera.anim_tree,
     Camera.phase_orbit, Camera.virtualCameraEntity s)
  /\ Camera.runSystem Math_sin Math_cos Math_PI frames s' = s'.
Proof.
  intros Hanim Htype Hphase Hdone s'.
  assert (Hctl : Camera.control s'
                 = (Camera.activeCinematicCamera s, false,
                    Some Camera.anim_tree, Camera.phase_orbit,
                    Camera.virtualCameraEntity s)).
  { unfold s', Camera.cameraSystem, Camera.control.
    rewrite Hanim, Htype. simpl.
    unfold Camera.treeAnimation. rewrite Hphase. cbv zeta.
    rewrite CameraTiming.complete_progressOf by reflexivity.
    unfold Camera.orbitDuration.
    replace (7400 <=? now - Camera.animationStartTime s) with true
      by (symmetry; apply Z.leb_le; exact Hdone).
    simpl. rewrite Htype, Hphase. reflexivity. }
  split; [exact Hctl |].
  apply CameraTiming.runSystem_idle.
  destruct (CameraFacts.control_fields _ _ _ _ _ _ Hctl) as (_ & H & _).
  exact H.
Qed.

Lemma orbit_end_keeps_camera_witness :
  let zero (_ : Q) := 0%Q in
  let system := Camera.cameraSystem zero zero 3 in
  let s :=
    Camera.startTreeCameraOrbit 5000
      (system 1500 1500 Vec.Zero
         (Camera.treeCamera_startCinematic zero zero 3 Vec.Zero 0 0
            Camera.initial)) in
  Camera.treeCameraPhase s = Camera.phase_orbit
  /\ Camera.virtualCameraEntity (system 12400 12400 Vec.Zero s)
     = Some Camera.treeCinematicCamera
  /\ Camera.isAnimating (system 12400 12400 Vec.Zero s) = false.
Proof.
  intros zero system s.
  split; [vm_compute; reflexivity |].
  destruct (orbit_end_keeps_camera zero zero 3 s 12400 12400 Vec.Zero [])
    as (Hctl & _); try (vm_compute; reflexivity).
  - vm_compute. discriminate.
  - destruct (CameraFacts.control_fields _ _ _ _ _ _ Hctl)
      as (_ & Hanim & _ & _ & Hbound).
    split; [| exact Hanim].
    unfold system. rewrite Hbound. vm_compute. reflexivity.
Defined.

(** X12: the landing camera gives the camera back by itself. Started at
    any moment, also over a running tree sequence, it keeps the main camera
    for frames that read the clock less than 3000 ms after its start; the
    first frame that reads 3000 ms or more releases the camera and leaves
    the tree phase at tilt. *)
Theorem landing_camera_releases
        (Math_sin Math_cos : Q -> Q) (Math_PI : Q)
        (s : Camera.State) (playerPos : Vector3) (facing : Q) (start : Z)
        (frames : list (Z * Z * Vector3))
        (now now_return : Z) (p : Vector3) :
  let s1 := CameraOps.landingCamera_startCinematic Math_sin Math_cos Math_PI
              playerPos facing start s in
  let s2 := Camera.runSystem Math_sin Math_cos Math_PI frames s1 in
  let s3 := Camera.cameraSystem Math_sin Math_cos Math_PI now now_return p s2 in
  Forall (fun f => fst (fst f) - start < 3000) frames ->
  3000 <= now - start ->
  Camera.control s2
  = (Some Camera.landingCinematicCamera, true, Some Camera.anim_landing,
     Camera.treeCameraPhase s, Some Camera.landingCinematicCamera)
  /\ Camera.control s3 = (None, false, None, Camera.phase_tilt, None).
Proof.
  intros s1 s2 s3 Hpending Hdone.
  destruct (CameraTiming.landing_run_pending Math_sin Math_cos Math_PI frames s1)
    as (Hctl & Hstart); try reflexivity.
  { exact Hpending. }
  fold s2 in Hctl, Hstart.
  split; [exact Hctl |].
  destruct (CameraFacts.control_fields _ _ _ _ _ _ Hctl)
    as (Hactive & Hanim & Htype & _).
  apply CameraTiming.landing_done; try assumption.
  - rewrite Hactive. discriminate.
  - rewrite Hstart. exact Hdone.
Qed.

(** A kersplat during the orbit of the tree sequence: the landing camera
    takes over, and its end resets the tree phase. *)
Lemma landing_camera_releases_witness :
  let zero (_ : Q) := 0%Q in
  let system := Camera.cameraSystem zero zero 3 in
  let orbiting :=
    Camera.startTreeCameraOrbit 5000
      (system 1500 1500 Vec.Zero
         (Camera.treeCamera_startCinematic zero zero 3 Vec.Zero 0 0
            Camera.initial)) in
  let landing :=
    CameraOps.landingCamera_startCinematic zero zero 3 Vec.Zero 0 6000
      orbiting in
  Camera.treeCameraPhase orbiting = Camera.phase_orbit
  /\ Camera.control (system 9000 9000 Vec.Zero
                       (Camera.runSystem zero zero 3 [(8999, 8999, Vec.Zero)]
                          landing))
     = (None, false, None, Camera.phase_tilt, None).
Proof.
  intros zero system orbiting landing.
  split; [vm_compute; reflexivity |].
  destruct (landing_camera_releases zero zero 3 orbiting Vec.Zero 0 6000
              [(8999, 8999, Vec.Zero)] 9000 9000 Vec.Zero)
    as (_ & Hdone).
  - repeat constructor.
  - vm_compute. discriminate.
  - exact Hdone.
Defined.

Module TreeTilt.
Import Camera.

Section WithMath.
Variables (Math_sin Math_cos : Q -> Q) (Math_PI : Q).

Lemma tilt_step (now now_return : Z) (p : Vector3) (s : State) :
  isAnimating s = true ->
  animationType s = Some anim_tree ->
  treeCameraPhase s = phase_tilt ->
  control (cameraSystem Math_sin Math_cos Math_PI now now_return p s)
  = (activeCinematicCamera s, true, Some anim_tree,
     (if 1500 <=? now - animationStartTime s then phase_hold else phase_tilt),
     virtualCameraEntity s)
  /\ animationStartTime (cameraSystem Math_sin Math_cos Math_PI now now_return p s)
     = animationStartTime s.
Proof.
  intros Hanim Htype Hphase.
  unfold cameraSystem, control. rewrite Hanim, Htype. simpl.
  unfold treeAnimation. rewrite Hphase. cbv zeta.
  rewrite CameraTiming.complete_progressOf by reflexivity. unfold tiltDuration.
  destruct (1500 <=? now - animationStartTime s); simpl;
    rewrite Hanim, Htype, ?Hphase; auto.
Qed.

Lemma hold_step (now now_return : Z) (p : Vector3) (s : State) :
  isAnimating s = true ->
  animationType s = Some anim_tree ->
  treeCameraPhase s = phase_hold ->
  control (cameraSystem Math_sin Math_cos Math_PI now now_return p s) = control s.
Proof.
  intros Hanim Htype Hphase.
  unfold cameraSystem, control. rewrite Hanim, Htype. simpl.
  unfold treeAnimation. rewrite Hphase. cbv zeta. simpl.
  rewrite Hanim, Htype, Hphase. reflexivity.
Qed.

Lemma hold_run (frames : list (Z * Z * Vector3)) (s : State) :
  isAnimating s = true ->
  animationType s = Some anim_tree ->
  treeCameraPhase s = phase_hold ->
  control (runSystem Math_sin Math_cos Math_PI frames s) = control s.
Proof.
  revert s; induction frames as [| [[now now_return] p] frames IH];
    intros s Hanim Htype Hphase; simpl; [reflexivity |].
  pose proof (hold_step now now_return p s Hanim Htype Hphase) as Hctl.
  assert (Hfields : control s
                    = (activeCinematicCamera s, true, Some anim_tree, phase_hold,
                       virtualCameraEntity s))
    by (unfold control; rewrite Hanim, Htype, Hphase; reflexivity).
  rewrite Hfields in Hctl.
  destruct (CameraFacts.control_fields _ _ _ _ _ _ Hctl)
    as (_ & Hb & Hc & Hd & _).
  rewrite IH by assumption. rewrite Hctl, Hfields. reflexivity.
Qed.

Lemma tilt_run (frames : list (Z * Z * Vector3)) (s : State) :
  isAnimating s = true ->
  animationType s = Some anim_tree ->
  treeCameraPhase s = phase_tilt ->
  Forall (fun f => fst (fst f) - animationStartTime s < 1500) frames ->
  control (runSystem Math_sin Math_cos Math_PI frames s) = control s
  /\ animationStartTime (runSystem Math_sin Math_cos Math_PI frames s)
     = animationStartTime s.
Proof.
  revert s; induction frames as [| [[now now_return] p] frames IH];
    intros s Hanim Htype Hphase Hall; simpl; [auto |].
  inversion Hall as [| ? ? Hhead Hrest]; subst. simpl in Hhead.
  destruct (tilt_step now now_return p s Hanim Htype Hphase) as (Hctl & Hstart).
  replace (1500 <=? now - animationStartTime s) with false in Hctl
    by (symmetry; apply Z.leb_gt; exact Hhead).
  destruct (CameraFacts.control_fields _ _ _ _ _ _ Hctl)
    as (_ & Hb & Hc & Hd & _).
  destruct (IH (cameraSystem Math_sin Math_cos Math_PI now now_return p s))
    as (Hctl' & Hstart'); try assumption.
  - rewrite Hstart. exact Hrest.
  - split; [| congruence].
    rewrite Hctl', Hctl. unfold control.
    rewrite Hanim, Htype, Hphase. reflexivity.
Qed.

End WithMath.
End TreeTilt.

(** X13: the tree sequence tilts for 1500 ms and then holds for as long as
    nobody asks for the orbit. From its start, frames that read the clock
    less than 1500 ms later leave the phase at tilt, the first frame that
    reads 1500 ms or more sets hold, and every frame after that finds hold
    again, with the main camera bound to the tree camera throughout. *)
Theorem tree_tilts_then_holds
        (Math_sin Math_cos : Q -> Q) (Math_PI : Q)
        (s0 : Camera.State) (playerPos : Vector3) (facing : Q) (start : Z)
        (tilting : list (Z * Z * Vector3)) (now now_return : Z) (p : Vector3)
        (holding : list (Z * Z * Vector3)) :
  Camera.treeCameraPhase s0 = Camera.phase_tilt ->
  Forall (fun f => fst (fst f) - start < 1500) tilting ->
  1500 <= now - start ->
  let s1 := Camera.treeCamera_startCinematic Math_sin Math_cos Math_PI
              playerPos facing start s0 in
  let s2 := Camera.runSystem Math_sin Math_cos Math_PI tilting s1 in
  let s3 := Camera.cameraSystem Math_sin Math_cos Math_PI now now_return p s2 in
  let s4 := Camera.runSystem Math_sin Math_cos Math_PI holding s3 in
  let bound (phase : Camera.TreePhase) :=
    (Some Camera.treeCinematicCamera, true, Some Camera.anim_tree, phase,
     Some Camera.treeCinematicCamera) in
  Camera.control s2 = bound Camera.phase_tilt
  /\ Camera.control s3 = bound Camera.phase_hold
  /\ Camera.control s4 = bound Camera.phase_hold.
Proof.
  intros Hphase0 Htilting Hdone s1 s2 s3 s4 bound.
  assert (Hctl1 : Camera.control s1 = bound Camera.phase_tilt)
    by (unfold s1, Camera.control, bound; simpl; rewrite Hphase0; reflexivity).
  destruct (CameraFacts.control_fields _ _ _ _ _ _ Hctl1)
    as (_ & Hanim1 & Htype1 & Hphase1 & _).
  destruct (TreeTilt.tilt_run Math_sin Math_cos Math_PI tilting s1
              Hanim1 Htype1 Hphase1 Htilting) as (Hctl2 & Hstart2).
  fold s2 in Hctl2, Hstart2. rewrite Hctl1 in Hctl2.
  destruct (CameraFacts.control_fields _ _ _ _ _ _ Hctl2)
    as (Hact2 & Hanim2 & Htype2 & Hphase2 & Hbound2).
  destruct (TreeTilt.tilt_step Math_sin Math_cos Math_PI now now_return p s2
              Hanim2 Htype2 Hphase2) as (Hctl3 & _).
  fold s3 in Hctl3. rewrite Hstart2 in Hctl3.
  replace (1500 <=? now - Camera.animationStartTime s1) with true in Hctl3
    by (symmetry; apply Z.leb_le; exact Hdone).
  rewrite Hact2, Hbound2 in Hctl3.
  destruct (CameraFacts.control_fields _ _ _ _ _ _ Hctl3)
    as (_ & Hanim3 & Htype3 & Hphase3 & _).
  pose proof (TreeTilt.hold_run Math_sin Math_cos Math_PI holding s3
                Hanim3 Htype3 Hphase3) as Hctl4.
  fold s4 in Hctl4. rewrite Hctl3 in Hctl4.
  auto.
Qed.

Lemma tree_tilts_then_holds_witness :
  let zero (_ : Q) := 0%Q in
  let s1 := Camera.treeCamera_startCinematic zero zero 3 Vec.Zero 0 1000
              Camera.initial in
  let s2 := Camera.runSystem zero zero 3 [(2000, 2000, Vec.Zero)] s1 in
  let s3 := Camera.cameraSystem zero zero 3 2500 2500 Vec.Zero s2 in
  let s4 := Camera.runSystem zero zero 3 [(90000, 90000, Vec.Zero)] s3 in
  Camera.treeCameraPhase s4 = Camera.phase_hold.
Proof.
  intros zero s1 s2 s3 s4.
  destruct (tree_tilts_then_holds zero zero 3 Camera.initial Vec.Zero 0 1000
              [(2000, 2000, Vec.Zero)] 2500 2500 Vec.Zero
              [(90000, 90000, Vec.Zero)]) as (_ & _ & Hhold).
  - reflexivity.
  - repeat constructor.
  - vm_compute. discriminate.
  - destruct (CameraFacts.control_fields _ _ _ _ _ _ Hhold)
      as (_ & _ & _ & Hphase & _).
    exact Hphase.
Defined.

(** ** The string helpers of the burn module *)

Module BurnerFacts.
Import Burner.
Local Open Scope string_scope.

Lemma split_nonempty (sep : ascii) (s : string) : split sep s <> [].
Proof.
  destruct s as [| c rest]; simpl; [discriminate |].
  destruct (Ascii.eqb c sep); [discriminate |].
  destruct (split sep rest); discriminate.
Qed.

Lemma split_plain (sep : ascii) (a : string) :
  has sep a = false -> split sep a = [a].
Proof.
  unfold has. induction a as [| c a IH]; simpl; [reflexivity |].
  intros H. apply orb_false_iff in H as (Hc & Ha).
  rewrite Ascii.eqb_sym, Hc, (IH Ha). reflexivity.
Qed.

Lemma split_app (sep : ascii) (a b : string) :
  has sep a = false ->
  split sep (a ++ String sep b) = a :: split sep b.
Proof.
  unfold has. induction a as [| c a IH]; simpl.
  - intros _. rewrite Ascii.eqb_refl. reflexivity.
  - intros H. apply orb_false_iff in H as (Hc & Ha).
    rewrite Ascii.eqb_sym, Hc, (IH Ha). reflexivity.
Qed.

Lemma join_split (sep : ascii) (s : string) : join sep (split sep s) = s.
Proof.
  induction s as [| c rest IH]; simpl; [reflexivity |].
  destruct (Ascii.eqb_spec c sep) as [-> | Hne].
  - simpl. destruct (split sep rest) as [| p ps] eqn:Hsplit;
      [exact (False_ind _ (split_nonempty sep rest Hsplit)) |].
    simpl in *. rewrite IH. reflexivity.
  - destruct (split sep rest) as [| p ps] eqn:Hsplit;
      [exact (False_ind _ (split_nonempty sep rest Hsplit)) |].
    simpl in *. rewrite IH. reflexivity.
Qed.

Lemma split_parts_plain (sep : ascii) (s : string) :
  Forall (fun p => has sep p = false) (split sep s).
Proof.
  induction s as [| c rest IH]; simpl; [repeat constructor |].
  destruct (Ascii.eqb_spec c sep) as [-> | Hne].
  - constructor; [reflexivity | exact IH].
  - destruct (split sep rest) as [| p ps]; [repeat constructor; simpl |].
    + unfold has; simpl. rewrite orb_false_r.
      apply Ascii.eqb_neq. congruence.
    + inversion IH as [| ? ? Hp Hps]; subst.
      constructor; [| exact Hps].
      unfold has in *; simpl. rewrite Hp, orb_false_r.
      apply Ascii.eqb_neq. congruence.
Qed.

End BurnerFacts.

(** X14: a URN of the documented format parses to its last two fields.
    For a network, a collection version, an address and a token id without
    colon, ["urn:decentraland:" net ":" version ":" address ":" tokenId]
    gives the address and the token id; further fields after another colon
    are ignored, and the network and the version are not looked at. *)
Theorem parseURN_roundtrip (net version address tokenId tail : string) :
  Burner.has ":" net = false ->
  Burner.has ":" version = false ->
  Burner.has ":" address = false ->
  Burner.has ":" tokenId = false ->
  Burner.parseURN
    ("urn:decentraland:" ++ net ++ ":" ++ version ++ ":" ++ address ++ ":"
       ++ tokenId)%string
  = Some (Burner.mkURN address tokenId)
  /\ Burner.parseURN
       ("urn:decentraland:" ++ net ++ ":" ++ version ++ ":" ++ address ++ ":"
          ++ tokenId ++ ":" ++ tail)%string
     = Some (Burner.mkURN address tokenId).
Proof.
  intros Hnet Hver Haddr Htok.
  assert (Hshape : forall rest,
             Burner.split ":" ("urn:decentraland:" ++ net ++ ":" ++ version
                                 ++ ":" ++ address ++ ":" ++ rest)%string
             = "urn"%string :: "decentraland"%string :: net :: version
                 :: address :: Burner.split ":" rest).
  { intros rest.
    change ("urn:decentraland:" ++ net ++ ":" ++ version ++ ":" ++ address
              ++ ":" ++ rest)%string
      with ("urn" ++ String ":" ("decentraland" ++ String ":"
              (net ++ String ":" (version ++ String ":"
                 (address ++ String ":" rest)))))%string.
    rewrite !BurnerFacts.split_app by (assumption || reflexivity).
    reflexivity. }
  unfold Burner.parseURN. split.
  - rewrite Hshape, (BurnerFacts.split_plain ":" tokenId Htok). reflexivity.
  - rewrite Hshape.
    change (tokenId ++ ":" ++ tail)%string
      with (tokenId ++ String ":" tail)%string.
    rewrite (BurnerFacts.split_app ":" tokenId tail Htok).
    destruct (Burner.split ":" tail); reflexivity.
Qed.

Lemma parseURN_roundtrip_witness :
  Burner.parseURN
    "urn:decentraland:matic:collections-v2:0x1234567890abcdef1234567890abcdef12345678:7"
  = Some (Burner.mkURN "0x1234567890abcdef1234567890abcdef12345678" "7").
Proof.
  destruct (parseURN_roundtrip "matic" "collections-v2"
              "0x1234567890abcdef1234567890abcdef12345678" "7" EmptyString)
    as (H & _); [reflexivity | reflexivity | reflexivity | reflexivity |].
  exact H.
Defined.

(** X15: [parseURN] accepts nothing else. Whenever it returns an address
    and a token id, the input is "urn:decentraland:", two fields without
    colon, the address, the token id and possibly more after a colon, and
    neither the address nor the token id holds a colon: they are the fifth
    and the sixth field. *)
Theorem parseURN_accepts_only (urn : string) (r : Burner.URN) :
  Burner.parseURN urn = Some r ->
  Burner.has ":" (Burner.address r) = false
  /\ Burner.has ":" (Burner.tokenId r) = false
  /\ exists net version tail,
       urn = ("urn:decentraland:" ++ net ++ ":" ++ version ++ ":"
                ++ Burner.address r ++ ":" ++ Burner.tokenId r ++ tail)%string
       /\ (tail = EmptyString \/ exists more, tail = String ":" more)
       /\ Burner.has ":" net = false
       /\ Burner.has ":" version = false.
Proof.
  unfold Burner.parseURN. intros Hparse.
  pose proof (BurnerFacts.join_split ":" urn) as Hjoin.
  pose proof (BurnerFacts.split_parts_plain ":" urn) as Hplain.
  destruct (Burner.split ":" urn) as [| p0 [| p1 [| p2 [| p3 [| p4 [| p5 rest]]]]]];
    simpl in Hparse; try discriminate Hparse.
  destruct (String.eqb_spec p0 "urn") as [-> | _]; simpl in Hparse;
    [| discriminate Hparse].
  destruct (String.eqb_spec p1 "decentraland") as [-> | _]; simpl in Hparse;
    [| discriminate Hparse].
  injection Hparse as <-. simpl.
  do 2 (apply Forall_cons_iff in Hplain as (_ & Hplain)).
  apply Forall_cons_iff in Hplain as (Hnet & Hplain).
  apply Forall_cons_iff in Hplain as (Hver & Hplain).
  apply Forall_cons_iff in Hplain as (Haddr & Hplain).
  apply Forall_cons_iff in Hplain as (Htok & _).
  split; [exact Haddr |]. split; [exact Htok |].
  exists p2, p3.
  exists (Burner.glue ":" rest).
  split; [| split; [| split; [exact Hnet | exact Hver]]].
  - rewrite <- Hjoin. simpl. reflexivity.
  - destruct rest as [| q rest]; [left; reflexivity |].
    right. simpl. eexists. reflexivity.
Qed.

Lemma parseURN_accepts_only_witness :
  Burner.has ":" "0xabc" = false
  /\ Burner.parseURN "urn:decentraland:matic:collections-v2:0xabc" = None.
Proof.
  split.
  - destruct (parseURN_accepts_only
                "urn:decentraland:matic:collections-v2:0xabc:5:extra"
                (Burner.mkURN "0xabc" "5")) as (H & _); [reflexivity |].
    exact H.
  - reflexivity.
Defined.

Lemma prefix_split (pre s : string) :
  String.prefix pre s = true -> exists rest, s = (pre ++ rest)%string.
Proof.
  revert s; induction pre as [| c pre IH]; intros s.
  - intros _. exists s. reflexivity.
  - destruct s as [| d s]; simpl; [discriminate |].
    destruct (ascii_dec c d) as [-> | _]; intros H; [| discriminate H].
    destruct (IH s H) as (rest & ->). exists rest. reflexivity.
Qed.

(** X16: [normalizeImageURL] turns an IPFS address into the address of the
    same path on the ipfs.io gateway, never returns an address that starts
    with "ipfs://", and changes nothing when applied a second time. *)
Theorem normalizeImageURL_idempotent (imageUrl path : string) :
  Burner.normalizeImageURL ("ipfs://" ++ path)
  = ("https://ipfs.io/ipfs/" ++ path)%string
  /\ Burner.startsWith (Burner.normalizeImageURL imageUrl) "ipfs://" = false
  /\ Burner.normalizeImageURL (Burner.normalizeImageURL imageUrl)
     = Burner.normalizeImageURL imageUrl.
Proof.
  assert (Hipfs : forall q,
             Burner.normalizeImageURL ("ipfs://" ++ q)
             = ("https://ipfs.io/ipfs/" ++ q)%string).
  { intros q. unfold Burner.normalizeImageURL, Burner.startsWith. simpl.
    repeat (destruct (ascii_dec _ _) as [_ | Hne];
            [| exfalso; apply Hne; reflexivity]).
    destruct q; reflexivity. }
  assert (Hnever : Burner.startsWith (Burner.normalizeImageURL imageUrl)
                     "ipfs://" = false).
  { destruct (Burner.startsWith imageUrl "ipfs://") eqn:Hstarts.
    - destruct (prefix_split _ _ Hstarts) as (q & ->).
      rewrite Hipfs. reflexivity.
    - unfold Burner.normalizeImageURL. rewrite Hstarts. exact Hstarts. }
  split; [apply Hipfs |]. split; [exact Hnever |].
  unfold Burner.normalizeImageURL at 1. rewrite Hnever. reflexivity.
Qed.

(** ** base64Decode *)

Module Base64Facts.
Import Burner.

(** A property checked on every number below [k]. *)
Lemma below_forall (f : Z -> bool) (k : nat) :
  forallb f (map Z.of_nat (seq 0 k)) = true ->
  forall n, 0 <= n < Z.of_nat k -> f n = true.
Proof.
  intros Hall n Hn. rewrite forallb_forall in Hall. apply Hall.
  apply in_map_iff. exists (Z.to_nat n). split; [lia |].
  apply in_seq. lia.
Qed.

(** The 65 characters of [chars] are told apart by [indexOf], and all pass
    the filter. *)
Lemma digit_enc (n : Z) :
  0 <= n < 65 -> enc (Some (digit n)) = n /\ inAlphabet (digit n) = true.
Proof.
  intros Hn.
  pose proof (below_forall
                (fun n => (enc (Some (digit n)) =? n) && inAlphabet (digit n))
                65 ltac:(vm_compute; reflexivity) n Hn) as H.
  apply andb_true_iff in H as (H1 & H2). apply Z.eqb_eq in H1. auto.
Qed.

(** The four digits of three bytes are below 64. *)
Lemma digits_small (a b c : Z) :
  isByte a -> isByte b -> isByte c ->
  0 <= Z.shiftr a 2 < 64
  /\ 0 <= Z.lor (Z.shiftl (Z.land a 3) 4) (Z.shiftr b 4) < 64
  /\ 0 <= Z.lor (Z.shiftl (Z.land b 15) 2) (Z.shiftr c 6) < 64
  /\ 0 <= Z.land c 63 < 64.
Proof.
  unfold isByte. intros Ha Hb Hc.
  assert (H2 : forall x y, isByte x -> isByte y ->
                 0 <= Z.lor (Z.shiftl (Z.land x 3) 4) (Z.shiftr y 4) < 64
                 /\ 0 <= Z.lor (Z.shiftl (Z.land x 15) 2) (Z.shiftr y 6) < 64
                 /\ 0 <= Z.shiftr x 2 < 64 /\ 0 <= Z.land x 63 < 64).
  { intros x y Hx Hy.
    pose proof (below_forall
                  (fun x => forallb
                     (fun y =>
                        let e2 := Z.lor (Z.shiftl (Z.land x 3) 4) (Z.shiftr y 4) in
                        let e3 := Z.lor (Z.shiftl (Z.land x 15) 2) (Z.shiftr y 6) in
                        (0 <=? e2) && (e2 <? 64) && (0 <=? e3) && (e3 <? 64)
                        && (0 <=? Z.shiftr x 2) && (Z.shiftr x 2 <? 64)
                        && (0 <=? Z.land x 63) && (Z.land x 63 <? 64))
                     (map Z.of_nat (seq 0 256)))
                  256 ltac:(vm_compute; reflexivity) x Hx) as H.
    cbv beta in H.
    pose proof (below_forall _ 256 H y Hy) as H'. cbv beta zeta in H'.
    repeat (apply andb_true_iff in H' as (H' & ?)).
    repeat match goal with
           | H : (_ <=? _) = true |- _ => apply Z.leb_le in H
           | H : (_ <? _) = true |- _ => apply Z.ltb_lt in H
           end.
    lia. }
  destruct (H2 a b Ha Hb) as (E2 & _ & E1 & _).
  destruct (H2 b c Hb Hc) as (_ & E3 & _ & _).
  destruct (H2 c c Hc Hc) as (_ & _ & _ & E4).
  auto.
Qed.

(** The decoder's three characters are the three bytes. *)
Lemma chr1_byte (a b : Z) :
  isByte a -> isByte b ->
  Z.lor (Z.shiftl (Z.shiftr a 2) 2)
        (Z.shiftr (Z.lor (Z.shiftl (Z.land a 3) 4) (Z.shiftr b 4)) 4) = a.
Proof.
  intros Ha Hb.
  pose proof (below_forall
                (fun a => forallb
                   (fun b =>
                      Z.lor (Z.shiftl (Z.shiftr a 2) 2)
                        (Z.shiftr (Z.lor (Z.shiftl (Z.land a 3) 4)
                                     (Z.shiftr b 4)) 4) =? a)
                   (map Z.of_nat (seq 0 256)))
                256 ltac:(vm_compute; reflexivity) a Ha) as H.
  cbv beta in H. apply Z.eqb_eq. exact (below_forall _ 256 H b Hb).
Qed.

Lemma chr2_byte (a b c : Z) :
  isByte a -> isByte b -> isByte c ->
  Z.lor (Z.shiftl (Z.land (Z.lor (Z.shiftl (Z.land a 3) 4) (Z.shiftr b 4)) 15) 4)
        (Z.shiftr (Z.lor (Z.shiftl (Z.land b 15) 2) (Z.shiftr c 6)) 2) = b.
Proof.
  unfold isByte. intros Ha Hb Hc.
  assert (Hx : 0 <= Z.land a 3 < 4).
  { change 3 with (Z.ones 2). rewrite Z.land_ones by lia.
    apply Z.mod_pos_bound. reflexivity. }
  assert (Hy : 0 <= Z.shiftr c 6 < 4).
  { rewrite Z.shiftr_div_pow2 by lia. change (2 ^ 6) with 64.
    split; [apply Z.div_pos; lia | apply Z.div_lt_upper_bound; lia]. }
  generalize dependent (Z.shiftr c 6). generalize dependent (Z.land a 3).
  intros x Hx y Hy.
  pose proof (below_forall
                (fun x => forallb
                   (fun b => forallb
                      (fun y =>
                         Z.lor (Z.shiftl (Z.land (Z.lor (Z.shiftl x 4)
                                                    (Z.shiftr b 4)) 15) 4)
                           (Z.shiftr (Z.lor (Z.shiftl (Z.land b 15) 2) y) 2)
                         =? b)
                      (map Z.of_nat (seq 0 4)))
                   (map Z.of_nat (seq 0 256)))
                4 ltac:(vm_compute; reflexivity) x Hx) as H.
  cbv beta in H. pose proof (below_forall _ 256 H b Hb) as H'.
  cbv beta in H'. apply Z.eqb_eq. exact (below_forall _ 4 H' y Hy).
Qed.

Lemma chr3_byte (b c : Z) :
  isByte b -> isByte c ->
  Z.lor (Z.shiftl (Z.land (Z.lor (Z.shiftl (Z.land b 15) 2) (Z.shiftr c 6)) 3) 6)
        (Z.land c 63) = c.
Proof.
  intros Hb Hc.
  pose proof (below_forall
                (fun b => forallb
                   (fun c =>
                      Z.lor (Z.shiftl (Z.land (Z.lor (Z.shiftl (Z.land b 15) 2)
                                                 (Z.shiftr c 6)) 3) 6)
                        (Z.land c 63) =? c)
                   (map Z.of_nat (seq 0 256)))
                256 ltac:(vm_compute; reflexivity) b Hb) as H.
  cbv beta in H. apply Z.eqb_eq. exact (below_forall _ 256 H c Hc).
Qed.

Lemma fromCharCode_byte (b : Z) : isByte b -> fromCharCode b = b.
Proof. unfold isByte, fromCharCode. intros Hb. apply Z.mod_small. lia. Qed.

Lemma isByte_zero : isByte 0.
Proof. unfold isByte. lia. Qed.

(** Induction on a list three elements at a time. *)
Lemma list_ind3 {A : Type} (P : list A -> Prop) :
  P [] -> (forall a, P [a]) -> (forall a b, P [a; b]) ->
  (forall a b c l, P l -> P (a :: b :: c :: l)) ->
  forall l, P l.
Proof.
  intros H0 H1 H2 H3.
  assert (Hall : forall l, P l /\ (forall a, P (a :: l))
                           /\ (forall a b, P (a :: b :: l))).
  { induction l as [| x l (IH0 & IH1 & IH2)]; [auto |].
    split; [apply IH1 |]. split; [intros a; apply IH2 |].
    intros a b. apply H3. exact IH0. }
  intros l. apply Hall.
Qed.

(** The groups of the encoding, as numbers: of three bytes, of two bytes
    with one padding character, of one byte with two. *)
Lemma group_three (a b c : Z) :
  isByte a -> isByte b -> isByte c ->
  group (Z.shiftr a 2)
        (Z.lor (Z.shiftl (Z.land a 3) 4) (Z.shiftr b 4))
        (Z.lor (Z.shiftl (Z.land b 15) 2) (Z.shiftr c 6))
        (Z.land c 63)
  = [a; b; c].
Proof.
  intros Ha Hb Hc.
  destruct (digits_small a b c Ha Hb Hc) as (E1 & E2 & E3 & E4).
  unfold group. cbv zeta.
  rewrite (chr1_byte a b Ha Hb), (chr2_byte a b c Ha Hb Hc),
    (chr3_byte b c Hb Hc).
  replace (Z.lor (Z.shiftl (Z.land b 15) 2) (Z.shiftr c 6) =? 64) with false
    by (symmetry; apply Z.eqb_neq; lia).
  replace (Z.land c 63 =? 64) with false by (symmetry; apply Z.eqb_neq; lia).
  rewrite !fromCharCode_byte by assumption. reflexivity.
Qed.

Lemma group_two (a b : Z) :
  isByte a -> isByte b ->
  group (Z.shiftr a 2)
        (Z.lor (Z.shiftl (Z.land a 3) 4) (Z.shiftr b 4))
        (Z.shiftl (Z.land b 15) 2)
        64
  = [a; b].
Proof.
  intros Ha Hb.
  destruct (digits_small a b 0 Ha Hb isByte_zero) as (E1 & E2 & E3 & _).
  pose proof (chr2_byte a b 0 Ha Hb isByte_zero) as H2.
  change (Z.shiftr 0 6) with 0 in E3, H2. rewrite Z.lor_0_r in E3, H2.
  unfold group. cbv zeta.
  rewrite (chr1_byte a b Ha Hb), H2.
  replace (Z.shiftl (Z.land b 15) 2 =? 64) with false
    by (symmetry; apply Z.eqb_neq; lia).
  change (64 =? 64) with true. cbv iota.
  rewrite !fromCharCode_byte by assumption. reflexivity.
Qed.

Lemma group_one (a : Z) :
  isByte a ->
  group (Z.shiftr a 2) (Z.shiftl (Z.land a 3) 4) 64 64 = [a].
Proof.
  intros Ha.
  pose proof (chr1_byte a 0 Ha isByte_zero) as H1.
  change (Z.shiftr 0 4) with 0 in H1. rewrite Z.lor_0_r in H1.
  unfold group. cbv zeta. rewrite H1.
  change (64 =? 64) with true. cbv iota.
  rewrite fromCharCode_byte by assumption. reflexivity.
Qed.

Lemma enc_padding : enc (Some "="%char) = 64.
Proof. reflexivity. Qed.

Lemma decodeGroups_encode (bytes : list Z) :
  Forall isByte bytes -> decodeGroups (encode bytes) = bytes.
Proof.
  induction bytes as [| a | a b | a b c rest IH] using list_ind3; intros Hb.
  - reflexivity.
  - inversion Hb as [| ? ? Ha _]; subst.
    destruct (digits_small a 0 0 Ha isByte_zero isByte_zero) as (E1 & E2 & _).
    change (Z.shiftr 0 4) with 0 in E2. rewrite Z.lor_0_r in E2.
    cbn [encode decodeGroups]. rewrite !enc_padding.
    destruct (digit_enc (Z.shiftr a 2) ltac:(lia)) as (-> & _).
    destruct (digit_enc (Z.shiftl (Z.land a 3) 4) ltac:(lia)) as (-> & _).
    rewrite app_nil_r. apply group_one, Ha.
  - inversion Hb as [| ? ? Ha Hb']; subst.
    inversion Hb' as [| ? ? Hb0 _]; subst.
    destruct (digits_small a b 0 Ha Hb0 isByte_zero) as (E1 & E2 & E3 & _).
    change (Z.shiftr 0 6) with 0 in E3. rewrite Z.lor_0_r in E3.
    cbn [encode decodeGroups]. rewrite !enc_padding.
    destruct (digit_enc (Z.shiftr a 2) ltac:(lia)) as (-> & _).
    destruct (digit_enc (Z.lor (Z.shiftl (Z.land a 3) 4) (Z.shiftr b 4))
                ltac:(lia)) as (-> & _).
    destruct (digit_enc (Z.shiftl (Z.land b 15) 2) ltac:(lia)) as (-> & _).
    rewrite app_nil_r. apply group_two; assumption.
  - inversion Hb as [| ? ? Ha Hb1]; subst.
    inversion Hb1 as [| ? ? Hb0 Hb2]; subst.
    inversion Hb2 as [| ? ? Hc Hrest]; subst.
    destruct (digits_small a b c Ha Hb0 Hc) as (E1 & E2 & E3 & E4).
    change (encode (a :: b :: c :: rest))
      with ([digit (Z.shiftr a 2);
             digit (Z.lor (Z.shiftl (Z.land a 3) 4) (Z.shiftr b 4));
             digit (Z.lor (Z.shiftl (Z.land b 15) 2) (Z.shiftr c 6));
             digit (Z.land c 63)] ++ encode rest).
    cbn [app decodeGroups].
    destruct (digit_enc (Z.shiftr a 2) ltac:(lia)) as (-> & _).
    destruct (digit_enc (Z.lor (Z.shiftl (Z.land a 3) 4) (Z.shiftr b 4))
                ltac:(lia)) as (-> & _).
    destruct (digit_enc (Z.lor (Z.shiftl (Z.land b 15) 2) (Z.shiftr c 6))
                ltac:(lia)) as (-> & _).
    destruct (digit_enc (Z.land c 63) ltac:(lia)) as (-> & _).
    rewrite (group_three a b c Ha Hb0 Hc), (IH Hrest). reflexivity.
Qed.

Lemma encode_in_alphabet (bytes : list Z) :
  Forall isByte bytes -> filter inAlphabet (encode bytes) = encode bytes.
Proof.
  induction bytes as [| a | a b | a b c rest IH] using list_ind3; intros Hb.
  - reflexivity.
  - inversion Hb as [| ? ? Ha _]; subst.
    destruct (digits_small a 0 0 Ha isByte_zero isByte_zero) as (E1 & E2 & _).
    change (Z.shiftr 0 4) with 0 in E2. rewrite Z.lor_0_r in E2.
    destruct (digit_enc (Z.shiftr a 2) ltac:(lia)) as (_ & H1).
    destruct (digit_enc (Z.shiftl (Z.land a 3) 4) ltac:(lia)) as (_ & H2).
    cbn [encode filter]. rewrite H1, H2. reflexivity.
  - inversion Hb as [| ? ? Ha Hb']; subst.
    inversion Hb' as [| ? ? Hb0 _]; subst.
    destruct (digits_small a b 0 Ha Hb0 isByte_zero) as (E1 & E2 & E3 & _).
    change (Z.shiftr 0 6) with 0 in E3. rewrite Z.lor_0_r in E3.
    destruct (digit_enc (Z.shiftr a 2) ltac:(lia)) as (_ & H1).
    destruct (digit_enc (Z.lor (Z.shiftl (Z.land a 3) 4) (Z.shiftr b 4))
                ltac:(lia)) as (_ & H2).
    destruct (digit_enc (Z.shiftl (Z.land b 15) 2) ltac:(lia)) as (_ & H3).
    cbn [encode filter]. rewrite H1, H2, H3. reflexivity.
  - inversion Hb as [| ? ? Ha Hb1]; subst.
    inversion Hb1 as [| ? ? Hb0 Hb2]; subst.
    inversion Hb2 as [| ? ? Hc Hrest]; subst.
    destruct (digits_small a b c Ha Hb0 Hc) as (E1 & E2 & E3 & E4).
    destruct (digit_enc (Z.shiftr a 2) ltac:(lia)) as (_ & H1).
    destruct (digit_enc (Z.lor (Z.shiftl (Z.land a 3) 4) (Z.shiftr b 4))
                ltac:(lia)) as (_ & H2).
    destruct (digit_enc (Z.lor (Z.shiftl (Z.land b 15) 2) (Z.shiftr c 6))
                ltac:(lia)) as (_ & H3).
    destruct (digit_enc (Z.land c 63) ltac:(lia)) as (_ & H4).
    change (encode (a :: b :: c :: rest))
      with ([digit (Z.shiftr a 2);
             digit (Z.lor (Z.shiftl (Z.land a 3) 4) (Z.shiftr b 4));
             digit (Z.lor (Z.shiftl (Z.land b 15) 2) (Z.shiftr c 6));
             digit (Z.land c 63)] ++ encode rest).
    cbn [app filter]. rewrite H1, H2, H3, H4, (IH Hrest). reflexivity.
Qed.

End Base64Facts.

(** X17: [base64Decode] inverts the standard base 64 encoding with
    padding. If, characters outside the alphabet left aside, the input is
    the encoding of a list of bytes, the decoded string has exactly these
    bytes as its characters; in particular the encoding itself decodes to
    the bytes. *)
Theorem base64Decode_roundtrip (base64 : string) (bytes : list Z) :
  Forall Burner.isByte bytes ->
  (filter Burner.inAlphabet (list_ascii_of_string base64) = Burner.encode bytes ->
   Burner.base64Decode base64 = bytes)
  /\ Burner.base64Decode (string_of_list_ascii (Burner.encode bytes)) = bytes.
Proof.
  intros Hbytes. unfold Burner.base64Decode. split.
  - intros ->. apply Base64Facts.decodeGroups_encode, Hbytes.
  - rewrite list_ascii_of_string_of_list_ascii,
      (Base64Facts.encode_in_alphabet bytes Hbytes).
    apply Base64Facts.decodeGroups_encode, Hbytes.
Qed.

(** "Hi!" and "Hi", the second with padding and a line break inside. *)
Lemma base64Decode_roundtrip_witness :
  Burner.base64Decode "SGkh" = [72; 105; 33]
  /\ Burner.base64Decode ("SG" ++ JS.newline ++ "k=") = [72; 105].
Proof.
  split.
  - destruct (base64Decode_roundtrip "SGkh" [72; 105; 33]) as (H & _).
    + repeat constructor; discriminate.
    + apply H. reflexivity.
  - destruct (base64Decode_roundtrip ("SG" ++ JS.newline ++ "k=") [72; 105])
      as (H & _).
    + repeat constructor; discriminate.
    + apply H. reflexivity.
Defined.

Module Base64Unpadded.
Import Burner.

(** The digits of six bits are not the padding character. *)
Lemma digit_not_padding (n : Z) :
  0 <= n < 64 -> negb (Ascii.eqb (digit n) "=") = true.
Proof.
  intros Hn.
  exact (Base64Facts.below_forall
           (fun n => negb (Ascii.eqb (digit n) "="))
           64 ltac:(vm_compute; reflexivity) n Hn).
Qed.

(** A group cut after two or three characters: the missing ones count
    as 0. *)
Lemma group_one_cut (a : Z) :
  isByte a ->
  group (Z.shiftr a 2) (Z.shiftl (Z.land a 3) 4) 0 0 = [a; 0; 0].
Proof.
  intros Ha.
  pose proof (Base64Facts.chr1_byte a 0 Ha Base64Facts.isByte_zero) as H1.
  change (Z.shiftr 0 4) with 0 in H1. rewrite Z.lor_0_r in H1.
  assert (H2 : Z.land (Z.shiftl (Z.land a 3) 4) 15 = 0).
  { apply Z.eqb_eq.
    exact (Base64Facts.below_forall
             (fun a => Z.land (Z.shiftl (Z.land a 3) 4) 15 =? 0)
             256 ltac:(vm_compute; reflexivity) a Ha). }
  unfold group. cbv zeta. rewrite H1, H2.
  rewrite (Base64Facts.fromCharCode_byte a Ha). reflexivity.
Qed.

Lemma group_two_cut (a b : Z) :
  isByte a -> isByte b ->
  group (Z.shiftr a 2)
        (Z.lor (Z.shiftl (Z.land a 3) 4) (Z.shiftr b 4))
        (Z.shiftl (Z.land b 15) 2)
        0
  = [a; b; 0].
Proof.
  intros Ha Hb.
  destruct (Base64Facts.digits_small a b 0 Ha Hb Base64Facts.isByte_zero)
    as (_ & _ & E3 & _).
  pose proof (Base64Facts.chr2_byte a b 0 Ha Hb Base64Facts.isByte_zero) as H2.
  change (Z.shiftr 0 6) with 0 in E3, H2. rewrite Z.lor_0_r in E3, H2.
  assert (H3 : Z.land (Z.shiftl (Z.land b 15) 2) 3 = 0).
  { apply Z.eqb_eq.
    exact (Base64Facts.below_forall
             (fun b => Z.land (Z.shiftl (Z.land b 15) 2) 3 =? 0)
             256 ltac:(vm_compute; reflexivity) b Hb). }
  unfold group. cbv zeta.
  rewrite (Base64Facts.chr1_byte a b Ha Hb), H2, H3.
  replace (Z.shiftl (Z.land b 15) 2 =? 64) with false
    by (symmetry; apply Z.eqb_neq; lia).
  rewrite !Base64Facts.fromCharCode_byte by assumption. reflexivity.
Qed.

Lemma tail_three (a b c : Z) (rest : list Z) :
  ((3 - List.length (a :: b :: c :: rest) mod 3) mod 3
   = (3 - List.length rest mod 3) mod 3)%nat.
Proof.
  replace (List.length (a :: b :: c :: rest))
    with (List.length rest + 1 * 3)%nat by (simpl; lia).
  rewrite Nat.Div0.mod_add. reflexivity.
Qed.

Lemma decodeGroups_unpadded (bytes : list Z) :
  Forall isByte bytes ->
  decodeGroups (filter (fun c => negb (Ascii.eqb c "=")) (encode bytes))
  = bytes ++ repeat 0 ((3 - List.length bytes mod 3) mod 3)%nat.
Proof.
  induction bytes as [| a | a b | a b c rest IH] using Base64Facts.list_ind3;
    intros Hb.
  - reflexivity.
  - inversion Hb as [| ? ? Ha _]; subst.
    destruct (Base64Facts.digits_small a 0 0 Ha Base64Facts.isByte_zero
                Base64Facts.isByte_zero) as (E1 & E2 & _).
    change (Z.shiftr 0 4) with 0 in E2. rewrite Z.lor_0_r in E2.
    cbn [encode filter].
    rewrite (digit_not_padding (Z.shiftr a 2)) by lia.
    rewrite (digit_not_padding (Z.shiftl (Z.land a 3) 4)) by lia.
    change (negb (Ascii.eqb "=" "=")) with false. cbv iota.
    cbn [decodeGroups]. change (enc None) with 0.
    destruct (Base64Facts.digit_enc (Z.shiftr a 2) ltac:(lia)) as (-> & _).
    destruct (Base64Facts.digit_enc (Z.shiftl (Z.land a 3) 4) ltac:(lia))
      as (-> & _).
    rewrite (group_one_cut a Ha). reflexivity.
  - inversion Hb as [| ? ? Ha Hb']; subst.
    inversion Hb' as [| ? ? Hb0 _]; subst.
    destruct (Base64Facts.digits_small a b 0 Ha Hb0 Base64Facts.isByte_zero)
      as (E1 & E2 & E3 & _).
    change (Z.shiftr 0 6) with 0 in E3. rewrite Z.lor_0_r in E3.
    cbn [encode filter].
    rewrite (digit_not_padding (Z.shiftr a 2)) by lia.
    rewrite (digit_not_padding
               (Z.lor (Z.shiftl (Z.land a 3) 4) (Z.shiftr b 4))) by lia.
    rewrite (digit_not_padding (Z.shiftl (Z.land b 15) 2)) by lia.
    change (negb (Ascii.eqb "=" "=")) with false. cbv iota.
    cbn [decodeGroups]. change (enc None) with 0.
    destruct (Base64Facts.digit_enc (Z.shiftr a 2) ltac:(lia)) as (-> & _).
    destruct (Base64Facts.digit_enc
                (Z.lor (Z.shiftl (Z.land a 3) 4) (Z.shiftr b 4)) ltac:(lia))
      as (-> & _).
    destruct (Base64Facts.digit_enc (Z.shiftl (Z.land b 15) 2) ltac:(lia))
      as (-> & _).
    rewrite (group_two_cut a b Ha Hb0). reflexivity.
  - inversion Hb as [| ? ? Ha Hb1]; subst.
    inversion Hb1 as [| ? ? Hb0 Hb2]; subst.
    inversion Hb2 as [| ? ? Hc Hrest]; subst.
    destruct (Base64Facts.digits_small a b c Ha Hb0 Hc) as (E1 & E2 & E3 & E4).
    rewrite tail_three.
    change (encode (a :: b :: c :: rest))
      with ([digit (Z.shiftr a 2);
             digit (Z.lor (Z.shiftl (Z.land a 3) 4) (Z.shiftr b 4));
             digit (Z.lor (Z.shiftl (Z.land b 15) 2) (Z.shiftr c 6));
             digit (Z.land c 63)] ++ encode rest).
    cbn [app filter].
    rewrite (digit_not_padding (Z.shiftr a 2)) by lia.
    rewrite (digit_not_padding
               (Z.lor (Z.shiftl (Z.land a 3) 4) (Z.shiftr b 4))) by lia.
    rewrite (digit_not_padding
               (Z.lor (Z.shiftl (Z.land b 15) 2) (Z.shiftr c 6))) by lia.
    rewrite (digit_not_padding (Z.land c 63)) by lia.
    cbv iota. cbn [decodeGroups].
    destruct (Base64Facts.digit_enc (Z.shiftr a 2) ltac:(lia)) as (-> & _).
    destruct (Base64Facts.digit_enc
                (Z.lor (Z.shiftl (Z.land a 3) 4) (Z.shiftr b 4)) ltac:(lia))
      as (-> & _).
    destruct (Base64Facts.digit_enc
                (Z.lor (Z.shiftl (Z.land b 15) 2) (Z.shiftr c 6)) ltac:(lia))
      as (-> & _).
    destruct (Base64Facts.digit_enc (Z.land c 63) ltac:(lia)) as (-> & _).
    rewrite (Base64Facts.group_three a b c Ha Hb0 Hc), (IH Hrest).
    reflexivity.
Qed.

Lemma filter_all {A : Type} (f : A -> bool) (l : list A) :
  (forall x, In x l -> f x = true) -> filter f l = l.
Proof.
  induction l as [| x l IH]; intros Hall; [reflexivity |].
  simpl. rewrite (Hall x (or_introl eq_refl)), IH; [reflexivity |].
  intros y Hy. apply Hall. right. exact Hy.
Qed.

Lemma filter_subset {A : Type} (f : A -> bool) (l : list A) :
  filter f l = l -> forall g, filter f (filter g l) = filter g l.
Proof.
  intros Hl g. apply filter_all. intros x Hin.
  apply filter_In in Hin as (Hin & _).
  rewrite <- Hl in Hin. apply filter_In in Hin as (_ & Hf). exact Hf.
Qed.

End Base64Unpadded.

(** X18: without the padding the decoder does not stop at the end of the
    data. The encoding of a list of bytes with its "=" characters left out
    decodes to the bytes followed by a character of code 0 for each "="
    left out: none when the number of bytes is a multiple of three, one
    after a tail of two bytes, two after a tail of one. *)
Theorem base64Decode_unpadded (bytes : list Z) :
  Forall Burner.isByte bytes ->
  Burner.base64Decode
    (string_of_list_ascii
       (filter (fun c => negb (Ascii.eqb c "=")) (Burner.encode bytes)))
  = bytes ++ repeat 0 ((3 - List.length bytes mod 3) mod 3)%nat.
Proof.
  intros Hbytes. unfold Burner.base64Decode.
  rewrite list_ascii_of_string_of_list_ascii.
  rewrite (Base64Unpadded.filter_subset Burner.inAlphabet _
             (Base64Facts.encode_in_alphabet bytes Hbytes)).
  apply Base64Unpadded.decodeGroups_unpadded, Hbytes.
Qed.

(** "Hi" as "SGk" instead of "SGk=". *)
Lemma base64Decode_unpadded_witness :
  Burner.base64Decode "SGk" = [72; 105; 0].
Proof.
  apply (base64Decode_unpadded [72; 105]).
  repeat constructor; discriminate.
Defined.

(** ** The camera trigger zones *)

Module CameraTriggersFacts.
Import Camera CameraOps CameraTriggers.

Section WithMath.
Variables (Math_sin Math_cos : Q -> Q) (Math_PI : Q).

(** The two flags of the tree zone move together, and are set exactly when
    the zone has been entered; likewise for the NPC zone. *)
Lemma run_flags (events : list Event) (t : State) :
  treeCameraActive t = treeTriggerUsed t ->
  npcCameraActive t = npcTriggerUsed t ->
  let t' := run Math_sin Math_cos Math_PI events t in
  treeCameraActive t' = treeTriggerUsed t'
  /\ treeTriggerUsed t' = treeTriggerUsed t || existsb isTreeEnter events
  /\ npcCameraActive t' = npcTriggerUsed t'
  /\ npcTriggerUsed t' = npcTriggerUsed t || existsb isNpcEnter events.
Proof.
  revert t. induction events as [| e events IH]; intros t Htree Hnpc.
  - simpl. rewrite !orb_false_r. auto.
  - cbn [run fold_left existsb].
    assert (Hstep :
              treeCameraActive (step Math_sin Math_cos Math_PI t e)
              = treeTriggerUsed (step Math_sin Math_cos Math_PI t e)
              /\ treeTriggerUsed (step Math_sin Math_cos Math_PI t e)
                 = treeTriggerUsed t || isTreeEnter e
              /\ npcCameraActive (step Math_sin Math_cos Math_PI t e)
                 = npcTriggerUsed (step Math_sin Math_cos Math_PI t e)
              /\ npcTriggerUsed (step Math_sin Math_cos Math_PI t e)
                 = npcTriggerUsed t || isNpcEnter e).
    { destruct e; simpl;
        unfold treeTriggerZone_onEnter, portalTriggerZone_onEnter,
          portalTriggerZone_onExit, npcTriggerZone_onEnter;
        rewrite ?Htree, ?Hnpc;
        destruct (treeTriggerUsed t) eqn:Hused;
        destruct (npcTriggerUsed t) eqn:Hnused;
        destruct (portalCameraActive t); simpl;
        rewrite ?Htree, ?Hnpc, ?Hused, ?Hnused; auto. }
    destruct Hstep as (H1 & H2 & H3 & H4).
    destruct (IH _ H1 H3) as (I1 & I2 & I3 & I4).
    fold (run Math_sin Math_cos Math_PI events
            (step Math_sin Math_cos Math_PI t e)).
    split; [exact I1 |]. split; [rewrite I2, H2, orb_assoc; reflexivity |].
    split; [exact I3 |]. rewrite I4, H4, orb_assoc. reflexivity.
Qed.

Lemma step_coherent (e : Event) (t : State) :
  Coherent (cam (world t)) ->
  Coherent (cam (world (step Math_sin Math_cos Math_PI t e))).
Proof.
  intros Hcoh. destruct e; simpl.
  - unfold treeTriggerZone_onEnter.
    destruct (negb (treeCameraActive t) && negb (treeTriggerUsed t));
      [| exact Hcoh].
    exact (CameraOpsFacts.apply_coherent Math_sin Math_cos Math_PI
             (TreeStart playerPos facing now) (world t) Hcoh).
  - unfold portalTriggerZone_onEnter.
    destruct (negb (portalCameraActive t)); [| exact Hcoh].
    exact (CameraOpsFacts.apply_coherent Math_sin Math_cos Math_PI
             (PortalStart now) (world t) Hcoh).
  - unfold portalTriggerZone_onExit.
    destruct (portalCameraActive t); [| exact Hcoh].
    exact (CameraOpsFacts.apply_coherent Math_sin Math_cos Math_PI
             ResetToDefault (world t) Hcoh).
  - unfold npcTriggerZone_onEnter.
    destruct (negb (npcCameraActive t) && negb (npcTriggerUsed t));
      [| exact Hcoh].
    exact (CameraOpsFacts.apply_coherent Math_sin Math_cos Math_PI
             (NpcStart playerPos now) (world t) Hcoh).
  - exact (CameraOpsFacts.apply_coherent Math_sin Math_cos Math_PI
             op (world t) Hcoh).
Qed.

Lemma triggers_run_coherent (events : list Event) (t : State) :
  Coherent (cam (world t)) ->
  Coherent (cam (world (run Math_sin Math_cos Math_PI events t))).
Proof.
  revert t. induction events as [| e events IH]; intros t Hcoh;
    [exact Hcoh |].
  apply IH, step_coherent, Hcoh.
Qed.

(** The portal flag survives everything but an exit of the portal zone. *)
Lemma run_portal_flag (events : list Event) (t : State) :
  portalCameraActive t = true ->
  existsb isPortalExit events = false ->
  portalCameraActive (run Math_sin Math_cos Math_PI events t) = true.
Proof.
  revert t. induction events as [| e events IH]; intros t Hflag Hnone;
    [exact Hflag |].
  cbn [existsb] in Hnone. apply orb_false_iff in Hnone as (He & Hnone).
  apply IH; [| exact Hnone].
  destruct e; simpl in *;
    unfold treeTriggerZone_onEnter, portalTriggerZone_onEnter,
      npcTriggerZone_onEnter;
    try discriminate He; try exact Hflag.
  - destruct (negb (treeCameraActive t) && negb (treeTriggerUsed t));
      exact Hflag.
  - rewrite Hflag. exact Hflag.
  - destruct (negb (npcCameraActive t) && negb (npcTriggerUsed t));
      exact Hflag.
Qed.

Lemma portal_enter_flag (now : Z) (t : State) :
  portalCameraActive (portalTriggerZone_onEnter now t) = true.
Proof.
  unfold portalTriggerZone_onEnter.
  destruct (portalCameraActive t) eqn:Hflag; simpl; [exact Hflag | reflexivity].
Qed.

Lemma triggers_run_app (l1 l2 : list Event) (t : State) :
  run Math_sin Math_cos Math_PI (l1 ++ l2) t
  = run Math_sin Math_cos Math_PI l2 (run Math_sin Math_cos Math_PI l1 t).
Proof. apply fold_left_app. Qed.

End WithMath.

End CameraTriggersFacts.

(** X19: the tree cinematic and the NPC cinematic play once. After any
    sequence of trigger events and camera operations since the start of the
    scene, entering the tree zone starts the tree sequence if the zone was
    never entered before, and changes nothing at all if it was; the same
    holds for the NPC zone and the NPC sequence. *)
Theorem tree_and_npc_cinematics_play_once
        (Math_sin Math_cos : Q -> Q) (Math_PI : Q)
        (events : list CameraTriggers.Event)
        (playerPos : Vector3) (facing : Q) (now : Z) :
  let t := CameraTriggers.run Math_sin Math_cos Math_PI events
             CameraTriggers.initial in
  let tree := CameraTriggers.step Math_sin Math_cos Math_PI t
                (CameraTriggers.TreeEnter playerPos facing now) in
  let npc := CameraTriggers.step Math_sin Math_cos Math_PI t
               (CameraTriggers.NpcEnter playerPos now) in
  (existsb CameraTriggers.isTreeEnter events = true -> tree = t)
  /\ (existsb CameraTriggers.isTreeEnter events = false ->
      Camera.animationType (CameraOps.cam (CameraTriggers.world tree))
      = Some Camera.anim_tree
      /\ Camera.virtualCameraEntity (CameraOps.cam (CameraTriggers.world tree))
         = Some Camera.treeCinematicCamera)
  /\ (existsb CameraTriggers.isNpcEnter events = true -> npc = t)
  /\ (existsb CameraTriggers.isNpcEnter events = false ->
      Camera.animationType (CameraOps.cam (CameraTriggers.world npc))
      = Some Camera.anim_npc
      /\ Camera.virtualCameraEntity (CameraOps.cam (CameraTriggers.world npc))
         = Some Camera.npcCinematicCamera).
Proof.
  intros t tree npc.
  destruct (CameraTriggersFacts.run_flags Math_sin Math_cos Math_PI events
              CameraTriggers.initial eq_refl eq_refl)
    as (Htree & Hused & Hnpc & Hnused).
  fold t in Htree, Hused, Hnpc, Hnused. simpl in Hused, Hnused.
  subst tree npc. simpl.
  unfold CameraTriggers.treeTriggerZone_onEnter,
    CameraTriggers.npcTriggerZone_onEnter.
  rewrite Htree, Hnpc, Hused, Hnused.
  split; [intros Hev; rewrite Hev; reflexivity |].
  split; [intros Hev; rewrite Hev; simpl; auto |].
  split; [intros Hev; rewrite Hev; reflexivity |].
  intros Hev. rewrite Hev. simpl. auto.
Qed.

(** A second entry of the tree zone, after the dialog has reset the
    camera. *)
Lemma tree_and_npc_cinematics_play_once_witness :
  let t := CameraTriggers.run (fun _ => 0%Q) (fun _ => 1%Q) (3 # 1)%Q
             [CameraTriggers.TreeEnter (Vec.create 144 2 108) 0%Q 0;
              CameraTriggers.Other (CameraOps.ResetTreeCamera 60000);
              CameraTriggers.Other CameraOps.ResetToDefault]
             CameraTriggers.initial in
  CameraTriggers.step (fun _ => 0%Q) (fun _ => 1%Q) (3 # 1)%Q t
    (CameraTriggers.TreeEnter (Vec.create 144 2 108) 0%Q 70000) = t.
Proof.
  intros t.
  destruct (tree_and_npc_cinematics_play_once
              (fun _ => 0%Q) (fun _ => 1%Q) (3 # 1)%Q
              [CameraTriggers.TreeEnter (Vec.create 144 2 108) 0%Q 0;
               CameraTriggers.Other (CameraOps.ResetTreeCamera 60000);
               CameraTriggers.Other CameraOps.ResetToDefault]
              (Vec.create 144 2 108) 0%Q 70000) as (H & _).
  apply H. reflexivity.
Defined.

(** X20: leaving the portal zone ends whatever sequence is running. If the
    portal zone was entered and not left since, then at its exit callback
    the main camera goes back to the player and no sequence is left
    animating: also a tree, NPC, running or landing sequence that had
    taken the camera over in between. *)
Theorem portal_exit_frees_camera
        (Math_sin Math_cos : Q -> Q) (Math_PI : Q)
        (before between : list CameraTriggers.Event) (now : Z) :
  existsb CameraTriggers.isPortalExit between = false ->
  let t := CameraTriggers.run Math_sin Math_cos Math_PI
             (before ++ CameraTriggers.PortalEnter now :: between
                ++ [CameraTriggers.PortalExit])
             CameraTriggers.initial in
  Camera.virtualCameraEntity (CameraOps.cam (CameraTriggers.world t)) = None
  /\ Camera.activeCinematicCamera (CameraOps.cam (CameraTriggers.world t)) = None
  /\ Camera.animationType (CameraOps.cam (CameraTriggers.world t)) = None
  /\ Camera.isAnimating (CameraOps.cam (CameraTriggers.world t)) = false
  /\ Camera.treeCameraPhase (CameraOps.cam (CameraTriggers.world t))
     = Camera.phase_tilt
  /\ CameraTriggers.portalCameraActive t = false.
Proof.
  intros Hnone t. subst t.
  rewrite CameraTriggersFacts.triggers_run_app.
  set (t0 := CameraTriggers.run Math_sin Math_cos Math_PI before
               CameraTriggers.initial).
  change (CameraTriggers.PortalEnter now :: between ++ [CameraTriggers.PortalExit])
    with ([CameraTriggers.PortalEnter now]
            ++ (between ++ [CameraTriggers.PortalExit])).
  rewrite !CameraTriggersFacts.triggers_run_app.
  set (t1 := CameraTriggers.run Math_sin Math_cos Math_PI
               [CameraTriggers.PortalEnter now] t0).
  set (t2 := CameraTriggers.run Math_sin Math_cos Math_PI between t1).
  assert (Hflag : CameraTriggers.portalCameraActive t2 = true).
  { apply CameraTriggersFacts.run_portal_flag; [| exact Hnone].
    apply CameraTriggersFacts.portal_enter_flag. }
  assert (Hcoh : CameraOps.Coherent (CameraOps.cam (CameraTriggers.world t2))).
  { unfold t2, t1, t0.
    rewrite <- !CameraTriggersFacts.triggers_run_app.
    apply CameraTriggersFacts.triggers_run_coherent, CameraOpsFacts.initial_coherent. }
  simpl. unfold CameraTriggers.portalTriggerZone_onExit. rewrite Hflag.
  simpl. destruct Hcoh as [Hb Hc Ha Hi].
  unfold Camera.resetToDefaultCamera.
  destruct (Camera.activeCinematicCamera (CameraOps.cam (CameraTriggers.world t2)))
    eqn:Hactive; simpl.
  - repeat split; reflexivity.
  - assert (Htype : Camera.animationType
                      (CameraOps.cam (CameraTriggers.world t2)) = None).
    { destruct (Camera.animationType (CameraOps.cam (CameraTriggers.world t2)));
        [discriminate Hc | reflexivity]. }
    repeat split; auto.
    destruct (Camera.isAnimating (CameraOps.cam (CameraTriggers.world t2)));
      [exfalso; apply Ha; auto | reflexivity].
Qed.

(** The tree zone is entered while the portal camera is on, then the portal
    zone is left. *)
Lemma portal_exit_frees_camera_witness :
  Camera.animationType
    (CameraOps.cam
       (CameraTriggers.world
          (CameraTriggers.run (fun _ => 0%Q) (fun _ => 1%Q) (3 # 1)%Q
             ([] ++ CameraTriggers.PortalEnter 0
                 :: [CameraTriggers.TreeEnter (Vec.create 144 2 108) 0%Q 500]
                 ++ [CameraTriggers.PortalExit])
             CameraTriggers.initial))) = None.
Proof.
  destruct (portal_exit_frees_camera (fun _ => 0%Q) (fun _ => 1%Q) (3 # 1)%Q
              [] [CameraTriggers.TreeEnter (Vec.create 144 2 108) 0%Q 500] 0
              eq_refl) as (_ & _ & H & _).
  exact H.
Defined.
